(** * lib/bitcoin.py: key management, codecs and ECIES of the Electrum client

    A shallow embedding of [lib/bitcoin.py] (Python 3).  Pure functions are
    Rocq functions into an exception monad; byte buffers are [list byte];
    Python integers are [Z].  The functions that the module imports from
    [hashlib], [hmac], [base64], [pyaes]/[Cryptodome] and [ecdsa] are the
    fields of the class [Library]; every definition of the module is
    stated over an arbitrary instance of it. *)

From Stdlib Require Import ZArith List String Ascii Bool Lia HexString.
From Stdlib.Strings Require Import Byte.
Import ListNotations.

Open Scope string_scope.
Open Scope list_scope.
Open Scope Z_scope.

(** ** Python values and exceptions *)

Definition bytes := list byte.

Inductive exn : Type :=
| Exception (msg : string)
| BaseException (msg : string)
| AssertionError
| TypeError
| ValueError
| IndexError
| RuntimeError
| UnboundLocalError
| UnicodeError
| InvalidPassword
| BadSignatureError
| LibraryError (origin : string).

Inductive result (A : Type) : Type :=
| Ok (a : A)
| Err (e : exn).

Arguments Ok {A} a.
Arguments Err {A} e.

Definition bind {A B : Type} (m : result A) (k : A -> result B) : result B :=
  match m with
  | Ok a => k a
  | Err e => Err e
  end.

Notation "x <- m ;; k" := (bind m (fun x => k))
  (at level 61, m at next level, right associativity).
Notation "' pat <- m ;; k" := (bind m (fun x => match x with pat => k end))
  (at level 61, pat pattern, m at next level, right associativity).

(** [try: r except AssertionError: handler] *)
Definition except_AssertionError {A : Type} (r handler : result A) : result A :=
  match r with
  | Err AssertionError => handler
  | _ => r
  end.

(** [assert cond] *)
Definition py_assert (cond : bool) : result unit :=
  if cond then Ok tt else Err AssertionError.

(** The objects the module passes where either text or binary data may
    arrive: [int], [str] and [bytes]. *)
Inductive pyobj : Type :=
| PyInt (n : Z)
| PyStr (s : string)
| PyBytes (b : bytes).

Definition byte_to_Z (b : byte) : Z := Z.of_N (Byte.to_N b).

Definition byte_of_Z (z : Z) : option byte :=
  if z <? 0 then None else Byte.of_N (Z.to_N z).

Definition ascii_to_Z (c : ascii) : Z := Z.of_N (N_of_ascii c).

Definition bytes_of_string (s : string) : bytes := list_byte_of_string s.

Definition len {A : Type} (l : list A) : Z := Z.of_nat (List.length l).

(** [l[start:stop]] with Python's treatment of negative and overlong
    indices. *)
Definition slice_index (n : Z) (i : Z) : nat :=
  Z.to_nat (if i <? 0 then Z.max 0 (n + i) else Z.min n i).

Definition slice {A : Type} (l : list A) (start stop : option Z) : list A :=
  let n := len l in
  let lo := match start with Some i => slice_index n i | None => O end in
  let hi := match stop with Some i => slice_index n i | None => List.length l end in
  firstn (hi - lo) (skipn lo l).

(** [l[i]] for [0 <= i]. *)
Definition getitem {A : Type} (l : list A) (i : Z) : result A :=
  if i <? 0 then Err IndexError
  else match nth_error l (Z.to_nat i) with
       | Some a => Ok a
       | None => Err IndexError
       end.

Definition enumerate {A : Type} (l : list A) : list (Z * A) :=
  combine (map Z.of_nat (seq 0 (List.length l))) l.

Definition byte_eqb (a b : byte) : bool := Byte.eqb a b.

Definition bytes_eqb (a b : bytes) : bool :=
  if list_eq_dec Byte.byte_eq_dec a b then true else false.

(** [chars.find(bytes([c]))]: the lowest index of the byte, or -1. *)
Fixpoint bytes_find (chars : bytes) (c : byte) : Z :=
  match chars with
  | [] => -1
  | x :: rest =>
      if byte_eqb x c then 0
      else let r := bytes_find rest c in
           if r <? 0 then -1 else 1 + r
  end.

(** [bytearray.append(x)] raises [ValueError] outside [range(256)]. *)
Definition bytearray_append (buf : bytes) (x : Z) : result bytes :=
  match byte_of_Z x with
  | Some b => Ok (buf ++ [b])
  | None => Err ValueError
  end.

(** [str.encode('ascii')], [str.encode('utf8')] on code points below 256,
    and [bytes.decode('ascii')]. *)
Definition is_ascii (c : ascii) : bool := ascii_to_Z c <? 128.

Definition encode_ascii (s : string) : result bytes :=
  if forallb is_ascii (list_ascii_of_string s)
  then Ok (bytes_of_string s) else Err UnicodeError.

Definition utf8_char (c : ascii) : bytes :=
  let n := ascii_to_Z c in
  if n <? 128 then [byte_of_ascii c]
  else match byte_of_Z (192 + n / 64), byte_of_Z (128 + n mod 64) with
       | Some hi, Some lo => [hi; lo]
       | _, _ => []
       end.

Definition encode_utf8 (s : string) : bytes :=
  flat_map utf8_char (list_ascii_of_string s).

Definition decode_ascii (b : bytes) : result string :=
  if forallb (fun x => byte_to_Z x <? 128) b
  then Ok (string_of_list_byte b) else Err UnicodeError.

Inductive encoding : Type := ascii_enc | utf8_enc.

(** ** lib/util.py helpers used by the module *)

(** Modelled from the spec: [lib.util.to_bytes], which is not among the
    sources; it returns [bytes] unchanged and encodes [str]. *)
Definition to_bytes (something : pyobj) (enc : encoding) : result bytes :=
  match something with
  | PyBytes b => Ok b
  | PyStr s => match enc with
               | ascii_enc => encode_ascii s
               | utf8_enc => Ok (encode_utf8 s)
               end
  | PyInt _ => Err TypeError
  end.

(** Modelled from the spec: [lib.util.assert_bytes], which is not among
    the sources; it asserts that each argument is a [bytes] object. *)
Definition is_bytes (x : pyobj) : bool :=
  match x with PyBytes _ => true | _ => false end.

Definition assert_bytes (args : list pyobj) : result unit :=
  py_assert (forallb is_bytes args).

(** The buffer of an object that passed [assert_bytes]. *)
Definition bytes_value (x : pyobj) : bytes :=
  match x with PyBytes b => b | _ => [] end.

(** Hexadecimal text: [bh2u] is [binascii.hexlify(..).decode('ascii')] and
    [bfh] is [bytes.fromhex]. *)
Definition hex_digit (n : Z) : ascii :=
  match n with
  | 0 => "0" | 1 => "1" | 2 => "2" | 3 => "3" | 4 => "4" | 5 => "5"
  | 6 => "6" | 7 => "7" | 8 => "8" | 9 => "9" | 10 => "a" | 11 => "b"
  | 12 => "c" | 13 => "d" | 14 => "e" | _ => "f"
  end%char.

Definition hex_of_byte (b : byte) : string :=
  let n := byte_to_Z b in
  String (hex_digit (n / 16)) (String (hex_digit (n mod 16)) "").

Definition bh2u (x : bytes) : string :=
  fold_right (fun b acc => (hex_of_byte b ++ acc)%string) "" x.

(** ASCII whitespace: space, tab, line feed, vertical tab, form feed and
    carriage return. *)
Definition is_space (c : ascii) : bool :=
  let n := ascii_to_Z c in
  (n =? 32) || ((9 <=? n) && (n <=? 13)).

(** [bytes.fromhex] reads two hexadecimal digits per byte and skips ASCII
    whitespace before a pair, not inside one; anything else is a
    [ValueError]. *)
Fixpoint bfh (s : string) : result bytes :=
  match s with
  | "" => Ok []
  | String hi rest =>
      if is_space hi then bfh rest
      else
        match rest with
        | "" => Err ValueError
        | String lo rest' =>
            match HexString.ascii_to_digit hi, HexString.ascii_to_digit lo with
            | Some h, Some l =>
                match byte_of_Z (Z.of_N h * 16 + Z.of_N l) with
                | Some b => tl <- bfh rest' ;; Ok (b :: tl)
                | None => Err ValueError
                end
            | _, _ => Err ValueError
            end
        end
  end.

(** ** ecdsa.util number conversions *)

(** [string_to_number]: [int(binascii.hexlify(string), 16)]; the empty
    string is not a valid literal. *)
Definition be_to_Z (s : bytes) : Z :=
  fold_left (fun acc b => acc * 256 + byte_to_Z b) s 0.

Definition string_to_number (s : bytes) : result Z :=
  match s with
  | [] => Err ValueError
  | _ => Ok (be_to_Z s)
  end.

(** The [l] low-order base-256 digits of [n], most significant first. *)
Fixpoint be_of_Z (l : nat) (n : Z) : bytes :=
  match l with
  | O => []
  | S l' =>
      be_of_Z l' (n / 256) ++
      [match byte_of_Z (n mod 256) with Some b => b | None => x00 end]
  end.

(** [orderlen(order)]: [(1 + len("%x" % order)) // 2]. *)
Definition hex_len (n : Z) : Z :=
  if n <=? 0 then 1 else 1 + Z.log2 n / 4.

Definition orderlen (order : Z) : Z := (1 + hex_len order) / 2.

(** [number_to_string(num, order)]: the hexadecimal text of [num] padded
    to [2 * orderlen(order)] digits, unhexlified, and asserted to have
    length [orderlen(order)]. *)
Definition number_to_string (num order : Z) : result bytes :=
  let l := orderlen order in
  if num <? 0 then Err (LibraryError "binascii.Error")
  else if hex_len num <=? 2 * l then Ok (be_of_Z (Z.to_nat l) num)
  else if Z.odd (hex_len num) then Err (LibraryError "binascii.Error")
  else Err AssertionError.

(** ** Base58 / Base43 codec *)

Definition __b58chars : bytes :=
  bytes_of_string "123456789ABCDEFGHJKLMNPQRSTUVWXYZabcdefghijkmnopqrstuvwxyz".

Definition __b43chars : bytes :=
  bytes_of_string "0123456789ABCDEFGHIJKLMNOPQRSTUVWXYZ$*+-./:".

(** The loop shared by both directions:
<<
    while long_value >= base:
        div, mod = divmod(long_value, base)
        result.append(emit(mod))
        long_value = div
>>
    Every turn divides [long_value] by [base]; [loop_bound] turns are
    enough for any base of at least 2 (lemma [divmod_loop_exit]). *)
Fixpoint divmod_loop (fuel : nat) (emit : Z -> result Z) (base long_value : Z)
  (buf : bytes) : result (bytes * Z) :=
  match fuel with
  | O => Ok (buf, long_value)
  | S fuel' =>
      if long_value >=? base then
        x <- emit (long_value mod base) ;;
        buf' <- bytearray_append buf x ;;
        divmod_loop fuel' emit base (long_value / base) buf'
      else Ok (buf, long_value)
  end.

Definition loop_bound (long_value : Z) : nat := S (Z.to_nat (Z.log2 long_value)).

(** [for c in v: if c == x: nPad += 1 else: break] *)
Fixpoint count_leading (x : byte) (v : bytes) : Z :=
  match v with
  | c :: rest => if byte_eqb c x then 1 + count_leading x rest else 0
  | [] => 0
  end.

Definition chars_of_base (base : Z) : bytes :=
  if base =? 43 then __b43chars else __b58chars.

Definition base_encode (v : pyobj) (base : Z) : result string :=
  _ <- assert_bytes [v] ;;
  let v := bytes_value v in
  _ <- py_assert ((base =? 58) || (base =? 43)) ;;
  let chars := chars_of_base base in
  let long_value :=
    fold_left (fun acc ic => acc + 256 ^ fst ic * byte_to_Z (snd ic))
              (enumerate (rev v)) 0 in
  let emit := fun d => c <- getitem chars d ;; Ok (byte_to_Z c) in
  ' (buf, long_value) <- divmod_loop (loop_bound long_value) emit base long_value [] ;;
  c <- emit long_value ;;
  buf <- bytearray_append buf c ;;
  chars0 <- getitem chars 0 ;;
  let nPad := count_leading x00 v in
  let buf := buf ++ repeat chars0 (Z.to_nat nPad) in
  decode_ascii (rev buf).

Definition base_decode (v : pyobj) (length : option Z) (base : Z)
  : result (option bytes) :=
  v <- to_bytes v ascii_enc ;;
  _ <- py_assert ((base =? 58) || (base =? 43)) ;;
  let chars := chars_of_base base in
  let long_value :=
    fold_left (fun acc ic => acc + bytes_find chars (snd ic) * base ^ fst ic)
              (enumerate (rev v)) 0 in
  ' (buf, long_value) <- divmod_loop (loop_bound long_value) Ok 256 long_value [] ;;
  buf <- bytearray_append buf long_value ;;
  chars0 <- getitem chars 0 ;;
  let nPad := count_leading chars0 v in
  let buf := buf ++ repeat x00 (Z.to_nat nPad) in
  if match length with
     | Some n => negb (len buf =? n)
     | None => false
     end
  then Ok None
  else Ok (Some (rev buf)).


(** ** Imported libraries *)

(** [ecdsa.ellipticcurve]: a curve [y^2 = x^3 + a*x + b] over the integers
    modulo [p], and its points; [INFINITY] has no coordinates. *)
Record CurveFp : Type := mkCurveFp { curve_p : Z; curve_a : Z; curve_b : Z }.

Inductive Point : Type :=
| INFINITY
| Pt (x y : Z).

Definition point_eqb (P Q : Point) : bool :=
  match P, Q with
  | INFINITY, INFINITY => true
  | Pt x1 y1, Pt x2 y2 => (x1 =? x2) && (y1 =? y2)
  | _, _ => false
  end.

(** What the module imports and does not define: digests and MACs of
    [hashlib] and [hmac], [base64.b64decode], the block ciphers, the curve
    constants of [ecdsa] and its point arithmetic, and the ECDSA
    primitives, each [None] where the library raises, and the built-in
    [int] on text.  Every point the module multiplies carries the generator's
    order, so [point_mul] is multiplication with the scalar reduced modulo
    that order. *)
Class Library : Type := {
  hashlib_sha256 : bytes -> bytes;
  hashlib_sha512 : bytes -> bytes;
  hashlib_ripemd : bytes -> bytes;
  hmac_sha256 : bytes -> bytes -> bytes;
  hmac_sha512 : bytes -> bytes -> bytes;
  base64_b64decode : pyobj -> option bytes;
  AES : bool;
  AES_cbc_decrypt : bytes -> bytes -> bytes -> option bytes;
  pyaes_cbc_decrypt : bytes -> bytes -> bytes -> option bytes;
  curve_secp256k1 : CurveFp;
  generator_secp256k1 : Point;
  generator_order : Z;
  point_add : Point -> Point -> Point;
  point_mul : Point -> Z -> Point;
  inverse_mod : Z -> Z -> option Z;
  modular_sqrt : Z -> Z -> option Z;
  generate_k : Z -> Z -> bytes -> Z;
  privkey_sign : Z -> Z -> Z -> option (Z * Z);
  pubkey_verifies : Point -> Z -> Z -> Z -> bool;
  int_of_str : string -> option Z
}.

(** A library call that raises: the exception is one of the library's own. *)
Definition library_call {A : Type} (origin : string) (r : option A) : result A :=
  match r with
  | Some a => Ok a
  | None => Err (LibraryError origin)
  end.

(** ** Python built-ins used by the module *)

(** [pow(b, e, m)] by square and multiply. *)
Fixpoint pow_mod_pos (b : Z) (e : positive) (m : Z) : Z :=
  match e with
  | xH => b mod m
  | xO e' => let r := pow_mod_pos b e' m in (r * r) mod m
  | xI e' => let r := pow_mod_pos b e' m in (r * r * b) mod m
  end.

Definition pow_mod (b e m : Z) : Z :=
  match e with
  | Z0 => 1 mod m
  | Zpos e' => pow_mod_pos b e' m
  | Zneg _ => 0
  end.

(** ["%0<width>x" % n] and ["%0<width>X" % n]. *)
Definition hex_digits (n : Z) : string :=
  match n with
  | Z0 => "0"
  | Zpos q => HexString.Raw.of_pos q ""
  | Zneg q => HexString.Raw.of_pos q ""
  end.

Fixpoint zeros (n : nat) : string :=
  match n with
  | O => ""
  | S n' => String "0" (zeros n')
  end.

Definition fmt_0x (width : nat) (n : Z) : string :=
  let d := hex_digits n in
  if n <? 0
  then String "-" (zeros (width - 1 - String.length d) ++ d)
  else (zeros (width - String.length d) ++ d)%string.

Definition upper (c : ascii) : ascii :=
  let n := ascii_to_Z c in
  if (97 <=? n) && (n <=? 122) then ascii_of_N (Z.to_N (n - 32)) else c.

Definition fmt_0X (width : nat) (n : Z) : string :=
  string_of_list_ascii (map upper (list_ascii_of_string (fmt_0x width n))).

(** [hex(i)[2:].rstrip('L')]: [hex] writes [0x..] or [-0x..]. *)
Definition hex (i : Z) : string := HexString.of_Z i.

Definition str_from (n : nat) (s : string) : string :=
  String.substring n (String.length s - n) s.

Fixpoint rstrip_L (s : string) : string :=
  match s with
  | "" => ""
  | String c rest =>
      match rstrip_L rest with
      | "" => if Ascii.eqb c "L" then "" else String c ""
      | r => String c r
      end
  end.

(** [ord(x)]: defined on a [str] or [bytes] of length one. *)
Definition py_ord (x : pyobj) : result Z :=
  match x with
  | PyStr (String c "") => Ok (ascii_to_Z c)
  | PyBytes [b] => Ok (byte_to_Z b)
  | _ => Err TypeError
  end.

(** [x in chars] for a [bytes] container: an [int] is looked up as a byte,
    a [bytes] operand as a contiguous run, anything else is a type error. *)
Fixpoint is_prefix (a b : bytes) : bool :=
  match a, b with
  | [], _ => true
  | x :: a', y :: b' => byte_eqb x y && is_prefix a' b'
  | _ :: _, [] => false
  end.

Fixpoint is_infix (a b : bytes) : bool :=
  is_prefix a b || match b with
                   | [] => false
                   | _ :: b' => is_infix a b'
                   end.

Definition bytes_contains (chars : bytes) (x : pyobj) : result bool :=
  match x with
  | PyInt n => match byte_of_Z n with
               | Some b => Ok (existsb (byte_eqb b) chars)
               | None => Err ValueError
               end
  | PyBytes sub => Ok (is_infix sub chars)
  | PyStr _ => Err TypeError
  end.

(** Iterating an object: a [str] yields one-character strings, [bytes]
    yields integers. *)
Definition py_iter (x : pyobj) : result (list pyobj) :=
  match x with
  | PyStr s => Ok (map (fun c => PyStr (String c "")) (list_ascii_of_string s))
  | PyBytes b => Ok (map (fun c => PyInt (byte_to_Z c)) b)
  | PyInt _ => Err TypeError
  end.

Definition py_len (x : pyobj) : result Z :=
  match x with
  | PyStr s => Ok (Z.of_nat (String.length s))
  | PyBytes b => Ok (len b)
  | PyInt _ => Err TypeError
  end.

(** [x[0]] *)
Definition py_getitem0 (x : pyobj) : result pyobj :=
  match x with
  | PyStr (String c _) => Ok (PyStr (String c ""))
  | PyBytes (b :: _) => Ok (PyInt (byte_to_Z b))
  | PyInt _ => Err TypeError
  | _ => Err IndexError
  end.

(** [x == y]: objects of different types are unequal. *)
Definition py_eqb (x y : pyobj) : bool :=
  match x, y with
  | PyInt a, PyInt b => a =? b
  | PyStr a, PyStr b => String.eqb a b
  | PyBytes a, PyBytes b => bytes_eqb a b
  | _, _ => false
  end.

(** [x + y] on sequences. *)
Definition py_add (x y : pyobj) : result pyobj :=
  match x, y with
  | PyInt a, PyInt b => Ok (PyInt (a + b))
  | PyStr a, PyStr b => Ok (PyStr (a ++ b))
  | PyBytes a, PyBytes b => Ok (PyBytes (a ++ b))
  | _, _ => Err TypeError
  end.

(** [all(f(c) for c in xs)]: stops at the first false value and at the
    first exception. *)
Fixpoint py_all {A : Type} (f : A -> result bool) (xs : list A) : result bool :=
  match xs with
  | [] => Ok true
  | c :: rest => b <- f c ;; if b then py_all f rest else Ok false
  end.

(** ** ecdsa: curves, points and keys *)

Definition contains_point (curve : CurveFp) (x y : Z) : bool :=
  (y * y - (x * x * x + curve_a curve * x + curve_b curve)) mod curve_p curve =? 0.

Record Public_key : Type := mkPublic_key { point : Point }.

Record Private_key : Type :=
  mkPrivate_key { public_key : Public_key; secret_multiplier : Z }.

Record VerifyingKey : Type := mkVerifyingKey { vk_pubkey : Public_key }.

Record SigningKey : Type :=
  mkSigningKey { sk_privkey : Private_key; sk_verifying_key : VerifyingKey }.

Record EC_KEY : Type :=
  mkEC_KEY { pubkey : Public_key; privkey : Private_key; secret : Z }.

(** [P.x()], [P.y()]: [None] at infinity, and an integer operation on
    [None] is a [TypeError]. *)
Definition point_x (P : Point) : result Z :=
  match P with Pt x _ => Ok x | INFINITY => Err TypeError end.

Definition point_y (P : Point) : result Z :=
  match P with Pt _ y => Ok y | INFINITY => Err TypeError end.

(** ** Network profile: the module-level constants switched by [set_testnet] *)

Record Network : Type := mkNetwork {
  TESTNET : bool;
  ADDRTYPE_P2PKH : Z;
  ADDRTYPE_P2SH : Z;
  ADDRTYPE_P2WPKH : Z;
  XPRV_HEADER : Z;
  XPUB_HEADER : Z
}.

Definition mainnet : Network :=
  mkNetwork false 0 5 6 76066276 76067358.

Definition set_testnet : Network :=
  mkNetwork true 111 196 3 70615956 70617039.

Definition BIP32_PRIME : Z := 2147483648.

(** ** The symmetric cipher as an effect

    [decrypt_message] is the one function whose order of effects matters:
    computations that may call the block cipher thread the list of calls
    made so far. *)

Inductive cipher_call : Type :=
| CipherDecrypt (key iv data : bytes).

Definition cipher_log := list cipher_call.

Definition M (A : Type) : Type := cipher_log -> result A * cipher_log.

Definition ret {A : Type} (a : A) : M A := fun log => (Ok a, log).

Definition raise {A : Type} (e : exn) : M A := fun log => (Err e, log).

Definition lift {A : Type} (r : result A) : M A := fun log => (r, log).

Definition bindM {A B : Type} (m : M A) (k : A -> M B) : M B :=
  fun log => match m log with
             | (Ok a, log') => k a log'
             | (Err e, log') => (Err e, log')
             end.

Definition run_cipher (f : bytes -> bytes -> bytes -> option bytes)
  (key iv data : bytes) : M bytes :=
  fun log => (library_call "cipher" (f key iv data),
              log ++ [CipherDecrypt key iv data]).

Notation "x <~ m ;; k" := (bindM m (fun x => k))
  (at level 61, m at next level, right associativity).

Section Bitcoin.

Context {L : Library}.
Variable net : Network.

(** *** ecdsa constructors and codecs *)

(** [Point(curve, x, y, order)]: asserts that the point is on the curve
    and, when an order is given, that the order annihilates it. *)
Definition Point_init (curve : CurveFp) (x y : Z) (order : option Z) : result Point :=
  _ <- py_assert (contains_point curve x y) ;;
  _ <- match order with
       | Some n => if n =? 0 then Ok tt
                   else py_assert (point_eqb (point_mul (Pt x y) n) INFINITY)
       | None => Ok tt
       end ;;
  Ok (Pt x y).

Definition point_is_valid (generator : Point) (x y : Z) : bool :=
  let n := generator_order in
  let curve := curve_secp256k1 in
  if (x <? 0) || (n <=? x) || (y <? 0) || (n <=? y) then false
  else if negb (contains_point curve x y) then false
  else if negb (point_eqb (point_mul (Pt x y) n) INFINITY) then false
  else true.

(** [ecdsa.ecdsa.Public_key(generator, point)] *)
Definition Public_key_init (generator P : Point) : result Public_key :=
  let n := generator_order in
  if n =? 0 then Err RuntimeError
  else if negb (point_eqb (point_mul P n) INFINITY) then Err RuntimeError
  else match P with
       | INFINITY => Err TypeError
       | Pt x y =>
           if (x <? 0) || (n <=? x) || (y <? 0) || (n <=? y)
           then Err RuntimeError
           else Ok (mkPublic_key P)
       end.

Definition VerifyingKey_from_public_point (P : Point) : result VerifyingKey :=
  pk <- Public_key_init generator_secp256k1 P ;;
  Ok (mkVerifyingKey pk).

Definition SigningKey_from_secret_exponent (secexp : Z) : result SigningKey :=
  let n := generator_order in
  _ <- py_assert ((1 <=? secexp) && (secexp <? n)) ;;
  let pubkey_point := point_mul generator_secp256k1 secexp in
  pk <- Public_key_init generator_secp256k1 pubkey_point ;;
  vk <- VerifyingKey_from_public_point pubkey_point ;;
  Ok (mkSigningKey (mkPrivate_key pk secexp) vk).

Definition baselen : Z := orderlen generator_order.

Definition SigningKey_from_string (s : bytes) : result SigningKey :=
  _ <- py_assert (len s =? baselen) ;;
  secexp <- string_to_number s ;;
  SigningKey_from_secret_exponent secexp.

Definition get_verifying_key (sk : SigningKey) : VerifyingKey := sk_verifying_key sk.

(** [VerifyingKey.to_string] *)
Definition to_string (vk : VerifyingKey) : result bytes :=
  let order := generator_order in
  x <- point_x (point (vk_pubkey vk)) ;;
  y <- point_y (point (vk_pubkey vk)) ;;
  x_str <- number_to_string x order ;;
  y_str <- number_to_string y order ;;
  Ok (x_str ++ y_str).

Definition sigencode_string (r s order : Z) : result bytes :=
  r_str <- number_to_string r order ;;
  s_str <- number_to_string s order ;;
  Ok (r_str ++ s_str).

Definition string_to_number_fixedlen (s : bytes) (order : Z) : result Z :=
  _ <- py_assert (len s =? orderlen order) ;;
  string_to_number s.

Definition sigdecode_string (signature : bytes) (order : Z) : result (Z * Z) :=
  let l := orderlen order in
  _ <- py_assert (len signature =? 2 * l) ;;
  r <- string_to_number_fixedlen (slice signature None (Some l)) order ;;
  s <- string_to_number_fixedlen (slice signature (Some l) None) order ;;
  Ok (r, s).

(** [VerifyingKey.verify_digest(signature, digest, sigdecode_string)]:
    returns [True] or raises. *)
Definition verify_digest (vk : VerifyingKey) (signature digest : bytes) : result bool :=
  if baselen <? len digest then Err (LibraryError "BadDigestError")
  else
    number <- string_to_number digest ;;
    ' (r, s) <- sigdecode_string signature generator_order ;;
    if pubkey_verifies (point (vk_pubkey vk)) number r s then Ok true
    else Err BadSignatureError.

(** [ecdsa.SigningKey.sign_number(self, number, entropy, k)] *)
Definition SigningKey_sign_number (self : SigningKey) (number : Z) (k : Z)
  : result (Z * Z) :=
  let order := generator_order in
  _ <- py_assert ((1 <=? k) && (k <? order)) ;;
  library_call "ecdsa.Private_key.sign"
    (privkey_sign (secret_multiplier (sk_privkey self)) number k).

(** *** Hashes *)

Definition sha256 (x : pyobj) : result bytes :=
  x <- to_bytes x utf8_enc ;;
  Ok (hashlib_sha256 x).

Definition Hash (x : pyobj) : result bytes :=
  x <- to_bytes x utf8_enc ;;
  h <- sha256 (PyBytes x) ;;
  sha256 (PyBytes h).

(** *** Numbers as hexadecimal text *)

Definition rev_hex (s : string) : result string :=
  b <- bfh s ;;
  Ok (bh2u (rev b)).

Definition int_to_hex (i : Z) (length : Z) : result string :=
  let s := rstrip_L (str_from 2 (hex i)) in
  let s := (zeros (Z.to_nat (2 * length - Z.of_nat (String.length s))) ++ s)%string in
  rev_hex s.

Definition var_int (i : Z) : result string :=
  if i <? 253 then int_to_hex i 1
  else if i <=? 65535 then s <- int_to_hex i 2 ;; Ok ("fd" ++ s)%string
  else if i <=? 4294967295 then s <- int_to_hex i 4 ;; Ok ("fe" ++ s)%string
  else s <- int_to_hex i 8 ;; Ok ("ff" ++ s)%string.

(** *** Public keys and addresses *)

Definition i2o_ECPublicKey (pubkey : Public_key) (compressed : bool) : result bytes :=
  x <- point_x (point pubkey) ;;
  y <- point_y (point pubkey) ;;
  let key :=
    if compressed then
      if negb (Z.land y 1 =? 0)
      then ("03" ++ fmt_0x 64 x)%string
      else ("02" ++ fmt_0x 64 x)%string
    else ("04" ++ fmt_0x 64 x ++ fmt_0x 64 y)%string in
  bfh key.

Definition hash_160 (public_key : pyobj) : result bytes :=
  public_key <- to_bytes public_key ascii_enc ;;
  h <- sha256 (PyBytes public_key) ;;
  Ok (hashlib_ripemd h).

(** [bytes([n])] *)
Definition bytes1 (n : Z) : result bytes :=
  match byte_of_Z n with
  | Some b => Ok [b]
  | None => Err ValueError
  end.

Definition hash_160_to_bc_address (h160 : bytes) (addrtype : Z)
  (witness_program_version : Z) : result string :=
  s <- bytes1 addrtype ;;
  s <- (if addrtype =? ADDRTYPE_P2WPKH net
        then w <- bytes1 witness_program_version ;; Ok (s ++ w ++ [x00])
        else Ok s) ;;
  let s := s ++ h160 in
  h <- Hash (PyBytes s) ;;
  base_encode (PyBytes (s ++ slice h (Some 0) (Some 4))) 58.

Definition hash160_to_p2pkh (h160 : bytes) : result string :=
  hash_160_to_bc_address h160 (ADDRTYPE_P2PKH net) 1.

Definition public_key_to_p2pkh (public_key : pyobj) : result string :=
  h <- hash_160 public_key ;;
  hash160_to_p2pkh h.

Definition EncodeBase58Check (vchIn : bytes) : result string :=
  hash <- Hash (PyBytes vchIn) ;;
  base_encode (PyBytes (vchIn ++ slice hash (Some 0) (Some 4))) 58.

Definition DecodeBase58Check (psz : pyobj) : result (option bytes) :=
  vchRet <- base_decode psz None 58 ;;
  match vchRet with
  | None => Err TypeError
  | Some vchRet =>
      let key := slice vchRet (Some 0) (Some (-4)) in
      let csum := slice vchRet (Some (-4)) None in
      hash <- Hash (PyBytes key) ;;
      let cs32 := slice hash (Some 0) (Some 4) in
      if negb (bytes_eqb cs32 csum) then Ok None else Ok (Some key)
  end.

Definition GetPubKey (pubkey : Public_key) (compressed : bool) : result bytes :=
  i2o_ECPublicKey pubkey compressed.

(** *** Minikeys *)

Definition is_minikey (text : pyobj) : result bool :=
  n <- py_len text ;;
  if negb (20 <=? n) then Ok false else
  t0 <- py_getitem0 text ;;
  if negb (py_eqb t0 (PyStr "S")) then Ok false else
  cs <- py_iter text ;;
  b <- py_all (bytes_contains __b58chars) cs ;;
  if negb b then Ok false else
  suffixed <- py_add text (PyStr "?") ;;
  h <- sha256 suffixed ;;
  h0 <- getitem h 0 ;;
  o <- py_ord (PyInt (byte_to_Z h0)) ;;
  Ok (o =? 0).

Definition minikey_to_private_key (text : pyobj) : result bytes :=
  sha256 text.

(** *** Message signing *)

Definition msg_magic (message : bytes) : result bytes :=
  varint <- var_int (len message) ;;
  encoded_varint <- encode_ascii varint ;;
  Ok (x18 :: bytes_of_string "Bitcoin Signed Message:" ++ [x0a]
        ++ encoded_varint ++ message).

(** [range(128)] of [ECC_YfromX], one offset per turn. *)
Fixpoint ECC_YfromX_loop (offsets : list Z) (x : Z) (curved : CurveFp) (odd : bool)
  : result (Z * Z) :=
  match offsets with
  | [] => Err (Exception "ECC_YfromX: No Y found")
  | offset :: rest =>
      let _p := curve_p curved in
      let _a := curve_a curved in
      let _b := curve_b curved in
      let Mx := x + offset in
      let My2 := pow_mod Mx 3 _p + _a * pow_mod Mx 2 _p + _b mod _p in
      let My := pow_mod My2 ((_p + 1) / 4) _p in
      if contains_point curved Mx My then
        if Bool.eqb odd (negb (Z.land My 1 =? 0)) then Ok (My, offset)
        else Ok (_p - My, offset)
      else ECC_YfromX_loop rest x curved odd
  end.

Definition ECC_YfromX (x : Z) (curved : CurveFp) (odd : bool) : result (Z * Z) :=
  ECC_YfromX_loop (map Z.of_nat (seq 0 128)) x curved odd.

Definition point_to_ser (P : Point) (comp : bool) : result bytes :=
  if comp then
    y <- point_y P ;;
    x <- point_x P ;;
    bfh (fmt_0x 2 (2 + Z.land y 1) ++ fmt_0x 64 x)%string
  else
    x <- point_x P ;;
    y <- point_y P ;;
    bfh ("04" ++ fmt_0x 64 x ++ fmt_0x 64 y)%string.

Definition ser_to_point (Aser : bytes) : result Point :=
  let curve := curve_secp256k1 in
  let _r := generator_order in
  a0 <- getitem Aser 0 ;;
  let a0 := byte_to_Z a0 in
  _ <- py_assert ((a0 =? 2) || (a0 =? 3) || (a0 =? 4)) ;;
  if a0 =? 4 then
    x <- string_to_number (slice Aser (Some 1) (Some 33)) ;;
    y <- string_to_number (slice Aser (Some 33) None) ;;
    Point_init curve x y (Some _r)
  else
    Mx <- string_to_number (slice Aser (Some 1) None) ;;
    yo <- ECC_YfromX Mx curve (a0 =? 3) ;;
    Point_init curve Mx (fst yo) (Some _r).

(** [MyVerifyingKey.from_signature] *)
Definition from_signature (sig : bytes) (recid : Z) (h : bytes) : result VerifyingKey :=
  let curveFp := curve_secp256k1 in
  let G := generator_secp256k1 in
  let order := generator_order in
  ' (r, s) <- sigdecode_string sig order ;;
  let x := r + (recid / 2) * order in
  let alpha := (x * x * x + curve_a curveFp * x + curve_b curveFp) mod curve_p curveFp in
  beta <- library_call "msqr.modular_sqrt" (modular_sqrt alpha (curve_p curveFp)) ;;
  let y := if (beta - recid) mod 2 =? 0 then beta else curve_p curveFp - beta in
  R <- Point_init curveFp x y (Some order) ;;
  e <- string_to_number h ;;
  let minus_e := (- e) mod order in
  inv_r <- library_call "numbertheory.inverse_mod" (inverse_mod r order) ;;
  let Q := point_mul (point_add (point_mul R s) (point_mul G minus_e)) inv_r in
  VerifyingKey_from_public_point Q.

Definition pubkey_from_signature (sig message : bytes) : result (VerifyingKey * bool) :=
  if negb (len sig =? 65) then Err (Exception "Wrong encoding") else
  nV <- getitem sig 0 ;;
  let nV := byte_to_Z nV in
  if (nV <? 27) || (nV >=? 35) then Err (Exception "Bad encoding") else
  let compressed := nV >=? 31 in
  let nV := if compressed then nV - 4 else nV in
  let recid := nV - 27 in
  m <- msg_magic message ;;
  h <- Hash (PyBytes m) ;;
  vk <- from_signature (slice sig (Some 1) None) recid h ;;
  Ok (vk, compressed).

(** [try: ... except Exception as e: print_error(..); return False]: every
    exception the module can raise derives from [Exception], except
    [BaseException] itself. *)
Definition is_Exception (e : exn) : bool :=
  match e with
  | BaseException _ => false
  | _ => true
  end.

(** The body of the [try] block of [verify_message]. *)
Definition verify_message_try (address : pyobj) (sig message : bytes) : result bool :=
  ' (public_key, compressed) <- pubkey_from_signature sig message ;;
  pubkey <- point_to_ser (point (vk_pubkey public_key)) compressed ;;
  addr <- public_key_to_p2pkh (PyBytes pubkey) ;;
  if negb (py_eqb address (PyStr addr)) then Err (Exception "Bad signature")
  else
    m <- msg_magic message ;;
    h <- Hash (PyBytes m) ;;
    _ <- verify_digest public_key (slice sig (Some 1) None) h ;;
    Ok true.

Definition verify_message (address : pyobj) (sig message : pyobj) : result bool :=
  _ <- assert_bytes [sig; message] ;;
  match verify_message_try address (bytes_value sig) (bytes_value message) with
  | Ok b => Ok b
  | Err e => if is_Exception e then Ok false else Err e
  end.

(** *** Signing keys *)

(** [MySigningKey.sign_number]: the inherited signature with [s] folded
    into the lower half of the order. *)
Definition sign_number (self : SigningKey) (number : Z) (k : Z) : result (Z * Z) :=
  let order := generator_order in
  ' (r, s) <- SigningKey_sign_number self number k ;;
  let s := if s >? order / 2 then order - s else s in
  Ok (r, s).

(** [SigningKey.sign_digest_deterministic] of a [MySigningKey]: the
    library derives the nonce and calls the overriding [sign_number]. *)
Definition sign_digest_deterministic (self : SigningKey) (digest : bytes) : result bytes :=
  let secexp := secret_multiplier (sk_privkey self) in
  let k := generate_k generator_order secexp digest in
  if baselen <? len digest then Err (LibraryError "BadDigestError")
  else
    number <- string_to_number digest ;;
    ' (r, s) <- sign_number self number k ;;
    sigencode_string r s generator_order.

Definition EC_KEY_init (k : bytes) : result EC_KEY :=
  secret <- string_to_number k ;;
  pubkey <- Public_key_init generator_secp256k1 (point_mul generator_secp256k1 secret) ;;
  let privkey := mkPrivate_key pubkey secret in
  Ok (mkEC_KEY pubkey privkey secret).

Definition sign (self : EC_KEY) (msg_hash : bytes) : result bytes :=
  private_key <- SigningKey_from_secret_exponent (secret self) ;;
  let public_key := get_verifying_key private_key in
  signature <- sign_digest_deterministic private_key msg_hash ;;
  ok <- verify_digest public_key signature msg_hash ;;
  _ <- py_assert ok ;;
  Ok signature.

(** *** ECIES *)

Definition aes_decrypt_with_iv (key iv data : pyobj) : M bytes :=
  _ <~ lift (assert_bytes [key; iv; data]) ;;
  let key := bytes_value key in
  let iv := bytes_value iv in
  let data := bytes_value data in
  if AES then
    data <~ run_cipher AES_cbc_decrypt key iv data ;;
    lift (last <- getitem (rev data) 0 ;;
          padlen <- py_ord (PyInt (byte_to_Z last)) ;;
          ok <- py_all (fun i => o <- py_ord (PyInt (byte_to_Z i)) ;; Ok (o =? padlen))
                       (slice data (Some (- padlen)) None) ;;
          if negb ok then Err InvalidPassword
          else Ok (slice data (Some 0) (Some (- padlen))))
  else
    run_cipher pyaes_cbc_decrypt key iv data.

Definition decrypt_message (self : EC_KEY) (encrypted : pyobj) : M bytes :=
  encrypted <~ lift (library_call "base64.b64decode" (base64_b64decode encrypted)) ;;
  if len encrypted <? 85 then raise (Exception "invalid ciphertext: length") else
  let magic := slice encrypted None (Some 4) in
  let ephemeral_pubkey := slice encrypted (Some 4) (Some 37) in
  let ciphertext := slice encrypted (Some 37) (Some (-32)) in
  let mac := slice encrypted (Some (-32)) None in
  if negb (bytes_eqb magic (bytes_of_string "BIE1"))
  then raise (Exception "invalid ciphertext: invalid magic bytes") else
  ephemeral_pubkey <~ lift (except_AssertionError
                              (ser_to_point ephemeral_pubkey)
                              (Err (Exception "invalid ciphertext: invalid ephemeral pubkey"))) ;;
  x <~ lift (point_x ephemeral_pubkey) ;;
  y <~ lift (point_y ephemeral_pubkey) ;;
  if negb (point_is_valid generator_secp256k1 x y)
  then raise (Exception "invalid ciphertext: invalid ephemeral pubkey") else
  ecdh_key <~ lift (point_to_ser
                      (point_mul ephemeral_pubkey (secret_multiplier (privkey self)))
                      true) ;;
  let key := hashlib_sha512 ecdh_key in
  let iv := slice key (Some 0) (Some 16) in
  let key_e := slice key (Some 16) (Some 32) in
  let key_m := slice key (Some 32) None in
  if negb (bytes_eqb mac (hmac_sha256 key_m (slice encrypted None (Some (-32)))))
  then raise InvalidPassword else
  aes_decrypt_with_iv (PyBytes key_e) (PyBytes iv) (PyBytes ciphertext).

(** *** BIP32 *)

Definition get_pubkeys_from_secret (secret : bytes) : result (bytes * bytes) :=
  private_key <- SigningKey_from_string secret ;;
  let public_key := get_verifying_key private_key in
  K <- to_string public_key ;;
  K_compressed <- GetPubKey (vk_pubkey public_key) true ;;
  Ok (K, K_compressed).

Definition _CKD_priv (k c s : bytes) (is_prime : Z) : result (bytes * bytes) :=
  let order := generator_order in
  keypair <- EC_KEY_init k ;;
  cK <- GetPubKey (pubkey keypair) true ;;
  let data := if negb (is_prime =? 0) then [x00] ++ k ++ s else cK ++ s in
  let I := hmac_sha512 c data in
  IL <- string_to_number (slice I (Some 0) (Some 32)) ;;
  kn <- string_to_number k ;;
  k_n <- number_to_string ((IL + kn) mod order) order ;;
  let c_n := slice I (Some 32) None in
  Ok (k_n, c_n).

Definition CKD_priv (k c : bytes) (n : Z) : result (bytes * bytes) :=
  let is_prime := Z.land n BIP32_PRIME in
  h <- int_to_hex n 4 ;;
  h <- rev_hex h ;;
  s <- bfh h ;;
  _CKD_priv k c s is_prime.

Definition _CKD_pub (cK c s : bytes) : result (bytes * bytes) :=
  let order := generator_order in
  let I := hmac_sha512 c (cK ++ s) in
  IL <- string_to_number (slice I (Some 0) (Some 32)) ;;
  P <- ser_to_point cK ;;
  let pubkey_point := point_add (point_mul generator_secp256k1 IL) P in
  public_key <- VerifyingKey_from_public_point pubkey_point ;;
  let c_n := slice I (Some 32) None in
  cK_n <- GetPubKey (vk_pubkey public_key) true ;;
  Ok (cK_n, c_n).

(** A bare [raise] outside a handler is a [RuntimeError]. *)
Definition CKD_pub (cK c : bytes) (n : Z) : result (bytes * bytes) :=
  if negb (Z.land n BIP32_PRIME =? 0) then Err RuntimeError else
  h <- int_to_hex n 4 ;;
  h <- rev_hex h ;;
  s <- bfh h ;;
  _CKD_pub cK c s.

Definition xprv_header (xtype : Z) : result bytes :=
  bfh (fmt_0x 8 (XPRV_HEADER net + xtype)).

Definition xpub_header (xtype : Z) : result bytes :=
  bfh (fmt_0x 8 (XPUB_HEADER net + xtype)).

Definition serialize_xprv (xtype : Z) (c k : bytes) (depth : Z)
  (fingerprint child_number : bytes) : result string :=
  h <- xprv_header xtype ;;
  d <- bytes1 depth ;;
  z <- bytes1 0 ;;
  let xprv := h ++ d ++ fingerprint ++ child_number ++ c ++ z ++ k in
  EncodeBase58Check xprv.

Definition serialize_xpub (xtype : Z) (c cK : bytes) (depth : Z)
  (fingerprint child_number : bytes) : result string :=
  h <- xpub_header xtype ;;
  d <- bytes1 depth ;;
  let xpub := h ++ d ++ fingerprint ++ child_number ++ c ++ cK in
  EncodeBase58Check xpub.

Definition xkey_fields : Type := (Z * Z * bytes * bytes * bytes * bytes)%type.

Definition deserialize_xkey (xkey : pyobj) (prv : bool) : result xkey_fields :=
  xkey <- DecodeBase58Check xkey ;;
  match xkey with
  | None => Err TypeError
  | Some xkey =>
      if negb (len xkey =? 78) then Err (BaseException "Invalid length") else
      depth <- getitem xkey 4 ;;
      let depth := byte_to_Z depth in
      let fingerprint := slice xkey (Some 5) (Some 9) in
      let child_number := slice xkey (Some 9) (Some 13) in
      let c := slice xkey (Some 13) (Some (13 + 32)) in
      let header := if prv then XPRV_HEADER net else XPUB_HEADER net in
      let xtype := be_to_Z (slice xkey (Some 0) (Some 4)) - header in
      if negb (if TESTNET net then (xtype =? 0) || (xtype =? 1) else (xtype =? 0))
      then Err (BaseException "Invalid header") else
      let n := if prv then 33 else 32 in
      let K_or_k := slice xkey (Some (13 + n)) None in
      Ok (xtype, depth, fingerprint, child_number, c, K_or_k)
  end.

Definition deserialize_xpub (xkey : pyobj) : result xkey_fields :=
  deserialize_xkey xkey false.

Definition deserialize_xprv (xkey : pyobj) : result xkey_fields :=
  deserialize_xkey xkey true.

Definition xpub_from_xprv (xprv : pyobj) : result string :=
  ' (xtype, depth, fingerprint, child_number, c, k) <- deserialize_xprv xprv ;;
  ' (K, cK) <- get_pubkeys_from_secret k ;;
  serialize_xpub xtype c cK depth fingerprint child_number.

(** [s.split('/')] *)
Fixpoint split_slash (s : string) : list string :=
  match s with
  | "" => [""]
  | String ch rest =>
      if Ascii.eqb ch "/" then "" :: split_slash rest
      else match split_slash rest with
           | [] => [String ch ""]
           | w :: ws => String ch w :: ws
           end
  end.

(** [n[-1]] and [n[:-1]] of a non-empty string. *)
Fixpoint last_char (n : string) : option ascii :=
  match n with
  | "" => None
  | String ch "" => Some ch
  | String _ rest => last_char rest
  end.

Fixpoint but_last (n : string) : string :=
  match n with
  | "" => ""
  | String ch "" => ""
  | String ch rest => String ch (but_last rest)
  end.

Definition py_int (n : string) : result Z :=
  match int_of_str n with
  | Some i => Ok i
  | None => Err ValueError
  end.

(** The local variables of the two derivation loops; [i] and the parent
    key are unbound until the first turn. *)
Record priv_state : Type := mkPrivState {
  ps_k : bytes; ps_c : bytes; ps_depth : Z;
  ps_i : option Z; ps_parent_k : option bytes
}.

Fixpoint private_loop (ns : list string) (st : priv_state) : result priv_state :=
  match ns with
  | [] => Ok st
  | n :: rest =>
      if String.eqb n "" then private_loop rest st else
      i <- (match last_char n with
            | Some "'"%char => j <- py_int (but_last n) ;; Ok (j + BIP32_PRIME)
            | _ => py_int n
            end) ;;
      let parent_k := ps_k st in
      ' (k, c) <- CKD_priv (ps_k st) (ps_c st) i ;;
      private_loop rest (mkPrivState k c (ps_depth st + 1) (Some i) (Some parent_k))
  end.

Definition unbound {A : Type} (v : option A) : result A :=
  match v with
  | Some a => Ok a
  | None => Err UnboundLocalError
  end.

Definition bip32_private_derivation (xprv : string) (branch sequence : string)
  : result (string * string) :=
  _ <- py_assert (String.prefix branch sequence) ;;
  if String.eqb branch sequence then
    xpub <- xpub_from_xprv (PyStr xprv) ;;
    Ok (xprv, xpub)
  else
    ' (xtype, depth, fingerprint, child_number, c, k) <- deserialize_xprv (PyStr xprv) ;;
    let sequence := str_from (String.length branch) sequence in
    st <- private_loop (split_slash sequence) (mkPrivState k c depth None None) ;;
    parent_k <- unbound (ps_parent_k st) ;;
    ' (_, parent_cK) <- get_pubkeys_from_secret parent_k ;;
    h <- hash_160 (PyBytes parent_cK) ;;
    let fingerprint := slice h (Some 0) (Some 4) in
    i <- unbound (ps_i st) ;;
    child_number <- bfh (fmt_0X 8 i) ;;
    ' (K, cK) <- get_pubkeys_from_secret (ps_k st) ;;
    xpub <- serialize_xpub xtype (ps_c st) cK (ps_depth st) fingerprint child_number ;;
    xprv <- serialize_xprv xtype (ps_c st) (ps_k st) (ps_depth st) fingerprint child_number ;;
    Ok (xprv, xpub).

Record pub_state : Type := mkPubState {
  pb_cK : bytes; pb_c : bytes; pb_depth : Z;
  pb_i : option Z; pb_parent_cK : option bytes
}.

Fixpoint public_loop (ns : list string) (st : pub_state) : result pub_state :=
  match ns with
  | [] => Ok st
  | n :: rest =>
      if String.eqb n "" then public_loop rest st else
      i <- py_int n ;;
      let parent_cK := pb_cK st in
      ' (cK, c) <- CKD_pub (pb_cK st) (pb_c st) i ;;
      public_loop rest (mkPubState cK c (pb_depth st + 1) (Some i) (Some parent_cK))
  end.

Definition bip32_public_derivation (xpub : string) (branch sequence : string)
  : result string :=
  ' (xtype, depth, fingerprint, child_number, c, cK) <- deserialize_xpub (PyStr xpub) ;;
  _ <- py_assert (String.prefix branch sequence) ;;
  let sequence := str_from (String.length branch) sequence in
  st <- public_loop (split_slash sequence) (mkPubState cK c depth None None) ;;
  parent_cK <- unbound (pb_parent_cK st) ;;
  h <- hash_160 (PyBytes parent_cK) ;;
  let fingerprint := slice h (Some 0) (Some 4) in
  i <- unbound (pb_i st) ;;
  child_number <- bfh (fmt_0X 8 i) ;;
  serialize_xpub xtype (pb_c st) (pb_cK st) (pb_depth st) fingerprint child_number.

End Bitcoin.

(** ** Further functions of the module *)

(** [range(start, stop, step)] *)
Definition py_range (start stop step : Z) : result (list Z) :=
  if step =? 0 then Err ValueError
  else
    let n := if 0 <? step then (stop - start + step - 1) / step
             else (start - stop - step - 1) / (- step) in
    Ok (map (fun k => start + step * Z.of_nat k) (seq 0 (Z.to_nat n))).

Section Wallet.

Context {L : Library}.
Variable net : Network.

(** *** Scripts and hashes as text *)

Definition op_push (i : Z) : result string :=
  if i <? 76 then int_to_hex i 1
  else if i <? 255 then s <- int_to_hex i 1 ;; Ok ("4c" ++ s)%string
  else if i <? 65535 then s <- int_to_hex i 2 ;; Ok ("4d" ++ s)%string
  else s <- int_to_hex i 4 ;; Ok ("4e" ++ s)%string.

Definition hash_encode (x : bytes) : string := bh2u (rev x).

Definition hash_decode (x : string) : result bytes :=
  b <- bfh x ;;
  Ok (rev b).

Definition chunks {A : Type} (l : list A) (n : Z) : result (list (list A)) :=
  r <- py_range 0 (len l) n ;;
  Ok (map (fun i => slice l (Some i) (Some (i + n))) r).

(** *** Addresses *)

(** [_bytes[0]] of the [None] that [base_decode] returns on a length
    mismatch is a [TypeError]. *)
Definition bc_address_to_hash_160 (addr : pyobj) : result (Z * bytes) :=
  addr <- to_bytes addr ascii_enc ;;
  _bytes <- base_decode (PyBytes addr) (Some 25) 58 ;;
  match _bytes with
  | None => Err TypeError
  | Some _bytes =>
      b0 <- getitem _bytes 0 ;;
      Ok (byte_to_Z b0, slice _bytes (Some 1) (Some 21))
  end.

Definition hash160_to_p2sh (h160 : bytes) : result string :=
  hash_160_to_bc_address net h160 (ADDRTYPE_P2SH net) 1.

Definition public_key_to_p2wpkh (public_key : pyobj) : result string :=
  h <- hash_160 public_key ;;
  hash_160_to_bc_address net h (ADDRTYPE_P2WPKH net) 1.

Definition is_address (addr : pyobj) : result bool :=
  match bc_address_to_hash_160 addr with
  | Err e => if is_Exception e then Ok false else Err e
  | Ok (addrtype, h) =>
      if negb ((addrtype =? ADDRTYPE_P2PKH net) || (addrtype =? ADDRTYPE_P2SH net))
      then Ok false
      else
        s <- hash_160_to_bc_address net h addrtype 1 ;;
        Ok (py_eqb addr (PyStr s))
  end.

Definition is_valid (addr : pyobj) : result bool := is_address addr.

(** [is_p2pkh] and [is_p2sh] fall off their end, returning [None], when
    the text is no address. *)
Definition is_p2pkh (addr : pyobj) : result (option bool) :=
  a <- is_address addr ;;
  if a then
    ' (addrtype, h) <- bc_address_to_hash_160 addr ;;
    Ok (Some (addrtype =? ADDRTYPE_P2PKH net))
  else Ok None.

Definition is_p2sh (addr : pyobj) : result (option bool) :=
  a <- is_address addr ;;
  if a then
    ' (addrtype, h) <- bc_address_to_hash_160 addr ;;
    Ok (Some (addrtype =? ADDRTYPE_P2SH net))
  else Ok None.

(** *** Private keys in wallet import format *)

Definition PrivKeyToSecret (privkey : bytes) : bytes :=
  slice privkey (Some 9) (Some (9 + 32)).

Definition SecretToASecret (secret : bytes) (compressed : bool) : result string :=
  let addrtype := ADDRTYPE_P2PKH net in
  v <- bytes1 (Z.land (addrtype + 128) 255) ;;
  let vchIn := v ++ secret in
  let vchIn := if compressed then vchIn ++ [x01] else vchIn in
  EncodeBase58Check vchIn.

(** The result is a buffer, or [False], written [None]. *)
Definition ASecretToSecret (key : pyobj) : result (option bytes) :=
  let addrtype := ADDRTYPE_P2PKH net in
  vch <- DecodeBase58Check key ;;
  if match vch with
     | Some (b0 :: _) => byte_to_Z b0 =? Z.land (addrtype + 128) 255
     | _ => false
     end
  then Ok (Some (slice (match vch with Some v => v | None => [] end) (Some 1) None))
  else
    m <- is_minikey key ;;
    if m then k <- minikey_to_private_key key ;; Ok (Some k)
    else Ok None.

(** [if not b: return False]: [False] and the empty buffer alike. *)
Definition regenerate_key (sec : pyobj) : result (option EC_KEY) :=
  b <- ASecretToSecret sec ;;
  match b with
  | None | Some [] => Ok None
  | Some b => k <- EC_KEY_init (slice b (Some 0) (Some 32)) ;; Ok (Some k)
  end.

Definition GetSecret (pkey : EC_KEY) : result bytes :=
  bfh (fmt_0x 64 (secret pkey)).

(** [len(False)] is a [TypeError]. *)
Definition is_compressed (sec : pyobj) : result bool :=
  b <- ASecretToSecret sec ;;
  match b with
  | None => Err TypeError
  | Some b => Ok (len b =? 33)
  end.

Definition public_key_from_private_key (sec : pyobj) : result string :=
  pkey <- regenerate_key sec ;;
  match pkey with
  | None => Err AssertionError
  | Some pkey =>
      compressed <- is_compressed sec ;;
      public_key <- GetPubKey (pubkey pkey) compressed ;;
      Ok (bh2u public_key)
  end.

Definition address_from_private_key (sec : pyobj) : result string :=
  public_key <- public_key_from_private_key sec ;;
  b <- bfh public_key ;;
  public_key_to_p2pkh net (PyBytes b).

(** The bare [except:] catches every exception. *)
Definition is_private_key (key : pyobj) : bool :=
  match ASecretToSecret key with
  | Ok (Some _) => true
  | Ok None => false
  | Err _ => false
  end.

(** *** Signed messages *)

Definition get_public_key (self : EC_KEY) (compressed : bool) : result string :=
  s <- point_to_ser (point (pubkey self)) compressed ;;
  Ok (bh2u s).

(** [EC_KEY.verify_message]: returns nothing, or raises. *)
Definition EC_KEY_verify_message (self : EC_KEY) (sig : bytes) (message : pyobj)
  : result unit :=
  _ <- assert_bytes [message] ;;
  let message := bytes_value message in
  ' (public_key, compressed) <- pubkey_from_signature sig message ;;
  a <- point_to_ser (point (vk_pubkey public_key)) compressed ;;
  b <- point_to_ser (point (pubkey self)) compressed ;;
  if negb (bytes_eqb a b) then Err (Exception "Bad signature") else
  m <- msg_magic message ;;
  h <- Hash (PyBytes m) ;;
  _ <- verify_digest public_key (slice sig (Some 1) None) h ;;
  Ok tt.

(** The [for i in range(4)] loop of [sign_message] with its [else]. *)
Fixpoint sign_message_loop (self : EC_KEY) (signature message : bytes)
  (is_compressed : bool) (range : list Z) : result bytes :=
  match range with
  | [] => Err (Exception "error: cannot sign message")
  | i :: rest =>
      h <- bytes1 (27 + i + (if is_compressed then 4 else 0)) ;;
      let sig := h ++ signature in
      match EC_KEY_verify_message self sig (PyBytes message) with
      | Ok _ => Ok sig
      | Err e =>
          if is_Exception e
          then sign_message_loop self signature message is_compressed rest
          else Err e
      end
  end.

Definition sign_message (self : EC_KEY) (message : pyobj) (is_compressed : bool)
  : result bytes :=
  message <- to_bytes message utf8_enc ;;
  m <- msg_magic message ;;
  h <- Hash (PyBytes m) ;;
  signature <- sign self h ;;
  sign_message_loop self signature message is_compressed (map Z.of_nat (seq 0 4)).

(** *** BIP32 *)

Definition is_xpub (text : pyobj) : bool :=
  match deserialize_xpub net text with
  | Ok _ => true
  | Err _ => false
  end.

Definition is_xprv (text : pyobj) : bool :=
  match deserialize_xprv net text with
  | Ok _ => true
  | Err _ => false
  end.

Definition bip32_root (seed : bytes) (xtype : Z) : result (string * string) :=
  let I := hmac_sha512 (bytes_of_string "Bitcoin seed") seed in
  let master_k := slice I (Some 0) (Some 32) in
  let master_c := slice I (Some 32) None in
  ' (K, cK) <- get_pubkeys_from_secret master_k ;;
  xprv <- serialize_xprv net xtype master_c master_k 0 (repeat x00 4) (repeat x00 4) ;;
  xpub <- serialize_xpub net xtype master_c cK 0 (repeat x00 4) (repeat x00 4) ;;
  Ok (xprv, xpub).

Definition xpub_from_pubkey (xtype : Z) (cK : bytes) : result string :=
  c0 <- getitem cK 0 ;;
  _ <- py_assert ((byte_to_Z c0 =? 2) || (byte_to_Z c0 =? 3)) ;;
  serialize_xpub net xtype (repeat x00 32) cK 0 (repeat x00 4) (repeat x00 4).

Fixpoint bip32_private_key_loop (sequence : list Z) (k chain : bytes)
  : result (bytes * bytes) :=
  match sequence with
  | [] => Ok (k, chain)
  | i :: rest =>
      ' (k, chain) <- CKD_priv k chain i ;;
      bip32_private_key_loop rest k chain
  end.

Definition bip32_private_key (sequence : list Z) (k chain : bytes) : result string :=
  ' (k, chain) <- bip32_private_key_loop sequence k chain ;;
  SecretToASecret k true.

End Wallet.

(** ** Symmetric encryption and ECIES encryption *)

(** What these functions import beyond [Library]: [base64.b64encode], the
    two encrypting block ciphers, [None] where they raise, and
    [bytes.decode('utf8')], [None] where it raises. *)
Class Encoders : Type := {
  base64_b64encode : bytes -> bytes;
  AES_cbc_encrypt : bytes -> bytes -> bytes -> option bytes;
  pyaes_cbc_encrypt : bytes -> bytes -> bytes -> option bytes;
  decode_utf8 : bytes -> option string
}.

(** [chr(padlen) * padlen] *)
Definition pad_text (padlen : Z) : string :=
  string_of_list_ascii (repeat (ascii_of_N (Z.to_N padlen)) (Z.to_nat padlen)).

(** [if password:] on [None], a [str], a [bytes] or an [int]. *)
Definition truthy (x : option pyobj) : bool :=
  match x with
  | None => false
  | Some (PyStr "") => false
  | Some (PyBytes []) => false
  | Some (PyInt 0) => false
  | Some _ => true
  end.

Section Symmetric.

Context {L : Library} {E : Encoders}.

Definition aes_encrypt_with_iv (key iv data : pyobj) : result bytes :=
  _ <- assert_bytes [key; iv; data] ;;
  if AES then
    let padlen := 16 - len (bytes_value data) mod 16 in
    let padlen := if padlen =? 0 then 16 else padlen in
    data <- py_add data (PyStr (pad_text padlen)) ;;
    library_call "cipher"
      (AES_cbc_encrypt (bytes_value key) (bytes_value iv) (bytes_value data))
  else
    library_call "cipher"
      (pyaes_cbc_encrypt (bytes_value key) (bytes_value iv) (bytes_value data)).

(** [iv] stands for the 16 bytes that [os.urandom] returns. *)
Definition EncodeAES (secret s : pyobj) (iv : bytes) : result bytes :=
  _ <- assert_bytes [s] ;;
  ct <- aes_encrypt_with_iv secret (PyBytes iv) s ;;
  let e := iv ++ ct in
  Ok (base64_b64encode e).

Definition DecodeAES (secret e : pyobj) : M bytes :=
  e <~ lift (library_call "base64.b64decode" (base64_b64decode e)) ;;
  let iv := slice e None (Some 16) in
  let e := slice e (Some 16) None in
  aes_decrypt_with_iv secret (PyBytes iv) (PyBytes e).

(** [s] is a [str]; the result is the encoded [bytes], or [s] itself. *)
Definition pw_encode (s : string) (password : option pyobj) (iv : bytes)
  : result pyobj :=
  if truthy password then
    secret <- Hash (match password with Some p => p | None => PyStr "" end) ;;
    e <- EncodeAES (PyBytes secret) (PyBytes (encode_utf8 s)) iv ;;
    Ok (PyBytes e)
  else Ok (PyStr s).

(** [try: d = DecodeAES(secret, s).decode("utf8")
     except Exception: raise InvalidPassword()] *)
Definition pw_decode (s : pyobj) (password : option pyobj) : M pyobj :=
  match password with
  | Some password =>
      secret <~ lift (Hash password) ;;
      fun log =>
        match (b <~ DecodeAES (PyBytes secret) s ;;
               lift (library_call "bytes.decode" (decode_utf8 b))) log with
        | (Ok d, log') => (Ok (PyStr d), log')
        | (Err e, log') =>
            (Err (if is_Exception e then InvalidPassword else e), log')
        end
  | None => ret s
  end.

(** [EC_KEY.encrypt_message]; [r] stands for the integer that
    [ecdsa.util.randrange(pow(2,256))] returns. *)
Definition EC_KEY_encrypt_message (message : pyobj) (pubkey : bytes) (r : Z)
  : result bytes :=
  _ <- assert_bytes [message] ;;
  pk <- ser_to_point pubkey ;;
  x <- point_x pk ;;
  y <- point_y pk ;;
  if negb (point_is_valid generator_secp256k1 x y)
  then Err (Exception "invalid pubkey") else
  ephemeral_exponent <- number_to_string r generator_order ;;
  ephemeral <- EC_KEY_init ephemeral_exponent ;;
  ecdh_key <- point_to_ser (point_mul pk (secret_multiplier (privkey ephemeral))) true ;;
  let key := hashlib_sha512 ecdh_key in
  let iv := slice key (Some 0) (Some 16) in
  let key_e := slice key (Some 16) (Some 32) in
  let key_m := slice key (Some 32) None in
  ciphertext <- aes_encrypt_with_iv (PyBytes key_e) (PyBytes iv) message ;;
  h <- get_public_key ephemeral true ;;
  ephemeral_pubkey <- bfh h ;;
  let encrypted := bytes_of_string "BIE1" ++ ephemeral_pubkey ++ ciphertext in
  let mac := hmac_sha256 key_m encrypted in
  Ok (base64_b64encode (encrypted ++ mac)).

Definition encrypt_message (message : pyobj) (pubkey : string) (r : Z)
  : result bytes :=
  p <- bfh pubkey ;;
  EC_KEY_encrypt_message message p r.

End Symmetric.

(** ** A model of the library interface

    The additive group of the integers modulo [2^256 - 1], written as
    points: the scalar [k] is the point [(k / 2, k mod 2)] and zero is the
    point at infinity.  Over the one-element coordinate field every pair is
    on the curve and the recovered ordinate is the parity bit, so point
    compression is exact.  Digests are length-preserving checksums.  The
    model inhabits the hypotheses of the general theorems and serves as
    the oracle of the counterexamples. *)

Module Model.

Definition order : Z := 2 ^ 256 - 1.

Definition point_of (k : Z) : Point :=
  if k =? 0 then INFINITY else Pt (k / 2) (k mod 2).

Definition scalar_of (P : Point) : Z :=
  match P with
  | INFINITY => 0
  | Pt x y => 2 * x + y
  end.

Definition mul (P : Point) (e : Z) : Point :=
  point_of ((scalar_of P * e) mod order).

Definition add (P Q : Point) : Point :=
  point_of ((scalar_of P + scalar_of Q) mod order).

Definition digest (l : nat) (x : bytes) : bytes :=
  be_of_Z l (be_to_Z x + len x + 1).

(** The keyed digest returns its key followed by a checksum of the
    message, so that a chain code chooses the left half of the output. *)
Definition keyed (l : nat) (key msg : bytes) : bytes :=
  firstn l (key ++ digest l msg).

Definition b64decode (x : pyobj) : option bytes :=
  match x with
  | PyBytes b => Some b
  | PyStr s => Some (bytes_of_string s)
  | PyInt _ => None
  end.

Definition cbc_decrypt (key iv data : bytes) : option bytes := Some data.

Fixpoint decimal (s : string) (acc : Z) : option Z :=
  match s with
  | "" => Some acc
  | String ch rest =>
      let d := ascii_to_Z ch - 48 in
      if (0 <=? d) && (d <=? 9) then decimal rest (10 * acc + d) else None
  end.

Definition int (s : string) : option Z :=
  match s with
  | "" => None
  | _ => decimal s 0
  end.

#[export] Instance lib : Library := {
  hashlib_sha256 := digest 32;
  hashlib_sha512 := digest 64;
  hashlib_ripemd := digest 20;
  hmac_sha256 := keyed 32;
  hmac_sha512 := keyed 64;
  base64_b64decode := b64decode;
  AES := false;
  AES_cbc_decrypt := cbc_decrypt;
  pyaes_cbc_decrypt := cbc_decrypt;
  curve_secp256k1 := mkCurveFp 1 0 0;
  generator_secp256k1 := Pt 0 1;
  generator_order := order;
  point_add := add;
  point_mul := mul;
  inverse_mod := fun a m => Some a;
  modular_sqrt := fun a m => Some a;
  generate_k := fun order secexp digest => 1;
  privkey_sign := fun secret number k => Some (number mod order, order - 1);
  pubkey_verifies := fun P number r s => true;
  int_of_str := int
}.

(** The encoders that [b64decode] and [cbc_decrypt] invert; the cipher
    returns no text shorter than one block, and the decoder knows the
    7-bit code points. *)
Definition b64encode (x : bytes) : bytes := x.

Definition cbc_encrypt (key iv data : bytes) : option bytes :=
  if len data <? 16 then None else Some data.

Definition decode (b : bytes) : option string :=
  match decode_ascii b with
  | Ok s => Some s
  | Err _ => None
  end.

#[export] Instance enc : Encoders := {
  base64_b64encode := b64encode;
  AES_cbc_encrypt := cbc_encrypt;
  pyaes_cbc_encrypt := cbc_encrypt;
  decode_utf8 := decode
}.

(** The same library with the Cryptodome cipher installed. *)
Definition cryptodome_lib : Library := {|
  hashlib_sha256 := digest 32;
  hashlib_sha512 := digest 64;
  hashlib_ripemd := digest 20;
  hmac_sha256 := keyed 32;
  hmac_sha512 := keyed 64;
  base64_b64decode := b64decode;
  AES := true;
  AES_cbc_decrypt := cbc_decrypt;
  pyaes_cbc_decrypt := cbc_decrypt;
  curve_secp256k1 := mkCurveFp 1 0 0;
  generator_secp256k1 := Pt 0 1;
  generator_order := order;
  point_add := add;
  point_mul := mul;
  inverse_mod := fun a m => Some a;
  modular_sqrt := fun a m => Some a;
  generate_k := fun order secexp digest => 1;
  privkey_sign := fun secret number k => Some (number mod order, order - 1);
  pubkey_verifies := fun P number r s => true;
  int_of_str := int
|}.

(** The same library with a keyed digest of 64 bytes that returns zeros:
    the out-of-range master scalar of [bip32_root]. *)
Definition zero_digest_lib : Library := {|
  hashlib_sha256 := digest 32;
  hashlib_sha512 := digest 64;
  hashlib_ripemd := digest 20;
  hmac_sha256 := keyed 32;
  hmac_sha512 := fun key msg => repeat x00 64;
  base64_b64decode := b64decode;
  AES := false;
  AES_cbc_decrypt := cbc_decrypt;
  pyaes_cbc_decrypt := cbc_decrypt;
  curve_secp256k1 := mkCurveFp 1 0 0;
  generator_secp256k1 := Pt 0 1;
  generator_order := order;
  point_add := add;
  point_mul := mul;
  inverse_mod := fun a m => Some a;
  modular_sqrt := fun a m => Some a;
  generate_k := fun order secexp digest => 1;
  privkey_sign := fun secret number k => Some (number mod order, order - 1);
  pubkey_verifies := fun P number r s => true;
  int_of_str := int
|}.

End Model.

(** * Vocabulary of the statements *)

(** ** Exceptions *)

(** The exceptions a computation can end in. *)
Definition errs_in {A : Type} (P : exn -> Prop) (r : result A) : Prop :=
  forall e, r = Err e -> P e.

(** The ordinary exceptions: the built-in and library exceptions and every
    [Exception] of the module except the length error of
    [decrypt_message]; [BaseException] itself is not one of them. *)
Definition ordinary (e : exn) : Prop :=
  match e with
  | BaseException _ => False
  | Exception msg => msg <> "invalid ciphertext: length"
  | _ => True
  end.

Definition errsM {A : Type} (P : exn -> Prop) (m : M A) : Prop :=
  forall log, errs_in P (fst (m log)).

(** ** Hexadecimal text *)

(** The [w] low-order hexadecimal digits of [n]. *)
Fixpoint hexw (w : nat) (n : Z) : string :=
  match w with
  | O => ""
  | S w' => (hexw w' (n / 16) ++ String (hex_digit (n mod 16)) "")%string
  end.

(** Text without the suffix letter of Python 2 long integers. *)
Definition no_L (s : string) : Prop :=
  forall c, In c (list_ascii_of_string s) -> Ascii.eqb c "L" = false.

(** ** Digits of the codec *)

(** The digits the loop and the statement after it emit, least significant
    first, the final quotient included. *)
Fixpoint le_digits (fuel : nat) (base n : Z) : list Z :=
  match fuel with
  | O => [n]
  | S fuel' =>
      if n >=? base then n mod base :: le_digits fuel' base (n / base) else [n]
  end.

(** The number a list of digits, least significant first, stands for. *)
Definition le_value (base : Z) (ds : list Z) : Z :=
  fold_right (fun d acc => d + base * acc) 0 ds.

(** The character of digit [d] in an alphabet. *)
Definition chr (chars : bytes) (d : Z) : byte := nth (Z.to_nat d) chars x00.

(** What the codec needs of digit [d] of an alphabet: indexing yields its
    character, [find] gives the digit back, the character is ASCII and
    only digit zero carries the zero character. *)
Definition alphabet_check (chars : bytes) (d : Z) : bool :=
  match getitem chars d with
  | Ok c => byte_eqb c (chr chars d)
  | Err _ => false
  end
  && (bytes_find chars (chr chars d) =? d)
  && (byte_to_Z (chr chars d) <? 128)
  && ((d =? 0) || negb (byte_eqb (chr chars d) (chr chars 0))).

(** The bytes of the text that [base_encode] returns: the digits of the
    value, most significant first, after one zero digit per leading zero
    byte. *)
Definition encoded (v : bytes) (base : Z) : bytes :=
  let chars := chars_of_base base in
  let ds := le_digits (loop_bound (be_to_Z v)) base (be_to_Z v) in
  rev (map (chr chars) ds ++ repeat (chr chars 0) (Z.to_nat (count_leading x00 v))).

(** A digit of base 256 as a byte. *)
Definition byte_or_zero (d : Z) : byte :=
  match byte_of_Z d with Some b => b | None => x00 end.

(** ** Laws of the imported library and relations between keys *)

(** The exponentiation of [ECC_YfromX], started at offset 0, finds the
    ordinate [y] of the curve point of abscissa [x]. *)
Definition recovers (curve : CurveFp) (x y : Z) : Prop :=
  let p := curve_p curve in
  let My := pow_mod (pow_mod (x + 0) 3 p + curve_a curve * pow_mod (x + 0) 2 p
                     + curve_b curve mod p) ((p + 1) / 4) p in
  contains_point curve x y = true
  /\ contains_point curve (x + 0) My = true
  /\ (if Bool.eqb (negb (Z.land y 1 =? 0)) (negb (Z.land My 1 =? 0))
      then My else p - My) = y.

(** What the derivation of extended keys relies on: digests of 32 bytes,
    an order that fits 32 bytes, scalar multiplication of the generator
    that distributes over addition modulo the order, a curve on which
    ordinates are recovered, and version headers that fit four bytes. *)
Class LibraryLaws (L : Library) (net : Network) : Prop := {
  sha256_length : forall x, len (hashlib_sha256 x) = 32;
  order_bound : generator_order <= 2 ^ 256;
  mul_add : forall a b,
    point_mul generator_secp256k1 ((a + b) mod generator_order)
    = point_add (point_mul generator_secp256k1 a) (point_mul generator_secp256k1 b);
  sqrt_law : forall k x y,
    point_mul generator_secp256k1 k = Pt x y -> recovers curve_secp256k1 x y;
  xpub_header_pos : 0 < XPUB_HEADER net;
  xpub_header_bound : XPUB_HEADER net + 1 < 2 ^ 32
}.

(** The first byte of a compressed key. *)
Definition prefix_of (y : Z) : byte := if negb (Z.land y 1 =? 0) then x03 else x02.

Section Keys.
Context {L : Library}.
Variable net : Network.

(** [cK] is the compressed public key of the scalar written in [k]. *)
Definition pub_of (k cK : bytes) : Prop :=
  exists pk, Public_key_init generator_secp256k1
               (point_mul generator_secp256k1 (be_to_Z k)) = Ok pk
             /\ GetPubKey pk true = Ok cK.

(** A path element that [bip32_public_derivation] can follow: empty, or
    an index below [BIP32_PRIME] without the prime mark. *)
Definition non_hardened (n : string) : Prop :=
  n = "" \/
  (last_char n <> Some "'"%char
   /\ exists i, int_of_str n = Some i /\ 0 <= i < 2 ^ 31).

(** The parent keys of the two loops, unset before the first step. *)
Definition parents_agree (pk : option bytes) (pcK : option bytes) : Prop :=
  match pk, pcK with
  | Some k, Some cK => pub_of k cK
  | None, None => True
  | _, _ => False
  end.

(** The state of the public loop mirrors that of the private loop. *)
Definition mirrors (st : priv_state) (pst : pub_state) : Prop :=
  pub_of (ps_k st) (pb_cK pst)
  /\ pb_c pst = ps_c st
  /\ pb_depth pst = ps_depth st
  /\ pb_i pst = ps_i st
  /\ parents_agree (ps_parent_k st) (pb_parent_cK pst).

(** The script types [deserialize_xkey] accepts on the network. *)
Definition xtype_ok (xtype : Z) : Prop :=
  if TESTNET net then xtype = 0 \/ xtype = 1 else xtype = 0.

End Keys.

(** * Properties *)

(** ** The exception monad *)

Lemma Ok_inj {A : Type} (a b : A) : Ok a = Ok b -> a = b.
Proof. intros H. congruence. Qed.

Lemma bind_Ok {A B : Type} (m : result A) (k : A -> result B) (b : B) :
  bind m k = Ok b -> exists a, m = Ok a /\ k a = Ok b.
Proof.
  destruct m as [a|e]; simpl; intros H; [eauto | discriminate].
Qed.

Lemma py_assert_Ok (c : bool) (u : unit) : py_assert c = Ok u -> c = true.
Proof. destruct c; simpl; [reflexivity | discriminate]. Qed.

Ltac inv_bind H :=
  let a := fresh "v" in
  let H1 := fresh "E" in
  apply bind_Ok in H; destruct H as (a & H1 & H).

Lemma bytes_eqb_eq (a b : bytes) : bytes_eqb a b = true <-> a = b.
Proof.
  unfold bytes_eqb. destruct (list_eq_dec byte_eq_dec a b); split; congruence.
Qed.

Lemma bytes_eqb_neq (a b : bytes) : bytes_eqb a b = false <-> a <> b.
Proof.
  unfold bytes_eqb. destruct (list_eq_dec byte_eq_dec a b); split; congruence.
Qed.

Lemma errs_in_Ok {A : Type} (P : exn -> Prop) (a : A) : errs_in P (Ok a).
Proof. intros e H; discriminate. Qed.

Lemma errs_in_Err {A : Type} (P : exn -> Prop) (e : exn) : P e -> errs_in P (@Err A e).
Proof. intros H e' E; injection E as <-; exact H. Qed.

Lemma errs_in_bind {A B : Type} (P : exn -> Prop) (m : result A) (k : A -> result B) :
  errs_in P m -> (forall a, errs_in P (k a)) -> errs_in P (bind m k).
Proof.
  intros Hm Hk e. destruct m as [a|e']; simpl.
  - apply Hk.
  - intros E; injection E as <-. apply Hm; reflexivity.
Qed.

Lemma errs_in_except {A : Type} (P : exn -> Prop) (r handler : result A) :
  errs_in P r -> errs_in P handler -> errs_in P (except_AssertionError r handler).
Proof.
  intros Hr Hh. destruct r as [a|e]; simpl; [exact Hr|].
  destruct e; try exact Hr. exact Hh.
Qed.

Create HintDb errs discriminated.

#[export] Hint Resolve errs_in_Ok errs_in_Err : errs.

(** ** C2, C6: the codec on foreign characters and on zero buffers *)

(** C2 (code defect): the character [0] is not in the base-58 alphabet, yet
    [base_decode("20", None, 58)] returns the one-byte buffer [0x39], with
    or without the expected length 1: the foreign character counts as the
    digit -1 that [find] reports.  The same holds in base 43, where [a] is
    foreign and [base_decode("1a", None, 43)] returns the byte 42. *)
Theorem base_decode_foreign_character :
  existsb (byte_eqb "0"%byte) __b58chars = false /\
  base_decode (PyStr "20") None 58 = Ok (Some ["9"%byte]) /\
  base_decode (PyStr "20") (Some 1) 58 = Ok (Some ["9"%byte]) /\
  existsb (byte_eqb "a"%byte) __b43chars = false /\
  base_decode (PyStr "1a") None 43 = Ok (Some ["*"%byte]).
Proof. repeat split; vm_compute; reflexivity. Qed.

(** C6 (code defect): the buffer of one zero byte is encoded as two zero
    digits, which decode to three zero bytes: with the expected length 1
    the decoder returns no value. *)
Theorem base_roundtrip_zero_byte :
  base_encode (PyBytes [x00]) 58 = Ok "11" /\
  base_decode (PyStr "11") (Some 1) 58 = Ok None /\
  base_decode (PyStr "11") None 58 = Ok (Some [x00; x00; x00]).
Proof. repeat split; vm_compute; reflexivity. Qed.

(** ** C4: minikeys *)

(** C4 (code defect): on the text [S6c56bnXQiBjk9mqSYE7ykVQ7NzrRy] the
    membership test of a one-character [str] in the [bytes] alphabet raises
    [TypeError], whatever the digest; on the same characters as [bytes] the
    comparison of the first element with ['S'] is false.  The private key
    of the text is the digest of its bytes, the same on every call. *)
Theorem is_minikey_raises :
  forall L : Library,
    is_minikey (PyStr "S6c56bnXQiBjk9mqSYE7ykVQ7NzrRy") = Err TypeError /\
    is_minikey (PyBytes (bytes_of_string "S6c56bnXQiBjk9mqSYE7ykVQ7NzrRy")) = Ok false /\
    minikey_to_private_key (PyStr "S6c56bnXQiBjk9mqSYE7ykVQ7NzrRy")
    = Ok (hashlib_sha256 (bytes_of_string "S6c56bnXQiBjk9mqSYE7ykVQ7NzrRy")).
Proof. intros L; repeat split; reflexivity. Qed.

(** ** C1, C3: the order of checks in [decrypt_message] *)

(** C1: when the envelope passes the length, magic and ephemeral-point
    checks and the recomputed MAC differs from the trailing 32 bytes,
    [decrypt_message] raises [InvalidPassword] and leaves the log of
    cipher calls as it found it. *)
Theorem decrypt_message_mac_before_cipher :
  forall (L : Library) (self : EC_KEY) (encrypted : pyobj) (env : bytes)
         (x y : Z) (ecdh_key : bytes) (log : cipher_log),
    base64_b64decode encrypted = Some env ->
    85 <= len env ->
    slice env None (Some 4) = bytes_of_string "BIE1" ->
    ser_to_point (slice env (Some 4) (Some 37)) = Ok (Pt x y) ->
    point_is_valid generator_secp256k1 x y = true ->
    point_to_ser (point_mul (Pt x y) (secret_multiplier (privkey self))) true
      = Ok ecdh_key ->
    hmac_sha256 (slice (hashlib_sha512 ecdh_key) (Some 32) None)
                (slice env None (Some (-32)))
      <> slice env (Some (-32)) None ->
    decrypt_message self encrypted log = (Err InvalidPassword, log).
Proof.
  intros L self encrypted env x y ecdh_key log Hdec Hlen Hmagic Hpt Hvalid Hecdh Hmac.
  unfold decrypt_message, bindM, lift, raise.
  rewrite Hdec; simpl library_call; cbv beta iota.
  destruct (len env <? 85) eqn:E; [apply Z.ltb_lt in E; lia|].
  rewrite Hmagic.
  replace (bytes_eqb (bytes_of_string "BIE1") (bytes_of_string "BIE1")) with true
    by (symmetry; apply bytes_eqb_eq; reflexivity).
  rewrite Hpt; cbv beta iota delta [negb point_x point_y except_AssertionError].
  rewrite Hvalid, Hecdh; cbv beta iota.
  destruct (bytes_eqb _ _) eqn:Eq; [|reflexivity].
  apply bytes_eqb_eq in Eq. symmetry in Eq. contradiction.
Qed.


Lemma decrypt_message_mac_before_cipher_witness :
  decrypt_message (L := Model.lib)
    (mkEC_KEY (mkPublic_key (Pt 2 1)) (mkPrivate_key (mkPublic_key (Pt 2 1)) 5) 5)
    (PyBytes (bytes_of_string "BIE1" ++ [x02] ++ be_of_Z 32 9 ++ repeat x00 48))
    []
  = (Err InvalidPassword, []).
Proof.
  eapply (decrypt_message_mac_before_cipher Model.lib _ _ _ 9 0).
  - reflexivity.
  - vm_compute; discriminate.
  - reflexivity.
  - vm_compute; reflexivity.
  - vm_compute; reflexivity.
  - vm_compute; reflexivity.
  - vm_compute; discriminate.
Defined.

(** ** Which exceptions the functions raise *)

Lemma errsM_bind {A B : Type} (P : exn -> Prop) (m : M A) (k : A -> M B) :
  errsM P m -> (forall a, errsM P (k a)) -> errsM P (bindM m k).
Proof.
  intros Hm Hk log. unfold bindM. specialize (Hm log).
  destruct (m log) as [[a|e] log']; simpl in *.
  - apply Hk.
  - apply errs_in_Err. apply Hm. reflexivity.
Qed.

Lemma errsM_lift {A : Type} (P : exn -> Prop) (r : result A) :
  errs_in P r -> errsM P (lift r).
Proof. intros H log; exact H. Qed.

Lemma errsM_raise {A : Type} (P : exn -> Prop) (e : exn) : P e -> errsM P (@raise A e).
Proof. intros H log; simpl; apply errs_in_Err; exact H. Qed.

Ltac errs_step :=
  match goal with
  | |- errs_in _ (bind _ _) => apply errs_in_bind; [| intros ?]
  | |- errs_in _ (Ok _) => apply errs_in_Ok
  | |- errs_in _ (Err _) => apply errs_in_Err
  | |- errs_in _ (except_AssertionError _ _) => apply errs_in_except
  | |- errsM _ (bindM _ _) => apply errsM_bind; [| intros ?]
  | |- errsM _ (lift _) => apply errsM_lift
  | |- errsM _ (raise _) => apply errsM_raise
  | |- errs_in _ (if ?c then _ else _) => destruct c
  | |- errsM _ (if ?c then _ else _) => destruct c
  | |- errs_in _ (match ?x with _ => _ end) => destruct x
  | |- errs_in _ (let _ := _ in _) => cbv zeta
  | |- errsM _ (let _ := _ in _) => cbv zeta
  end.

Section Raises.

Context {L : Library}.
Variable net : Network.

Ltac errs :=
  auto with errs;
  repeat (errs_step; auto with errs);
  try (simpl; first [exact I | discriminate]).

Lemma getitem_errs {A : Type} (l : list A) (i : Z) : errs_in ordinary (getitem l i).
Proof. unfold getitem. errs. Qed.

Lemma py_assert_errs (c : bool) : errs_in ordinary (py_assert c).
Proof. unfold py_assert. errs. Qed.

Lemma string_to_number_errs (s : bytes) : errs_in ordinary (string_to_number s).
Proof. unfold string_to_number. errs. Qed.

Lemma bfh_errs (s : string) : errs_in ordinary (bfh s).
Proof.
  assert (H : errs_in ordinary (bfh s) /\ forall c, errs_in ordinary (bfh (String c s))).
  { induction s as [|a s [IHs IHc]].
    - split; [simpl; errs|]. intros c. simpl. errs.
    - split; [apply IHc|]. intros c. cbn [bfh].
      destruct (is_space c); [apply IHc|].
      destruct (ascii_to_digit c), (ascii_to_digit a); errs. }
  apply H.
Qed.

Lemma library_call_errs {A : Type} (o : string) (r : option A) :
  errs_in ordinary (library_call o r).
Proof. unfold library_call. errs. Qed.

Lemma number_to_string_errs (num order : Z) : errs_in ordinary (number_to_string num order).
Proof. unfold number_to_string. errs. Qed.

Lemma point_x_errs (Q : Point) : errs_in ordinary (point_x Q).
Proof. unfold point_x. errs. Qed.

Lemma point_y_errs (Q : Point) : errs_in ordinary (point_y Q).
Proof. unfold point_y. errs. Qed.

Hint Resolve getitem_errs py_assert_errs string_to_number_errs bfh_errs
  library_call_errs number_to_string_errs point_x_errs point_y_errs : errs.

Lemma Point_init_errs curve x y order : errs_in ordinary (Point_init curve x y order).
Proof. unfold Point_init. errs. Qed.

Lemma ECC_YfromX_errs x curved odd : errs_in ordinary (ECC_YfromX x curved odd).
Proof.
  unfold ECC_YfromX. generalize (map Z.of_nat (seq 0 128)).
  induction l as [|o rest IH]; simpl; errs.
Qed.

Hint Resolve Point_init_errs ECC_YfromX_errs : errs.

Lemma ser_to_point_errs (Aser : bytes) : errs_in ordinary (ser_to_point Aser).
Proof. unfold ser_to_point. errs. Qed.

Lemma point_to_ser_errs (Q : Point) (comp : bool) : errs_in ordinary (point_to_ser Q comp).
Proof. unfold point_to_ser. errs. Qed.

Lemma to_bytes_errs (x : pyobj) (enc : encoding) : errs_in ordinary (to_bytes x enc).
Proof. unfold to_bytes, encode_ascii. errs. Qed.

Lemma encode_ascii_errs (s : string) : errs_in ordinary (encode_ascii s).
Proof. unfold encode_ascii. errs. Qed.

Lemma decode_ascii_errs (b : bytes) : errs_in ordinary (decode_ascii b).
Proof. unfold decode_ascii. errs. Qed.

Lemma bytearray_append_errs (buf : bytes) (x : Z) : errs_in ordinary (bytearray_append buf x).
Proof. unfold bytearray_append. errs. Qed.

Lemma bytes1_errs (n : Z) : errs_in ordinary (bytes1 n).
Proof. unfold bytes1. errs. Qed.

Lemma assert_bytes_errs (args : list pyobj) : errs_in ordinary (assert_bytes args).
Proof. unfold assert_bytes. errs. Qed.

Hint Resolve ser_to_point_errs point_to_ser_errs to_bytes_errs encode_ascii_errs
  decode_ascii_errs bytearray_append_errs bytes1_errs assert_bytes_errs : errs.

Lemma divmod_loop_errs fuel emit base long_value buf :
  (forall d, errs_in ordinary (emit d)) ->
  errs_in ordinary (divmod_loop fuel emit base long_value buf).
Proof.
  intros Hemit. revert long_value buf.
  induction fuel as [|fuel IH]; intros long_value buf; simpl; errs.
Qed.

Lemma base_encode_errs (v : pyobj) (base : Z) : errs_in ordinary (base_encode v base).
Proof.
  unfold base_encode. errs.
  apply divmod_loop_errs. intros d. errs.
Qed.

Lemma sha256_errs (x : pyobj) : errs_in ordinary (sha256 x).
Proof. unfold sha256. errs. Qed.

Hint Resolve base_encode_errs sha256_errs : errs.

Lemma Hash_errs (x : pyobj) : errs_in ordinary (Hash x).
Proof. unfold Hash. errs. Qed.

Lemma rev_hex_errs (s : string) : errs_in ordinary (rev_hex s).
Proof. unfold rev_hex. errs. Qed.

Hint Resolve Hash_errs rev_hex_errs : errs.

Lemma int_to_hex_errs (i length : Z) : errs_in ordinary (int_to_hex i length).
Proof. unfold int_to_hex. errs. Qed.

Hint Resolve int_to_hex_errs : errs.

Lemma var_int_errs (i : Z) : errs_in ordinary (var_int i).
Proof. unfold var_int. errs. Qed.

Hint Resolve var_int_errs : errs.

Lemma msg_magic_errs (message : bytes) : errs_in ordinary (msg_magic message).
Proof. unfold msg_magic. errs. Qed.

Lemma public_key_to_p2pkh_errs (public_key : pyobj) :
  errs_in ordinary (public_key_to_p2pkh net public_key).
Proof.
  unfold public_key_to_p2pkh, hash160_to_p2pkh, hash_160_to_bc_address, hash_160.
  errs.
Qed.

Lemma sigdecode_string_errs (signature : bytes) (order : Z) :
  errs_in ordinary (sigdecode_string signature order).
Proof. unfold sigdecode_string, string_to_number_fixedlen. errs. Qed.

Lemma Public_key_init_errs (G Q : Point) : errs_in ordinary (Public_key_init G Q).
Proof. unfold Public_key_init. errs. Qed.

Hint Resolve msg_magic_errs public_key_to_p2pkh_errs sigdecode_string_errs
  Public_key_init_errs : errs.

Lemma verify_digest_errs vk signature digest : errs_in ordinary (verify_digest vk signature digest).
Proof. unfold verify_digest. errs. Qed.

Lemma from_signature_errs sig recid h : errs_in ordinary (from_signature sig recid h).
Proof. unfold from_signature, VerifyingKey_from_public_point. errs. Qed.

Hint Resolve verify_digest_errs from_signature_errs : errs.

Lemma pubkey_from_signature_errs sig message :
  errs_in ordinary (pubkey_from_signature sig message).
Proof. unfold pubkey_from_signature. errs. Qed.

Lemma aes_decrypt_with_iv_errs key iv data : errsM ordinary (aes_decrypt_with_iv key iv data).
Proof.
  unfold aes_decrypt_with_iv. errs.
  - intros log; simpl. auto with errs.
  - unfold py_ord; errs.
  - match goal with |- errs_in _ (py_all _ ?l) => generalize l end.
    intros l; induction l as [|c rest IH]; simpl; errs.
  - intros log; simpl. auto with errs.
Qed.

Hint Resolve pubkey_from_signature_errs : errs.

Lemma verify_message_try_errs address sig message :
  errs_in ordinary (verify_message_try net address sig message).
Proof. unfold verify_message_try. errs. Qed.

Lemma decrypt_message_errs self encrypted env log :
  base64_b64decode encrypted = Some env ->
  85 <= len env ->
  errs_in ordinary (fst (decrypt_message self encrypted log)).
Proof.
  intros Hdec Hlen. unfold decrypt_message.
  unfold bindM at 1. unfold lift at 1. rewrite Hdec. cbn [library_call].
  destruct (len env <? 85) eqn:E; [apply Z.ltb_lt in E; lia|].
  revert log.
  match goal with |- forall log, errs_in ordinary (fst (?m log)) => change (errsM ordinary m) end.
  errs.
  apply aes_decrypt_with_iv_errs.
Qed.

End Raises.

(** ** C3: the length check of [decrypt_message] *)

(** C3 as stated fails: an envelope of 69 bytes is rejected with the length
    error, so 69 is not the least accepted length. *)
Lemma decrypt_message_69_rejected :
  ~ (forall (L : Library) (self : EC_KEY) (encrypted : pyobj) (env : bytes)
            (log : cipher_log),
        base64_b64decode encrypted = Some env ->
        (fst (decrypt_message self encrypted log)
           = Err (Exception "invalid ciphertext: length")
         <-> len env < 69)).
Proof.
  intros H.
  specialize (H Model.lib
                (mkEC_KEY (mkPublic_key (Pt 2 1)) (mkPrivate_key (mkPublic_key (Pt 2 1)) 5) 5)
                (PyBytes (repeat x00 69)) (repeat x00 69) [] eq_refl).
  destruct H as [H _].
  assert (E : len (repeat x00 69) < 69) by (apply H; vm_compute; reflexivity).
  vm_compute in E. discriminate.
Qed.

(** C3 (amended): [decrypt_message] raises the length error exactly when
    the decoded envelope is shorter than 85 bytes, that is 4 (magic) + 33
    (ephemeral key) + 16 (one cipher block) + 32 (MAC). *)
Theorem decrypt_message_length_check :
  forall (L : Library) (self : EC_KEY) (encrypted : pyobj) (env : bytes)
         (log : cipher_log),
    base64_b64decode encrypted = Some env ->
    (fst (decrypt_message self encrypted log)
       = Err (Exception "invalid ciphertext: length")
     <-> len env < 85).
Proof.
  intros L self encrypted env log Hdec. split.
  - intros H. destruct (Z_lt_ge_dec (len env) 85) as [Hlt|Hge]; [exact Hlt|exfalso].
    apply (decrypt_message_errs self encrypted env log Hdec) in H; [|lia].
    apply H; reflexivity.
  - intros Hlt. unfold decrypt_message.
    unfold bindM at 1. unfold lift at 1. rewrite Hdec. cbn [library_call].
    apply Z.ltb_lt in Hlt. rewrite Hlt. reflexivity.
Qed.

Lemma decrypt_message_length_check_witness :
  fst (decrypt_message (L := Model.lib)
         (mkEC_KEY (mkPublic_key (Pt 2 1)) (mkPrivate_key (mkPublic_key (Pt 2 1)) 5) 5)
         (PyBytes (repeat x00 84)) [])
    = Err (Exception "invalid ciphertext: length")
  <-> len (repeat x00 84) < 85.
Proof.
  apply (decrypt_message_length_check Model.lib). reflexivity.
Defined.

(** ** C10: [verify_message] never raises on byte strings *)

(** C10: for every address and all byte strings [sig] and [message],
    [verify_message] returns a boolean: [True] when the body of its [try]
    block runs to the end and [False] whenever that body raises. *)
Theorem verify_message_total :
  forall (L : Library) (net : Network) (address : pyobj) (sig message : bytes),
    verify_message net address (PyBytes sig) (PyBytes message)
    = Ok (match verify_message_try net address sig message with
          | Ok b => b
          | Err _ => false
          end).
Proof.
  intros L net address sig message. unfold verify_message. simpl.
  destruct (verify_message_try net address sig message) as [b|e] eqn:E.
  - reflexivity.
  - apply verify_message_try_errs in E.
    destruct e; try reflexivity. contradiction.
Qed.

(** ** Bytes as numbers *)

Ltac zdiv := Z.div_mod_to_equations; lia.

Lemma byte_to_Z_range (b : byte) : 0 <= byte_to_Z b < 256.
Proof. unfold byte_to_Z. pose proof (Byte.to_N_bounded b). lia. Qed.

Lemma byte_of_to_Z (b : byte) : byte_of_Z (byte_to_Z b) = Some b.
Proof.
  unfold byte_of_Z. pose proof (byte_to_Z_range b) as R.
  destruct (byte_to_Z b <? 0) eqn:E; [apply Z.ltb_lt in E; lia|].
  unfold byte_to_Z. rewrite N2Z.id. apply Byte.of_to_N.
Qed.

Lemma byte_of_Z_Some (n : Z) (b : byte) : byte_of_Z n = Some b -> byte_to_Z b = n.
Proof.
  unfold byte_of_Z, byte_to_Z. destruct (n <? 0) eqn:E; [discriminate|].
  intros H. apply Byte.to_of_N in H. rewrite H. apply Z.ltb_ge in E. lia.
Qed.

Lemma byte_of_Z_in_range (n : Z) : 0 <= n < 256 -> exists b, byte_of_Z n = Some b.
Proof.
  intros R. unfold byte_of_Z. destruct (n <? 0) eqn:E; [apply Z.ltb_lt in E; lia|].
  destruct (Byte.of_N (Z.to_N n)) as [b|] eqn:F; [eauto|].
  apply Byte.of_N_None_iff in F. lia.
Qed.

Lemma byte_eqb_eq (a b : byte) : byte_eqb a b = true <-> a = b.
Proof.
  unfold byte_eqb. split; [apply Byte.byte_dec_bl | apply Byte.byte_dec_lb].
Qed.

Lemma byte_to_Z_inj (a b : byte) : byte_to_Z a = byte_to_Z b -> a = b.
Proof.
  intros H. pose proof (byte_of_to_Z a) as Ha. rewrite H, byte_of_to_Z in Ha.
  congruence.
Qed.

Lemma len_app {A : Type} (a b : list A) : len (a ++ b) = len a + len b.
Proof. unfold len. rewrite length_app. lia. Qed.

Lemma len_nonneg {A : Type} (a : list A) : 0 <= len a.
Proof. unfold len. lia. Qed.

Lemma len_cons {A : Type} (x : A) (a : list A) : len (x :: a) = 1 + len a.
Proof. unfold len. cbn [List.length]. lia. Qed.

Lemma be_fold_acc (s : bytes) (acc : Z) :
  fold_left (fun a b => a * 256 + byte_to_Z b) s acc = acc * 256 ^ len s + be_to_Z s.
Proof.
  unfold be_to_Z. revert acc.
  induction s as [|x s IH]; intros acc.
  - unfold len; simpl. lia.
  - cbn [fold_left]. rewrite IH. symmetry. rewrite IH.
    rewrite len_cons.
    rewrite Z.pow_add_r by (try apply len_nonneg; lia). ring.
Qed.

Lemma be_to_Z_app (a b : bytes) : be_to_Z (a ++ b) = be_to_Z a * 256 ^ len b + be_to_Z b.
Proof.
  unfold be_to_Z at 1. rewrite fold_left_app. rewrite be_fold_acc. reflexivity.
Qed.

Lemma be_to_Z_cons (x : byte) (s : bytes) :
  be_to_Z (x :: s) = byte_to_Z x * 256 ^ len s + be_to_Z s.
Proof. change (x :: s) with ([x] ++ s). rewrite be_to_Z_app. reflexivity. Qed.

Lemma be_to_Z_range (s : bytes) : 0 <= be_to_Z s < 256 ^ len s.
Proof.
  induction s as [|x s IH].
  - unfold be_to_Z, len; simpl. lia.
  - rewrite be_to_Z_cons.
    rewrite len_cons.
    rewrite Z.pow_add_r by (try apply len_nonneg; lia).
    pose proof (byte_to_Z_range x). nia.
Qed.

Lemma length_be_of_Z (l : nat) (n : Z) : List.length (be_of_Z l n) = l.
Proof.
  revert n. induction l as [|l IH]; intros n; simpl; [reflexivity|].
  rewrite length_app, IH. simpl. lia.
Qed.

Lemma len_be_of_Z (l : nat) (n : Z) : len (be_of_Z l n) = Z.of_nat l.
Proof. unfold len. rewrite length_be_of_Z. reflexivity. Qed.

Lemma be_to_of_Z (l : nat) (n : Z) :
  0 <= n < 256 ^ Z.of_nat l -> be_to_Z (be_of_Z l n) = n.
Proof.
  revert n. induction l as [|l IH]; intros n R.
  - simpl in *. unfold be_to_Z; simpl. lia.
  - simpl be_of_Z. rewrite be_to_Z_app.
    rewrite Nat2Z.inj_succ, Z.pow_succ_r in R by lia.
    rewrite IH by zdiv.
    destruct (byte_of_Z_in_range (n mod 256)) as [b Hb]; [zdiv|].
    rewrite Hb. change (len [b]) with 1.
    unfold be_to_Z; simpl fold_left. rewrite (byte_of_Z_Some _ _ Hb). zdiv.
Qed.

Lemma be_of_to_Z (s : bytes) : be_of_Z (List.length s) (be_to_Z s) = s.
Proof.
  induction s as [|x s IH] using rev_ind; [reflexivity|].
  rewrite length_app, Nat.add_comm. cbn [List.length Nat.add]. simpl be_of_Z.
  rewrite be_to_Z_app. change (len [x]) with 1.
  replace (be_to_Z [x]) with (byte_to_Z x) by (unfold be_to_Z; simpl; lia).
  pose proof (byte_to_Z_range x) as R.
  replace ((be_to_Z s * 256 ^ 1 + byte_to_Z x) / 256) with (be_to_Z s) by zdiv.
  replace ((be_to_Z s * 256 ^ 1 + byte_to_Z x) mod 256) with (byte_to_Z x) by zdiv.
  rewrite IH, byte_of_to_Z. reflexivity.
Qed.

(** ** [number_to_string] and [string_to_number] *)

Lemma hex_len_pos (n : Z) : 1 <= hex_len n.
Proof.
  unfold hex_len. destruct (n <=? 0); [lia|].
  pose proof (Z.log2_nonneg n). zdiv.
Qed.

Lemma hex_len_bound (n : Z) : 0 <= n -> n < 16 ^ hex_len n.
Proof.
  intros Hn. unfold hex_len. destruct (n <=? 0) eqn:E.
  - apply Z.leb_le in E. lia.
  - apply Z.leb_gt in E. pose proof (Z.log2_spec n E) as [_ Hlt].
    pose proof (Z.log2_nonneg n) as Hl.
    change 16 with (2 ^ 4). rewrite <- Z.pow_mul_r by zdiv.
    eapply Z.lt_le_trans; [exact Hlt|].
    apply Z.pow_le_mono_r; zdiv.
Qed.


Lemma orderlen_pos (order : Z) : 1 <= orderlen order.
Proof. unfold orderlen. pose proof (hex_len_pos order). zdiv. Qed.


Lemma number_to_string_inv (num order : Z) (s : bytes) :
  number_to_string num order = Ok s ->
  s = be_of_Z (Z.to_nat (orderlen order)) num /\ 0 <= num < 256 ^ orderlen order.
Proof.
  unfold number_to_string.
  destruct (num <? 0) eqn:E; [discriminate|]. apply Z.ltb_ge in E.
  destruct (hex_len num <=? 2 * orderlen order) eqn:F.
  - intros H; injection H as <-. split; [reflexivity|]. split; [exact E|].
    apply Z.leb_le in F. pose proof (hex_len_bound num E) as B.
    pose proof (orderlen_pos order).
    change 256 with (16 ^ 2). rewrite <- Z.pow_mul_r by lia.
    eapply Z.lt_le_trans; [exact B|]. apply Z.pow_le_mono_r; lia.
  - destruct (Z.odd (hex_len num)); discriminate.
Qed.

Lemma string_to_number_be_of_Z (l : nat) (n : Z) :
  (0 < l)%nat -> 0 <= n < 256 ^ Z.of_nat l ->
  string_to_number (be_of_Z l n) = Ok n.
Proof.
  intros Hl R. unfold string_to_number.
  destruct (be_of_Z l n) as [|x s] eqn:E.
  - apply (f_equal (@List.length byte)) in E. rewrite length_be_of_Z in E. simpl in E. lia.
  - rewrite <- E, be_to_of_Z by exact R. reflexivity.
Qed.

Lemma string_to_number_Ok (s : bytes) (n : Z) :
  string_to_number s = Ok n -> n = be_to_Z s /\ s <> [].
Proof.
  unfold string_to_number. destruct s; [discriminate|].
  intros H; injection H as <-. split; [reflexivity | discriminate].
Qed.

(** ** Slices of concatenations *)

Lemma slice_app_left {A : Type} (a b : list A) :
  slice (a ++ b) None (Some (len a)) = a.
Proof.
  unfold slice, slice_index.
  pose proof (len_nonneg a). pose proof (len_nonneg b).
  destruct (len a <? 0) eqn:E; [apply Z.ltb_lt in E; lia|].
  rewrite len_app, Z.min_r by lia. unfold len. rewrite Nat2Z.id, Nat.sub_0_r.
  simpl skipn. rewrite firstn_app, Nat.sub_diag, firstn_all. simpl. apply app_nil_r.
Qed.

Lemma slice_app_right {A : Type} (a b : list A) :
  slice (a ++ b) (Some (len a)) None = b.
Proof.
  unfold slice, slice_index.
  pose proof (len_nonneg a). pose proof (len_nonneg b).
  destruct (len a <? 0) eqn:E; [apply Z.ltb_lt in E; lia|].
  rewrite len_app, Z.min_r by lia. unfold len. rewrite Nat2Z.id.
  rewrite skipn_app, skipn_all, Nat.sub_diag. simpl skipn. simpl app.
  rewrite length_app. replace (List.length a + List.length b - List.length a)%nat with (List.length b) by lia.
  apply firstn_all.
Qed.

Lemma slice_app_left_at {A : Type} (a b : list A) (n : Z) :
  len a = n -> slice (a ++ b) None (Some n) = a.
Proof. intros <-. apply slice_app_left. Qed.

Lemma slice_app_right_at {A : Type} (a b : list A) (n : Z) :
  len a = n -> slice (a ++ b) (Some n) None = b.
Proof. intros <-. apply slice_app_right. Qed.

Lemma slice_between {A : Type} (l : list A) (a b : Z) :
  0 <= a <= b -> b <= len l ->
  slice l (Some a) (Some b) = firstn (Z.to_nat b - Z.to_nat a) (skipn (Z.to_nat a) l).
Proof.
  intros R1 R2. unfold slice, slice_index.
  destruct (a <? 0) eqn:Ea; [apply Z.ltb_lt in Ea; lia|].
  destruct (b <? 0) eqn:Eb; [apply Z.ltb_lt in Eb; lia|].
  rewrite !Z.min_r by lia. reflexivity.
Qed.

Lemma slice_mid_at {A : Type} (a b c : list A) (lo hi : Z) :
  len a = lo -> len b = hi - lo ->
  slice (a ++ b ++ c) (Some lo) (Some hi) = b.
Proof.
  intros Ha Hb. pose proof (len_nonneg a). pose proof (len_nonneg b).
  pose proof (len_nonneg c).
  rewrite slice_between by (rewrite ?len_app; lia).
  replace (Z.to_nat lo) with (List.length a) by (unfold len in Ha; lia).
  replace (Z.to_nat hi - List.length a)%nat with (List.length b)
    by (unfold len in Ha, Hb; lia).
  rewrite skipn_app, skipn_all, Nat.sub_diag. cbn [skipn app].
  rewrite firstn_app, Nat.sub_diag, firstn_all. cbn [firstn]. apply app_nil_r.
Qed.

Lemma slice_from_at {A : Type} (a b : list A) (lo : Z) :
  len a = lo -> slice (a ++ b) (Some lo) None = b.
Proof. apply slice_app_right_at. Qed.

Lemma slice_upto_at {A : Type} (a b : list A) (hi : Z) :
  len a = hi -> slice (a ++ b) (Some 0) (Some hi) = a.
Proof.
  intros Ha. apply (slice_mid_at [] a b 0 hi); [reflexivity | lia].
Qed.

Lemma slice_drop_last {A : Type} (a b : list A) (k : Z) :
  len b = k -> 0 < k -> slice (a ++ b) (Some 0) (Some (- k)) = a.
Proof.
  intros Hb Hk. pose proof (len_nonneg a). unfold slice, slice_index.
  cbn [Z.ltb Z.compare]. rewrite len_app.
  destruct (- k <? 0) eqn:E; [|apply Z.ltb_ge in E; lia].
  rewrite Z.min_r, Z.max_r by lia.
  replace (Z.to_nat (len a + len b + - k) - Z.to_nat 0)%nat with (List.length a)
    by (unfold len in *; lia).
  cbn [Z.to_nat skipn]. rewrite firstn_app, Nat.sub_diag, firstn_all.
  cbn [firstn]. apply app_nil_r.
Qed.

Lemma slice_take_last {A : Type} (a b : list A) (k : Z) :
  len b = k -> 0 < k -> slice (a ++ b) (Some (- k)) None = b.
Proof.
  intros Hb Hk. pose proof (len_nonneg a). unfold slice, slice_index.
  destruct (- k <? 0) eqn:E; [|apply Z.ltb_ge in E; lia].
  rewrite len_app, Z.max_r by lia.
  replace (Z.to_nat (len a + len b + - k)) with (List.length a)
    by (unfold len in *; lia).
  rewrite skipn_app, skipn_all, Nat.sub_diag. cbn [skipn app].
  rewrite length_app.
  replace (List.length a + List.length b - List.length a)%nat with (List.length b) by lia.
  apply firstn_all.
Qed.

Lemma len_slice {A : Type} (l : list A) (a b : Z) :
  0 <= a <= b -> b <= len l -> len (slice l (Some a) (Some b)) = b - a.
Proof.
  intros R1 R2. rewrite slice_between by assumption.
  unfold len in *. rewrite length_firstn, length_skipn. lia.
Qed.

Lemma len_slice_from {A : Type} (l : list A) (a : Z) :
  0 <= a <= len l -> len (slice l (Some a) None) = len l - a.
Proof.
  intros R. unfold slice, slice_index.
  destruct (a <? 0) eqn:Ea; [apply Z.ltb_lt in Ea; lia|].
  rewrite Z.min_r by lia.
  unfold len in *. rewrite length_firstn, length_skipn. lia.
Qed.

Lemma getitem_at {A : Type} (a : list A) (x : A) (b : list A) (i : Z) :
  len a = i -> getitem (a ++ x :: b) i = Ok x.
Proof.
  intros Ha. pose proof (len_nonneg a). unfold getitem.
  destruct (i <? 0) eqn:E; [apply Z.ltb_lt in E; lia|].
  replace (Z.to_nat i) with (List.length a) by (unfold len in Ha; lia).
  rewrite nth_error_app2, Nat.sub_diag by lia. reflexivity.
Qed.

(** ** C7: signatures are canonical *)

Lemma sigdecode_sigencode (r s order : Z) (sig : bytes) :
  sigencode_string r s order = Ok sig ->
  sigdecode_string sig order = Ok (r, s).
Proof.
  unfold sigencode_string. intros H.
  inv_bind H. inv_bind H. injection H as <-.
  apply number_to_string_inv in E as [-> Rr]. apply number_to_string_inv in E0 as [-> Rs].
  pose proof (orderlen_pos order) as Hl.
  set (l := Z.to_nat (orderlen order)) in *.
  assert (Hlen : forall n, len (be_of_Z l n) = orderlen order).
  { intros n. rewrite len_be_of_Z. unfold l. lia. }
  unfold sigdecode_string, string_to_number_fixedlen.
  rewrite len_app, !Hlen.
  replace (orderlen order + orderlen order =? 2 * orderlen order) with true
    by (symmetry; apply Z.eqb_eq; lia).
  cbn [py_assert bind].
  rewrite (slice_app_left_at _ _ _ (Hlen r)), (slice_app_right_at _ _ _ (Hlen r)).
  rewrite !Hlen, Z.eqb_refl. cbn [py_assert bind].
  rewrite !string_to_number_be_of_Z by (unfold l; try lia; rewrite Z2Nat.id; lia).
  reflexivity.
Qed.

Lemma sign_number_low_s (L : Library) (self : SigningKey) (number k r s : Z) :
  sign_number self number k = Ok (r, s) -> s <= generator_order / 2.
Proof.
  unfold sign_number. intros H. inv_bind H. destruct v as [r0 s0].
  injection H as _ <-.
  destruct (s0 >? generator_order / 2) eqn:G.
  - apply Z.gtb_lt in G. zdiv.
  - rewrite Z.gtb_ltb in G. apply Z.ltb_ge in G. exact G.
Qed.

(** C7: every signature that [EC_KEY.sign] returns decodes to a pair
    [(r, s)] with [s <= order / 2]. *)
Theorem sign_low_s :
  forall (L : Library) (self : EC_KEY) (msg_hash sig : bytes),
    sign self msg_hash = Ok sig ->
    exists r s, sigdecode_string sig generator_order = Ok (r, s)
                /\ s <= generator_order / 2.
Proof.
  intros L self msg_hash sig H. unfold sign in H.
  inv_bind H. inv_bind H. inv_bind H. inv_bind H. injection H as <-.
  unfold sign_digest_deterministic in E0.
  destruct (baselen <? len msg_hash); [discriminate|].
  inv_bind E0. inv_bind E0. destruct v4 as [r s].
  exists r, s. split.
  - apply sigdecode_sigencode. exact E0.
  - eapply sign_number_low_s. exact E4.
Qed.

Lemma sign_low_s_witness :
  exists r s,
    sigdecode_string (be_of_Z 32 77 ++ be_of_Z 32 1) (generator_order (Library := Model.lib))
      = Ok (r, s)
    /\ s <= generator_order (Library := Model.lib) / 2.
Proof.
  apply (sign_low_s Model.lib
           (mkEC_KEY (mkPublic_key (Pt 2 1)) (mkPrivate_key (mkPublic_key (Pt 2 1)) 5) 5)
           (be_of_Z 32 77)).
  vm_compute. reflexivity.
Defined.

(** ** Hexadecimal text *)

Lemma bind_ret {A : Type} (m : result A) : bind m (fun a => Ok a) = m.
Proof. destruct m; reflexivity. Qed.

Lemma string_app_assoc (a b c : string) : ((a ++ b) ++ c = a ++ (b ++ c))%string.
Proof. induction a as [|x a IH]; simpl; [reflexivity | rewrite IH; reflexivity]. Qed.

Lemma string_app_nil_r (a : string) : (a ++ "")%string = a.
Proof. induction a as [|x a IH]; simpl; [reflexivity | rewrite IH; reflexivity]. Qed.

Lemma string_length_app (a b : string) :
  String.length (a ++ b) = (String.length a + String.length b)%nat.
Proof. induction a as [|x a IH]; simpl; [reflexivity | rewrite IH; reflexivity]. Qed.

Lemma hex_digit_value (d : Z) :
  0 <= d < 16 -> ascii_to_digit (hex_digit d) = Some (Z.to_N d).
Proof.
  intros R.
  assert (H : In d [0; 1; 2; 3; 4; 5; 6; 7; 8; 9; 10; 11; 12; 13; 14; 15])
    by (simpl; lia).
  simpl in H.
  repeat (destruct H as [<-|H]; [reflexivity|]). contradiction.
Qed.

Lemma digit_not_space (c : ascii) (d : N) :
  ascii_to_digit c = Some d -> is_space c = false.
Proof.
  destruct c as [[] [] [] [] [] [] [] []]; intros H; try reflexivity; discriminate.
Qed.

(** One byte of [bfh]: two digits with no whitespace before them. *)
Lemma bfh_digits (hi lo : ascii) (rest : string) (h l : N) :
  ascii_to_digit hi = Some h -> ascii_to_digit lo = Some l ->
  bfh (String hi (String lo rest))
  = match byte_of_Z (Z.of_N h * 16 + Z.of_N l) with
    | Some b => tl <- bfh rest ;; Ok (b :: tl)
    | None => Err ValueError
    end.
Proof.
  intros Hh Hl. cbn [bfh]. rewrite (digit_not_space hi h Hh), Hh, Hl. reflexivity.
Qed.

Lemma bfh_app (s t : string) (a : bytes) :
  bfh s = Ok a -> bfh (s ++ t) = (tl <- bfh t ;; Ok (a ++ tl)).
Proof.
  assert (H : (forall a, bfh s = Ok a -> bfh (s ++ t) = (tl <- bfh t ;; Ok (a ++ tl)))
              /\ forall c a, bfh (String c s) = Ok a ->
                             bfh (String c s ++ t) = (tl <- bfh t ;; Ok (a ++ tl))).
  { induction s as [|x s [IHs IHc]].
    - split.
      + intros a0 H. injection H as <-. simpl. symmetry. apply bind_ret.
      + intros c a0 H. cbn [bfh append] in H |- *.
        destruct (is_space c); [|discriminate].
        injection H as <-. symmetry. apply bind_ret.
    - split; [apply IHc|]. intros c a0 H. cbn [bfh append] in H |- *.
      destruct (is_space c); [apply IHc; exact H|].
      destruct (ascii_to_digit c); [|discriminate].
      destruct (ascii_to_digit x); [|discriminate].
      destruct (byte_of_Z _); [|discriminate].
      inv_bind H. injection H as <-.
      rewrite (IHs _ E). destruct (bfh t); reflexivity. }
  apply H.
Qed.

Lemma bfh_two_digits (n : Z) :
  bfh (String (hex_digit (n / 16 mod 16)) (String (hex_digit (n mod 16)) ""))
  = Ok [match byte_of_Z (n mod 256) with Some b => b | None => x00 end].
Proof.
  assert (R1 : 0 <= n / 16 mod 16 < 16) by zdiv.
  assert (R2 : 0 <= n mod 16 < 16) by zdiv.
  rewrite (bfh_digits _ _ _ _ _ (hex_digit_value _ R1) (hex_digit_value _ R2)).
  rewrite !Z2N.id by zdiv.
  replace (n / 16 mod 16 * 16 + n mod 16) with (n mod 256) by zdiv.
  destruct (byte_of_Z_in_range (n mod 256)) as [b ->]; [zdiv|]. reflexivity.
Qed.

Lemma bfh_hexw (l : nat) (n : Z) : bfh (hexw (2 * l) n) = Ok (be_of_Z l n).
Proof.
  revert n. induction l as [|l IH]; intros n; [reflexivity|].
  replace (2 * S l)%nat with (S (S (2 * l))) by lia.
  cbn [hexw be_of_Z]. rewrite string_app_assoc. cbn [append].
  replace (n / 16 / 16) with (n / 256) by zdiv.
  rewrite (bfh_app _ _ _ (IH (n / 256))), bfh_two_digits. reflexivity.
Qed.

Lemma zeros_snoc (w : nat) : (zeros w ++ "0")%string = zeros (S w).
Proof.
  induction w as [|w IH]; [reflexivity|].
  cbn [zeros append] in *. rewrite IH. reflexivity.
Qed.

Lemma hexw_zero (w : nat) : hexw w 0 = zeros w.
Proof.
  induction w as [|w IH]; [reflexivity|].
  cbn [hexw]. change (0 / 16) with 0. rewrite IH. change (0 mod 16) with 0.
  apply zeros_snoc.
Qed.

Lemma hexw_small (w : nat) (d : Z) :
  0 <= d < 16 -> hexw (S w) d = (zeros w ++ String (hex_digit d) "")%string.
Proof.
  intros R. cbn [hexw].
  replace (d / 16) with 0 by zdiv. replace (d mod 16) with d by zdiv.
  rewrite hexw_zero. reflexivity.
Qed.

(** The digits that [HexString] writes, four bits at a time. *)
Lemma of_pos_rest (p : positive) (rest : string) :
  Raw.of_pos p rest = (Raw.of_pos p "" ++ rest)%string.
Proof.
  revert p rest. fix IH 1. intros p rest.
  do 4 try destruct p as [p|p|]; try reflexivity;
    cbn [Raw.of_pos];
    rewrite (IH p (String _ rest)), (IH p (String _ ""));
    rewrite string_app_assoc; reflexivity.
Qed.

Lemma of_pos_hexw (p : positive) (w : nat) :
  Z.pos p < 16 ^ Z.of_nat w ->
  (zeros (w - String.length (Raw.of_pos p "")) ++ Raw.of_pos p "")%string
  = hexw w (Z.pos p).
Proof.
  revert p w. fix IH 1. intros p w Hlt.
  destruct w as [|w]; [simpl in Hlt; lia|].
  rewrite Nat2Z.inj_succ, Z.pow_succ_r in Hlt by lia.
  do 4 try destruct p as [p|p|];
    try (rewrite hexw_small by lia; cbn [Raw.of_pos String.length];
         rewrite Nat.sub_succ, Nat.sub_0_r; reflexivity);
    cbn [Raw.of_pos hexw];
    rewrite of_pos_rest, string_length_app; cbn [String.length];
    replace (S w - (String.length (Raw.of_pos p "") + 1))%nat
      with (w - String.length (Raw.of_pos p ""))%nat by lia;
    rewrite <- string_app_assoc, (IH p w) by lia;
    match goal with
    | |- (hexw w ?a ++ _ = hexw w ?b ++ _)%string =>
        replace b with a by zdiv
    end;
    match goal with
    | |- (_ ++ String ?c _ = _ ++ String (hex_digit ?m) _)%string =>
        replace m with (Z.of_N (match ascii_to_digit c with Some v => v | None => 0%N end))
          by (cbn; zdiv)
    end;
    reflexivity.
Qed.

Lemma fmt_0x_hexw (w : nat) (n : Z) :
  (0 < w)%nat -> 0 <= n < 16 ^ Z.of_nat w -> fmt_0x w n = hexw w n.
Proof.
  intros Hw R. unfold fmt_0x.
  destruct (n <? 0) eqn:E; [apply Z.ltb_lt in E; lia|].
  destruct n as [|p|p]; [|apply of_pos_hexw; lia | lia].
  rewrite hexw_zero. cbn [hex_digits String.length].
  destruct w as [|w]; [lia|]. rewrite Nat.sub_succ, Nat.sub_0_r.
  apply zeros_snoc.
Qed.

Lemma bfh_fmt_0x (l : nat) (n : Z) :
  (0 < l)%nat -> 0 <= n < 256 ^ Z.of_nat l ->
  bfh (fmt_0x (2 * l) n) = Ok (be_of_Z l n).
Proof.
  intros Hl R. rewrite fmt_0x_hexw.
  - apply bfh_hexw.
  - lia.
  - rewrite Nat2Z.inj_mul, Z.pow_mul_r by lia. exact R.
Qed.

Lemma bfh_bh2u (b : bytes) : bfh (bh2u b) = Ok b.
Proof.
  induction b as [|x b IH]; [reflexivity|].
  cbn [bh2u fold_right]. fold (bh2u b). unfold hex_of_byte. cbn [append].
  pose proof (byte_to_Z_range x) as R.
  assert (R1 : 0 <= byte_to_Z x / 16 < 16) by zdiv.
  assert (R2 : 0 <= byte_to_Z x mod 16 < 16) by zdiv.
  rewrite (bfh_digits _ _ _ _ _ (hex_digit_value _ R1) (hex_digit_value _ R2)).
  rewrite !Z2N.id by zdiv.
  replace (byte_to_Z x / 16 * 16 + byte_to_Z x mod 16) with (byte_to_Z x) by zdiv.
  rewrite byte_of_to_Z, IH. reflexivity.
Qed.

Lemma substring_all (s : string) : String.substring 0 (String.length s) s = s.
Proof. induction s as [|c s IH]; simpl; [reflexivity | rewrite IH; reflexivity]. Qed.

Lemma str_from_2 (a b : ascii) (t : string) : str_from 2 (String a (String b t)) = t.
Proof.
  unfold str_from. cbn [String.length Nat.sub String.substring].
  rewrite Nat.sub_0_r. apply substring_all.
Qed.

Lemma hex_digit_not_L (d : Z) : Ascii.eqb (hex_digit d) "L" = false.
Proof.
  unfold hex_digit.
  repeat match goal with
         | |- context [match ?x with _ => _ end] => destruct x
         end; reflexivity.
Qed.

Lemma no_L_hexw (w : nat) (n : Z) : no_L (hexw w n).
Proof.
  revert n. induction w as [|w IH]; intros n c Hc; [contradiction|].
  cbn [hexw] in Hc.
  rewrite <- (string_of_list_ascii_of_string (hexw w (n / 16))) in Hc.
  change (String (hex_digit (n mod 16)) "")
    with (string_of_list_ascii [hex_digit (n mod 16)]) in Hc.
  assert (E : forall a b, (string_of_list_ascii a ++ string_of_list_ascii b)%string
                          = string_of_list_ascii (a ++ b)).
  { intros a b. induction a as [|x a IHa]; simpl; [reflexivity | rewrite IHa; reflexivity]. }
  rewrite E, list_ascii_of_string_of_list_ascii in Hc.
  apply in_app_or in Hc as [Hc|[<-|[]]].
  - exact (IH _ _ Hc).
  - apply hex_digit_not_L.
Qed.

Lemma no_L_suffix (a b : string) : no_L (a ++ b) -> no_L b.
Proof.
  intros H c Hc. apply H. clear H.
  induction a as [|x a IH]; simpl; [exact Hc | right; exact IH].
Qed.

Lemma rstrip_L_id (s : string) : no_L s -> rstrip_L s = s.
Proof.
  induction s as [|c s IH]; intros H; [reflexivity|].
  cbn [rstrip_L]. rewrite IH by (intros x Hx; apply H; right; exact Hx).
  destruct s; [|reflexivity].
  rewrite (H c) by (left; reflexivity). reflexivity.
Qed.

Lemma hex_digits_no_L (n : Z) : 0 <= n -> no_L (hex_digits n).
Proof.
  intros Hn. destruct n as [|p|p]; [ | | lia ].
  - intros c [<-|[]]. reflexivity.
  - pose proof (hex_len_bound (Z.pos p) ltac:(lia)) as B.
    pose proof (hex_len_pos (Z.pos p)) as Hp.
    rewrite <- (Z2Nat.id (hex_len (Z.pos p))) in B by lia.
    apply of_pos_hexw in B. cbn [hex_digits].
    eapply no_L_suffix. rewrite B. apply no_L_hexw.
Qed.

Lemma hex_from_2 (n : Z) : 0 <= n -> str_from 2 (hex n) = hex_digits n.
Proof.
  intros Hn. destruct n as [|p|p]; [reflexivity | | lia].
  unfold hex, of_Z, of_pos. apply str_from_2.
Qed.

(** The index bytes of the child derivations: four bytes, big-endian. *)
Lemma index_bytes (n : Z) :
  0 <= n < 2 ^ 32 ->
  (h <- int_to_hex n 4 ;; h <- rev_hex h ;; bfh h) = Ok (be_of_Z 4 n).
Proof.
  intros R. unfold int_to_hex.
  rewrite hex_from_2, rstrip_L_id by (try apply hex_digits_no_L; lia).
  replace (Z.to_nat (2 * 4 - Z.of_nat (String.length (hex_digits n))))
    with (8 - String.length (hex_digits n))%nat by lia.
  assert (F : (zeros (8 - String.length (hex_digits n)) ++ hex_digits n)%string
              = fmt_0x (2 * 4) n).
  { unfold fmt_0x. destruct (n <? 0) eqn:E; [apply Z.ltb_lt in E; lia | reflexivity]. }
  rewrite F. unfold rev_hex.
  rewrite bfh_fmt_0x by (try lia; change (256 ^ Z.of_nat 4) with (2 ^ 32); lia).
  cbn [bind]. rewrite bfh_bh2u. cbn [bind]. rewrite rev_involutive. apply bfh_bh2u.
Qed.

(** ** C8: hardened indices in public derivation *)

Lemma land_bit (n k : Z) :
  0 <= k -> Z.land n (2 ^ k) = if Z.testbit n k then 2 ^ k else 0.
Proof.
  intros Hk. apply Z.bits_inj'. intros m Hm.
  rewrite Z.land_spec, Z.pow2_bits_eqb by exact Hk.
  destruct (Z.eqb_spec k m) as [->|Hne].
  - destruct (Z.testbit n m) eqn:E.
    + rewrite Z.pow2_bits_true by exact Hm. reflexivity.
    + rewrite Z.bits_0. reflexivity.
  - rewrite andb_false_r. destruct (Z.testbit n k).
    + rewrite Z.pow2_bits_false by exact Hne. reflexivity.
    + rewrite Z.bits_0. reflexivity.
Qed.

Lemma land_BIP32_PRIME (n : Z) :
  0 <= n < 2 ^ 32 ->
  Z.land n BIP32_PRIME = if 2 ^ 31 <=? n then BIP32_PRIME else 0.
Proof.
  intros R. change BIP32_PRIME with (2 ^ 31). rewrite land_bit by lia.
  rewrite Z.testbit_odd, Z.shiftr_div_pow2 by lia.
  destruct (2 ^ 31 <=? n) eqn:E.
  - apply Z.leb_le in E. replace (n / 2 ^ 31) with 1 by zdiv. reflexivity.
  - apply Z.leb_gt in E. replace (n / 2 ^ 31) with 0 by zdiv. reflexivity.
Qed.

Lemma CKD_pub_below (L : Library) (cK c : bytes) (n : Z) :
  0 <= n < 2 ^ 31 -> CKD_pub cK c n = _CKD_pub cK c (be_of_Z 4 n).
Proof.
  intros R. unfold CKD_pub. rewrite land_BIP32_PRIME by lia.
  replace (2 ^ 31 <=? n) with false by (symmetry; apply Z.leb_gt; lia).
  cbn [Z.eqb negb].
  pose proof (index_bytes n ltac:(lia)) as I.
  destruct (int_to_hex n 4) as [h|e]; [|discriminate]. cbn [bind] in *.
  destruct (rev_hex h) as [h'|e]; [|discriminate]. cbn [bind] in *.
  rewrite I. reflexivity.
Qed.

Lemma CKD_priv_index (L : Library) (k c : bytes) (n : Z) :
  0 <= n < 2 ^ 32 ->
  CKD_priv k c n
  = _CKD_priv k c (be_of_Z 4 n) (if 2 ^ 31 <=? n then BIP32_PRIME else 0).
Proof.
  intros R. unfold CKD_priv. rewrite land_BIP32_PRIME by exact R.
  pose proof (index_bytes n R) as I.
  destruct (int_to_hex n 4) as [h|e]; [|discriminate]. cbn [bind] in *.
  destruct (rev_hex h) as [h'|e]; [|discriminate]. cbn [bind] in *.
  rewrite I. reflexivity.
Qed.

(** C8: for a 32-bit index with the high bit set [CKD_pub] raises and
    returns no key; below [2^31] the guard lets the index through and the
    result is that of [_CKD_pub] on the four index bytes. *)
Theorem CKD_pub_hardened :
  forall (L : Library) (cK c : bytes) (n : Z),
    0 <= n < 2 ^ 32 ->
    (2 ^ 31 <= n -> CKD_pub cK c n = Err RuntimeError) /\
    (n < 2 ^ 31 -> CKD_pub cK c n = _CKD_pub cK c (be_of_Z 4 n)).
Proof.
  intros L cK c n R. split.
  - intros H. unfold CKD_pub. rewrite land_BIP32_PRIME by exact R.
    apply Z.leb_le in H. rewrite H. reflexivity.
  - intros H. apply CKD_pub_below. lia.
Qed.

Lemma CKD_pub_hardened_witness :
  CKD_pub (L := Model.lib) (x02 :: be_of_Z 32 2) (be_of_Z 32 7) (2 ^ 31 + 7)
  = Err RuntimeError /\
  CKD_pub (L := Model.lib) (x02 :: be_of_Z 32 2) (be_of_Z 32 7) 7
  = _CKD_pub (L := Model.lib) (x02 :: be_of_Z 32 2) (be_of_Z 32 7) (be_of_Z 4 7).
Proof.
  split.
  - apply (CKD_pub_hardened Model.lib _ _ (2 ^ 31 + 7)); lia.
  - apply (CKD_pub_hardened Model.lib _ _ 7); lia.
Defined.

(** ** C5: private child derivation *)




(** ** C9: derivation along the empty path *)

Lemma str_from_length (s : string) : str_from (String.length s) s = "".
Proof.
  unfold str_from. rewrite Nat.sub_diag.
  induction s as [|c s IH]; [reflexivity | exact IH].
Qed.

Lemma prefix_refl (s : string) : String.prefix s s = true.
Proof. induction s as [|c s IH]; simpl; [reflexivity|]. rewrite IH. destruct (ascii_dec c c); congruence. Qed.

(** C9 (code defect): when the path is empty ([branch == sequence]) private
    derivation returns the key pair of the node itself, by its explicit
    guard, while public derivation has no such guard: its loop runs no turn
    and the function raises on the unbound parent key.  It never returns. *)
Theorem public_derivation_empty_path :
  forall (L : Library) (net : Network) (xprv xpub branch : string),
    xpub_from_xprv net (PyStr xprv) = Ok xpub ->
    bip32_private_derivation net xprv branch branch = Ok (xprv, xpub)
    /\ exists e, bip32_public_derivation net xpub branch branch = Err e.
Proof.
  intros L net xprv xpub branch Hxpub. split.
  - unfold bip32_private_derivation.
    rewrite prefix_refl, String.eqb_refl, Hxpub. reflexivity.
  - unfold bip32_public_derivation.
    destruct (deserialize_xpub net (PyStr xpub)) as [[[[[[xtype depth] fp] cn] c] cK]|e];
      [|eexists; reflexivity].
    cbn [bind]. rewrite prefix_refl, str_from_length. cbn.
    eexists; reflexivity.
Qed.

Lemma public_derivation_empty_path_witness :
  bip32_private_derivation (L := Model.lib) mainnet
    "xprv9s21ZrQH143K24Mfq5zL5MhWK9hUhhGbd45hLXo2Pq2oqzMMo63oSta1HCTYDUEDhtYoKn8cnZyBdE286NdsqHV6M9aiWyqTMjdpCxFBLnK"
    "m/" "m/"
  = Ok ("xprv9s21ZrQH143K24Mfq5zL5MhWK9hUhhGbd45hLXo2Pq2oqzMMo63oSta1HCTYDUEDhtYoKn8cnZyBdE286NdsqHV6M9aiWyqTMjdpCxFBLnK",
        "xpub661MyMwAqRbcEYS8w7XLSVeEsBXy79zSzH1J8vCdxAZningWLdN3zgtV8VS3qLiufu2UdgzfB4ae6dNEjNyaYFbtE57R6kiCGZYDSYC5E6T")
  /\ exists e,
      bip32_public_derivation (L := Model.lib) mainnet
        "xpub661MyMwAqRbcEYS8w7XLSVeEsBXy79zSzH1J8vCdxAZningWLdN3zgtV8VS3qLiufu2UdgzfB4ae6dNEjNyaYFbtE57R6kiCGZYDSYC5E6T"
        "m/" "m/" = Err e.
Proof.
  apply (public_derivation_empty_path Model.lib). vm_compute. reflexivity.
Defined.

(** ** The codec on buffers with a non-zero byte

    The defect of C6 is confined to buffers whose value is zero: on every
    other buffer decoding inverts encoding.  The proof follows the two
    loops through their digit lists. *)

Lemma le_value_digits (fuel : nat) (base n : Z) :
  le_value base (le_digits fuel base n) = n.
Proof.
  revert n. induction fuel as [|fuel IH]; intros n; simpl.
  - lia.
  - destruct (n >=? base); simpl; [rewrite IH; zdiv | lia].
Qed.

Lemma le_digits_nonempty (fuel : nat) (base n : Z) : le_digits fuel base n <> [].
Proof. destruct fuel; simpl; [|destruct (n >=? base)]; discriminate. Qed.

Lemma le_digits_last (fuel : nat) (base n : Z) :
  2 <= base -> 0 < n -> 0 < last (le_digits fuel base n) 0.
Proof.
  intros Hb. revert n. induction fuel as [|fuel IH]; intros n Hn; [exact Hn|].
  cbn [le_digits]. destruct (n >=? base) eqn:E; [|exact Hn].
  apply Z.geb_le in E.
  pose proof (le_digits_nonempty fuel base (n / base)) as Hne.
  destruct (le_digits fuel base (n / base)) as [|d ds] eqn:F; [contradiction|].
  change (last (n mod base :: d :: ds) 0) with (last (d :: ds) 0).
  rewrite <- F. apply IH. zdiv.
Qed.

Lemma log2_div (base n : Z) :
  2 <= base -> base <= n -> Z.log2 (n / base) < Z.log2 n.
Proof.
  intros Hb Hn.
  assert (0 < n / base) by zdiv.
  apply Z.log2_lt_pow2; [assumption|].
  pose proof (Z.log2_spec n ltac:(lia)) as [_ Hlt].
  pose proof (Z.log2_nonneg n).
  rewrite Z.pow_succ_r in Hlt by assumption.
  assert (n / base <= n / 2) by (apply Z.div_le_compat_l; lia).
  zdiv.
Qed.

Lemma le_digits_range (fuel : nat) (base n : Z) :
  2 <= base -> 0 <= n -> Z.log2 n < Z.of_nat fuel ->
  Forall (fun d => 0 <= d < base) (le_digits fuel base n).
Proof.
  intros Hb. revert n. induction fuel as [|fuel IH]; intros n Hn Hf.
  - pose proof (Z.log2_nonneg n). lia.
  - cbn [le_digits]. destruct (n >=? base) eqn:E.
    + apply Z.geb_le in E. constructor; [zdiv|].
      apply IH; [zdiv|]. pose proof (log2_div base n Hb E). lia.
    + rewrite Z.geb_leb in E. apply Z.leb_gt in E. constructor; [lia | constructor].
Qed.

Lemma loop_bound_enough (n : Z) : Z.log2 n < Z.of_nat (loop_bound n).
Proof. unfold loop_bound. pose proof (Z.log2_nonneg n). lia. Qed.

Lemma le_value_pos (base : Z) (l : list Z) :
  2 <= base -> Forall (fun d => 0 <= d < base) l -> 0 < last l 0 ->
  0 < le_value base l.
Proof.
  intros Hb. induction l as [|x l IHl]; intros Hr Hlast; [simpl in Hlast; lia|].
  inversion Hr as [|? ? Hx Hr']; subst. cbn [le_value fold_right].
  fold (le_value base l).
  destruct l as [|y l]; [simpl in *; lia|].
  specialize (IHl Hr' Hlast). nia.
Qed.

Lemma le_digits_step (fuel : nat) (base n : Z) :
  base <= n ->
  le_digits (S fuel) base n = n mod base :: le_digits fuel base (n / base).
Proof.
  intros H. cbn [le_digits].
  replace (n >=? base) with true by (symmetry; apply Z.geb_le; exact H).
  reflexivity.
Qed.

Lemma le_digits_stop (fuel : nat) (base n : Z) :
  n < base -> le_digits fuel base n = [n].
Proof.
  intros H. destruct fuel; cbn [le_digits]; [reflexivity|].
  replace (n >=? base) with false
    by (symmetry; rewrite Z.geb_leb; apply Z.leb_gt; exact H).
  reflexivity.
Qed.

Lemma le_value_cons (base d : Z) (ds : list Z) :
  le_value base (d :: ds) = d + base * le_value base ds.
Proof. reflexivity. Qed.

(** The digit list is determined by its value. *)
Lemma le_digits_unique (base : Z) (ds : list Z) :
  2 <= base ->
  ds <> [] ->
  Forall (fun d => 0 <= d < base) ds ->
  (List.length ds = 1%nat \/ 0 < last ds 0) ->
  forall fuel, (List.length ds <= S fuel)%nat ->
               le_digits fuel base (le_value base ds) = ds.
Proof.
  intros Hb. induction ds as [|d ds IH]; intros Hne Hr Hlast fuel Hf;
    [contradiction|].
  inversion Hr as [|? ? Hd Hr']; subst.
  destruct ds as [|d' ds].
  - rewrite le_value_cons. cbn [le_value fold_right].
    rewrite Z.mul_0_r, Z.add_0_r. apply le_digits_stop. lia.
  - assert (Hlast' : 0 < last (d' :: ds) 0).
    { destruct Hlast as [Hl|Hl]; [simpl in Hl; lia | exact Hl]. }
    assert (Hpos : 0 < le_value base (d' :: ds))
      by (apply le_value_pos; assumption).
    destruct fuel as [|fuel]; [simpl in Hf; lia|].
    rewrite le_value_cons, le_digits_step by nia.
    replace ((d + base * le_value base (d' :: ds)) mod base) with d
      by (apply Z.mod_unique with (q := le_value base (d' :: ds)); lia).
    replace ((d + base * le_value base (d' :: ds)) / base)
      with (le_value base (d' :: ds))
      by (apply Z.div_unique with (r := d); lia).
    f_equal. apply IH.
    + discriminate.
    + exact Hr'.
    + right. exact Hlast'.
    + simpl in Hf |- *. lia.
Qed.

Lemma divmod_loop_digits (emit : Z -> result Z) (g : Z -> byte) (base : Z)
  (fuel : nat) (n : Z) (buf : bytes) :
  (forall d, In d (le_digits fuel base n) ->
             exists x, emit d = Ok x /\ byte_of_Z x = Some (g d)) ->
  exists buf' lv,
    divmod_loop fuel emit base n buf = Ok (buf', lv)
    /\ In lv (le_digits fuel base n)
    /\ buf' ++ [g lv] = buf ++ map g (le_digits fuel base n).
Proof.
  revert n buf. induction fuel as [|fuel IH]; intros n buf Hemit.
  - exists buf, n. simpl. auto.
  - cbn [divmod_loop le_digits] in *. destruct (n >=? base).
    + destruct (Hemit (n mod base)) as (x & Hx & Hb); [left; reflexivity|].
      rewrite Hx. cbn [bind]. unfold bytearray_append. rewrite Hb. cbn [bind].
      destruct (IH (n / base) (buf ++ [g (n mod base)])) as (buf' & lv & H1 & H2 & H3).
      { intros d Hd. apply Hemit. right. exact Hd. }
      exists buf', lv. split; [exact H1|]. split; [right; exact H2|].
      rewrite H3, <- app_assoc. reflexivity.
    + exists buf, n. simpl. auto.
Qed.

Lemma fold_enumerate_from {A : Type} (term : Z -> A -> Z) (f : A -> Z) (base : Z)
  (l : list A) (k : nat) (acc : Z) :
  (forall i c, 0 <= i -> term i c = f c * base ^ i) ->
  fold_left (fun a ic => a + term (fst ic) (snd ic))
            (combine (map Z.of_nat (seq k (List.length l))) l) acc
  = acc + base ^ Z.of_nat k * le_value base (map f l).
Proof.
  intros Hterm. revert k acc. induction l as [|x l IH]; intros k acc.
  - simpl. lia.
  - cbn [List.length seq map combine fold_left fst snd].
    rewrite IH, Hterm by lia. rewrite Nat2Z.inj_succ, Z.pow_succ_r by lia.
    rewrite le_value_cons. ring.
Qed.

Lemma fold_enumerate {A : Type} (term : Z -> A -> Z) (f : A -> Z) (base : Z)
  (l : list A) :
  (forall i c, 0 <= i -> term i c = f c * base ^ i) ->
  fold_left (fun a ic => a + term (fst ic) (snd ic)) (enumerate l) 0
  = le_value base (map f l).
Proof.
  intros Hterm. unfold enumerate.
  rewrite (fold_enumerate_from term f base l 0 0 Hterm).
  change (Z.of_nat 0) with 0. rewrite Z.pow_0_r. lia.
Qed.

Lemma le_value_rev (v : bytes) : le_value 256 (map byte_to_Z (rev v)) = be_to_Z v.
Proof.
  induction v as [|x v IH] using rev_ind; [reflexivity|].
  rewrite rev_app_distr. cbn [rev app map]. rewrite le_value_cons, IH.
  rewrite be_to_Z_app. change (len [x]) with 1.
  replace (be_to_Z [x]) with (byte_to_Z x) by (unfold be_to_Z; simpl; lia).
  rewrite Z.pow_1_r. lia.
Qed.

Lemma le_value_zeros (base : Z) (ds : list Z) (k : nat) :
  le_value base (ds ++ repeat 0 k) = le_value base ds.
Proof.
  induction ds as [|d ds IH].
  - induction k as [|k IHk]; [reflexivity|].
    cbn [app repeat] in *. rewrite le_value_cons, IHk. simpl. lia.
  - cbn [app]. rewrite !le_value_cons, IH. reflexivity.
Qed.

(** *** The two alphabets *)

Lemma alphabet_checked (base : Z) :
  base = 58 \/ base = 43 ->
  forall d, 0 <= d < base -> alphabet_check (chars_of_base base) d = true.
Proof.
  intros Hb d Hd.
  assert (H : forallb (alphabet_check (chars_of_base base))
                      (map Z.of_nat (seq 0 (Z.to_nat base))) = true)
    by (destruct Hb as [-> | ->]; vm_compute; reflexivity).
  rewrite forallb_forall in H. apply H.
  rewrite <- (Z2Nat.id d) by lia. apply in_map. apply in_seq. lia.
Qed.

Lemma alphabet_facts (base : Z) (d : Z) :
  base = 58 \/ base = 43 -> 0 <= d < base ->
  getitem (chars_of_base base) d = Ok (chr (chars_of_base base) d)
  /\ bytes_find (chars_of_base base) (chr (chars_of_base base) d) = d
  /\ byte_to_Z (chr (chars_of_base base) d) < 128
  /\ (d <> 0 -> byte_eqb (chr (chars_of_base base) d) (chr (chars_of_base base) 0) = false).
Proof.
  intros Hb Hd. pose proof (alphabet_checked base Hb d Hd) as H.
  unfold alphabet_check in H.
  apply andb_prop in H as [H H4]. apply andb_prop in H as [H H3].
  apply andb_prop in H as [H1 H2].
  repeat split.
  - destruct (getitem (chars_of_base base) d) as [c|e]; [|discriminate].
    apply byte_eqb_eq in H1. congruence.
  - apply Z.eqb_eq. exact H2.
  - apply Z.ltb_lt. exact H3.
  - intros Hne. apply orb_prop in H4 as [H4|H4].
    + apply Z.eqb_eq in H4. contradiction.
    + apply negb_true_iff. exact H4.
Qed.

(** *** What [base_encode] writes *)

Lemma base_assert (base : Z) :
  base = 58 \/ base = 43 -> py_assert ((base =? 58) || (base =? 43)) = Ok tt.
Proof. intros [-> | ->]; reflexivity. Qed.

Lemma base_ge_2 (base : Z) : base = 58 \/ base = 43 -> 2 <= base.
Proof. intros [-> | ->]; lia. Qed.

Lemma encode_value (v : bytes) :
  fold_left (fun acc ic => acc + 256 ^ fst ic * byte_to_Z (snd ic))
            (enumerate (rev v)) 0
  = be_to_Z v.
Proof.
  rewrite (fold_enumerate (fun i c => 256 ^ i * byte_to_Z c) byte_to_Z 256)
    by (intros; ring).
  apply le_value_rev.
Qed.

Lemma ascii_of_byte_value (b : byte) : ascii_to_Z (ascii_of_byte b) = byte_to_Z b.
Proof. destruct b; reflexivity. Qed.

Lemma decode_ascii_Ok (w : bytes) :
  Forall (fun b => byte_to_Z b < 128) w ->
  decode_ascii w = Ok (string_of_list_byte w).
Proof.
  intros H. unfold decode_ascii.
  replace (forallb (fun x => byte_to_Z x <? 128) w) with true; [reflexivity|].
  symmetry. apply forallb_forall. intros x Hx.
  rewrite Forall_forall in H. apply Z.ltb_lt. apply H. exact Hx.
Qed.

Lemma encode_ascii_Ok (w : bytes) :
  Forall (fun b => byte_to_Z b < 128) w ->
  encode_ascii (string_of_list_byte w) = Ok w.
Proof.
  intros H. unfold encode_ascii, bytes_of_string.
  rewrite list_byte_of_string_of_list_byte.
  replace (forallb is_ascii (list_ascii_of_string (string_of_list_byte w))) with true;
    [reflexivity|].
  symmetry. apply forallb_forall. intros c Hc.
  unfold string_of_list_byte in Hc. rewrite list_ascii_of_string_of_list_ascii in Hc.
  apply in_map_iff in Hc as (b & <- & Hb).
  unfold is_ascii. rewrite ascii_of_byte_value. apply Z.ltb_lt.
  rewrite Forall_forall in H. apply H. exact Hb.
Qed.

Lemma encoded_digits_range (v : bytes) (base : Z) :
  base = 58 \/ base = 43 ->
  Forall (fun d => 0 <= d < base)
         (le_digits (loop_bound (be_to_Z v)) base (be_to_Z v)).
Proof.
  intros Hb. apply le_digits_range.
  - apply base_ge_2. exact Hb.
  - apply be_to_Z_range.
  - apply loop_bound_enough.
Qed.

Lemma encoded_ascii (v : bytes) (base : Z) :
  base = 58 \/ base = 43 -> Forall (fun b => byte_to_Z b < 128) (encoded v base).
Proof.
  intros Hb. unfold encoded. apply Forall_rev. apply Forall_app. split.
  - pose proof (encoded_digits_range v base Hb) as R.
    induction R as [|d ds Hd _ IH]; [constructor|].
    cbn [map]. constructor; [|exact IH].
    apply (alphabet_facts base d Hb Hd).
  - apply Forall_forall. intros x Hx. apply repeat_spec in Hx. subst x.
    apply (alphabet_facts base 0 Hb). destruct Hb as [-> | ->]; lia.
Qed.

Lemma base_encode_Ok (v : bytes) (base : Z) :
  base = 58 \/ base = 43 ->
  base_encode (PyBytes v) base = Ok (string_of_list_byte (encoded v base)).
Proof.
  intros Hb. unfold base_encode.
  cbn [assert_bytes forallb is_bytes py_assert andb bind bytes_value].
  rewrite (base_assert base Hb). cbn [bind].
  rewrite encode_value.
  set (chars := chars_of_base base).
  set (V := be_to_Z v).
  set (emit := fun d => c <- getitem chars d ;; Ok (byte_to_Z c)).
  pose proof (encoded_digits_range v base Hb) as R. fold V in R.
  assert (Hemit : forall d, 0 <= d < base -> emit d = Ok (byte_to_Z (chr chars d))).
  { intros d Hd. unfold emit, chars.
    destruct (alphabet_facts base d Hb Hd) as (-> & _). reflexivity. }
  destruct (divmod_loop_digits emit (chr chars) base (loop_bound V) V [])
    as (buf' & lv & H1 & H2 & H3).
  { intros d Hd. rewrite Forall_forall in R. specialize (R d Hd).
    exists (byte_to_Z (chr chars d)). split; [apply Hemit; exact R | apply byte_of_to_Z]. }
  rewrite H1. cbn [bind].
  rewrite Forall_forall in R.
  pose proof (Hemit lv (R lv H2)) as Hlv. unfold emit in Hlv.
  rewrite Hlv. cbn [bind].
  unfold bytearray_append. rewrite byte_of_to_Z. cbn [bind].
  destruct (alphabet_facts base 0 Hb) as (H0 & _); [destruct Hb as [-> | ->]; lia|].
  fold chars in H0. rewrite H0. cbn [bind].
  rewrite H3. cbn [app].
  rewrite decode_ascii_Ok; [reflexivity|].
  apply (encoded_ascii v base Hb).
Qed.

(** *** What [base_decode] reads back *)

Lemma count_leading_app (x : byte) (k : nat) (rest : bytes) :
  count_leading x (repeat x k ++ rest) = Z.of_nat k + count_leading x rest.
Proof.
  induction k as [|k IH]; [cbn [repeat app]; lia|].
  cbn [repeat app count_leading].
  replace (byte_eqb x x) with true by (symmetry; apply byte_eqb_eq; reflexivity).
  rewrite IH. lia.
Qed.

Lemma count_leading_nonneg (x : byte) (v : bytes) : 0 <= count_leading x v.
Proof.
  induction v as [|c v IH]; cbn [count_leading]; [lia|].
  destruct (byte_eqb c x); lia.
Qed.

Lemma count_leading_split (x : byte) (v : bytes) :
  exists rest,
    v = repeat x (Z.to_nat (count_leading x v)) ++ rest
    /\ count_leading x rest = 0.
Proof.
  induction v as [|c v (rest & Hv & Hr)].
  - exists []. split; reflexivity.
  - cbn [count_leading]. destruct (byte_eqb c x) eqn:E.
    + apply byte_eqb_eq in E. subst c. exists rest.
      pose proof (count_leading_nonneg x v).
      replace (Z.to_nat (1 + count_leading x v))
        with (S (Z.to_nat (count_leading x v))) by lia.
      cbn [repeat app]. split; [f_equal; exact Hv | exact Hr].
    + exists (c :: v). split; [reflexivity|]. cbn [count_leading]. rewrite E. reflexivity.
Qed.

Lemma be_to_Z_zeros (k : nat) (t : bytes) : be_to_Z (repeat x00 k ++ t) = be_to_Z t.
Proof.
  induction k as [|k IH]; [reflexivity|].
  cbn [repeat app]. rewrite be_to_Z_cons, IH. change (byte_to_Z x00) with 0. lia.
Qed.

Lemma byte_or_zero_to_Z (b : byte) : byte_or_zero (byte_to_Z b) = b.
Proof. unfold byte_or_zero. rewrite byte_of_to_Z. reflexivity. Qed.

(** The byte loop recovers a buffer that starts with a non-zero byte. *)
Lemma decode_digits (y : byte) (t : bytes) (fuel : nat) :
  byte_to_Z y <> 0 ->
  (List.length t <= fuel)%nat ->
  le_digits fuel 256 (be_to_Z (y :: t)) = map byte_to_Z (rev (y :: t)).
Proof.
  intros Hy Hf. rewrite <- le_value_rev. apply le_digits_unique.
  - lia.
  - cbn [rev]. rewrite map_app. intros H. apply app_eq_nil in H as [_ H]. discriminate.
  - apply Forall_forall. intros d Hd. apply in_map_iff in Hd as (b & <- & _).
    apply byte_to_Z_range.
  - right. cbn [rev]. rewrite map_app. cbn [map]. rewrite last_last.
    pose proof (byte_to_Z_range y). lia.
  - rewrite length_map, length_rev. cbn [List.length]. lia.
Qed.

Lemma length_le_log2 (y : byte) (t : bytes) :
  byte_to_Z y <> 0 -> (List.length t <= loop_bound (be_to_Z (y :: t)))%nat.
Proof.
  intros Hy. unfold loop_bound.
  pose proof (byte_to_Z_range y) as Ry. pose proof (be_to_Z_range t) as Rt.
  assert (Hge : 2 ^ len t <= be_to_Z (y :: t)).
  { rewrite be_to_Z_cons.
    assert (2 ^ len t <= 256 ^ len t)
      by (apply Z.pow_le_mono_l; lia).
    nia. }
  apply Z.log2_le_pow2 in Hge; [unfold len in Hge; lia|].
  pose proof (Z.pow_pos_nonneg 2 (len t) ltac:(lia) (len_nonneg t)). lia.
Qed.

Lemma decode_value (chars : bytes) (base : Z) (w : bytes) :
  fold_left (fun acc ic => acc + bytes_find chars (snd ic) * base ^ fst ic)
            (enumerate w) 0
  = le_value base (map (bytes_find chars) w).
Proof.
  apply (fold_enumerate (fun i c => bytes_find chars c * base ^ i)).
  intros; reflexivity.
Qed.

Lemma find_encoded_digits (base : Z) (ds : list Z) :
  base = 58 \/ base = 43 ->
  Forall (fun d => 0 <= d < base) ds ->
  map (bytes_find (chars_of_base base)) (map (chr (chars_of_base base)) ds) = ds.
Proof.
  intros Hb R. induction R as [|d ds Hd _ IH]; [reflexivity|].
  cbn [map]. rewrite IH. f_equal. apply (alphabet_facts base d Hb Hd).
Qed.

(** C6, where it holds: a buffer with a non-zero byte is encoded to a text
    that decodes to the buffer, with the expected length [len(b)] and with
    none, in base 58 and in base 43. *)
Theorem base_roundtrip_nonzero :
  forall (v : bytes) (base : Z) (length : option Z),
    base = 58 \/ base = 43 ->
    be_to_Z v <> 0 ->
    length = None \/ length = Some (len v) ->
    exists s, base_encode (PyBytes v) base = Ok s
              /\ base_decode (PyStr s) length base = Ok (Some v).
Proof.
  intros v base length Hb HV Hlen.
  exists (string_of_list_byte (encoded v base)).
  split; [apply base_encode_Ok; exact Hb|].
  pose proof (base_ge_2 base Hb) as Hb2.
  assert (H0 : 0 <= 0 < base) by lia.
  destruct (alphabet_facts base 0 Hb H0) as (Hget0 & Hfind0 & _ & _).
  unfold base_decode. cbn [to_bytes].
  rewrite encode_ascii_Ok by (apply encoded_ascii; exact Hb). cbn [bind].
  rewrite (base_assert base Hb). cbn [bind].
  rewrite decode_value.
  set (V := be_to_Z v) in *.
  set (ds := le_digits (loop_bound V) base V).
  set (k := Z.to_nat (count_leading x00 v)).
  assert (Hrev : rev (encoded v base) = map (chr (chars_of_base base)) ds ++ repeat (chr (chars_of_base base) 0) k).
  { unfold encoded. rewrite rev_involutive. reflexivity. }
  pose proof (encoded_digits_range v base Hb) as R. fold V ds in R.
  rewrite Hrev, map_app, (find_encoded_digits base ds Hb R), map_repeat.
  rewrite Hfind0, le_value_zeros.
  replace (le_value base ds) with V by (unfold ds; symmetry; apply le_value_digits).
  (* the buffer without its leading zero bytes *)
  destruct (count_leading_split x00 v) as (rest & Hv & Hrest). fold k in Hv.
  assert (HVrest : V = be_to_Z rest).
  { unfold V. rewrite Hv at 1. apply be_to_Z_zeros. }
  destruct rest as [|y t]; [unfold be_to_Z in HVrest; simpl in HVrest; contradiction|].
  assert (Hy : byte_to_Z y <> 0).
  { cbn [count_leading] in Hrest. destruct (byte_eqb y x00) eqn:E.
    - pose proof (count_leading_nonneg x00 t). lia.
    - intros Hz. change 0 with (byte_to_Z x00) in Hz. apply byte_to_Z_inj in Hz.
      apply byte_eqb_eq in Hz. congruence. }
  assert (Hes : le_digits (loop_bound V) 256 V = map byte_to_Z (rev (y :: t))).
  { rewrite HVrest. apply decode_digits; [exact Hy|]. apply length_le_log2. exact Hy. }
  destruct (divmod_loop_digits Ok byte_or_zero 256 (loop_bound V) V [])
    as (buf' & lv & H1 & H2 & H3).
  { intros d Hd. exists d. split; [reflexivity|].
    rewrite Hes in Hd. apply in_map_iff in Hd as (b & <- & _).
    rewrite byte_of_to_Z. unfold byte_or_zero. rewrite byte_of_to_Z. reflexivity. }
  rewrite H1. cbn [bind].
  assert (Hlv : byte_of_Z lv = Some (byte_or_zero lv)).
  { rewrite Hes in H2. apply in_map_iff in H2 as (b & <- & _).
    rewrite byte_or_zero_to_Z. apply byte_of_to_Z. }
  unfold bytearray_append. rewrite Hlv. cbn [bind].
  rewrite Hget0. cbn [bind]. rewrite H3. cbn [app].
  rewrite Hes, map_map.
  rewrite (map_ext _ (fun b => b) byte_or_zero_to_Z), map_id.
  (* the leading zero digits *)
  assert (Hpad : count_leading (chr (chars_of_base base) 0) (encoded v base) = Z.of_nat k).
  { unfold encoded. fold V ds k.
    rewrite rev_app_distr, rev_repeat, count_leading_app.
    assert (Hlast : 0 < last ds 0).
    { apply le_digits_last; [exact Hb2|]. pose proof (be_to_Z_range v). fold V in H. lia. }
    assert (Hne : ds <> []) by apply le_digits_nonempty.
    destruct (exists_last Hne) as (ds' & d & Hds).
    rewrite Hds in Hlast, R |- *. rewrite last_last in Hlast.
    apply Forall_app in R as [_ Rd]. apply Forall_inv in Rd. rename Rd into Hd.
    rewrite map_app, rev_app_distr. cbn [map rev app count_leading].
    destruct (alphabet_facts base d Hb Hd) as (_ & _ & _ & Hne0).
    rewrite Hne0 by lia. lia. }
  rewrite Hpad, Nat2Z.id.
  assert (Hresult : rev (rev (y :: t) ++ repeat x00 k) = v).
  { rewrite rev_app_distr, rev_repeat, rev_involutive. symmetry. exact Hv. }
  replace (match length with
           | Some n => negb (len (rev (y :: t) ++ repeat x00 k) =? n)
           | None => false
           end) with false.
  - rewrite Hresult. reflexivity.
  - destruct Hlen as [-> | ->]; [reflexivity|].
    symmetry. apply negb_false_iff. apply Z.eqb_eq.
    apply (f_equal (@List.length byte)) in Hresult.
    rewrite length_rev in Hresult. unfold len. rewrite Hresult. reflexivity.
Qed.

Lemma zero_value_all_zero (v : bytes) :
  be_to_Z v = 0 -> v = repeat x00 (Z.to_nat (count_leading x00 v)).
Proof.
  intros HV. destruct (count_leading_split x00 v) as (rest & Hv & Hrest).
  destruct rest as [|y t]; [rewrite app_nil_r in Hv; exact Hv|exfalso].
  rewrite Hv, be_to_Z_zeros, be_to_Z_cons in HV.
  cbn [count_leading] in Hrest. destruct (byte_eqb y x00) eqn:E.
  - pose proof (count_leading_nonneg x00 t). lia.
  - assert (Hy : byte_to_Z y <> 0).
    { intros Hz. change 0 with (byte_to_Z x00) in Hz. apply byte_to_Z_inj in Hz.
      apply byte_eqb_eq in Hz. congruence. }
    pose proof (byte_to_Z_range y). pose proof (be_to_Z_range t).
    pose proof (Z.pow_pos_nonneg 256 (len t) ltac:(lia) (len_nonneg t)). nia.
Qed.

(** The defect of C6 in general: a buffer of [n] zero bytes is encoded as
    [n + 1] zero digits, which decode to [n + 2] zero bytes, so decoding
    with the expected length [n] returns no value. *)
Theorem base_roundtrip_zero :
  forall (v : bytes) (base : Z),
    base = 58 \/ base = 43 ->
    be_to_Z v = 0 ->
    exists s, base_encode (PyBytes v) base = Ok s
              /\ base_decode (PyStr s) (Some (len v)) base = Ok None
              /\ base_decode (PyStr s) None base = Ok (Some (x00 :: x00 :: v)).
Proof.
  intros v base Hb HV.
  exists (string_of_list_byte (encoded v base)).
  split; [apply base_encode_Ok; exact Hb|].
  pose proof (base_ge_2 base Hb) as Hb2.
  assert (H0 : 0 <= 0 < base) by lia.
  destruct (alphabet_facts base 0 Hb H0) as (Hget0 & Hfind0 & _ & _).
  pose proof (zero_value_all_zero v HV) as Hv.
  set (k := Z.to_nat (count_leading x00 v)) in *.
  assert (Henc : encoded v base = repeat (chr (chars_of_base base) 0) (S k)).
  { unfold encoded. fold k. rewrite HV, (le_digits_stop _ base 0) by lia.
    cbn [map app].
    change (rev (repeat (chr (chars_of_base base) 0) (S k))
            = repeat (chr (chars_of_base base) 0) (S k)).
    apply rev_repeat. }
  clearbody k.
  assert (Hdec : forall length,
             base_decode (PyStr (string_of_list_byte (encoded v base))) length base
             = if match length with
                  | Some n => negb (len (x00 :: repeat x00 (S k)) =? n)
                  | None => false
                  end
               then Ok None else Ok (Some (rev (x00 :: repeat x00 (S k))))).
  { intros length. unfold base_decode. cbn [to_bytes].
    rewrite encode_ascii_Ok by (apply encoded_ascii; exact Hb). cbn [bind].
    rewrite (base_assert base Hb). cbn [bind].
    rewrite decode_value, Henc, rev_repeat, map_repeat, Hfind0.
    replace (le_value base (repeat 0 (S k))) with 0
      by (symmetry; apply (le_value_zeros base [] (S k))).
    change (loop_bound 0) with 1%nat. cbn [divmod_loop Z.geb Z.compare bind].
    change (bytearray_append [] 0) with (@Ok bytes [x00]). cbn [bind].
    rewrite Hget0. cbn [bind app].
    rewrite <- (app_nil_r (repeat _ (S k))), count_leading_app.
    cbn [count_leading]. rewrite Z.add_0_r, Nat2Z.id. reflexivity. }
  split.
  - rewrite Hdec.
    replace (negb (len (x00 :: repeat x00 (S k)) =? len v)) with true; [reflexivity|].
    symmetry. apply negb_true_iff. apply Z.eqb_neq.
    rewrite Hv. unfold len. cbn [List.length]. rewrite !repeat_length. lia.
  - rewrite Hdec. do 2 f_equal.
    change (x00 :: repeat x00 (S k)) with (repeat x00 (S (S k))).
    rewrite rev_repeat. cbn [repeat]. rewrite <- Hv. reflexivity.
Qed.

(** ** C9 away from the empty path: the two engines agree

    What follows assumes of the imported library what the derivation
    relies on: digests of 32 bytes, an order that fits 32 bytes, scalar
    multiplication of the generator that distributes over addition modulo
    the order, and a curve on which the exponentiation of [ECC_YfromX]
    recovers the ordinate of every multiple of the generator. *)

Section Agreement.

Context {L : Library} {net : Network} {laws : LibraryLaws L net}.

(** *** Point compression and its inverse *)

Lemma Public_key_init_Ok (G P : Point) (pk : Public_key) :
  Public_key_init G P = Ok pk ->
  exists x y, P = Pt x y /\ pk = mkPublic_key P
              /\ 0 <= x < generator_order /\ 0 <= y < generator_order
              /\ generator_order <> 0
              /\ point_mul P generator_order = INFINITY.
Proof.
  unfold Public_key_init.
  destruct (generator_order =? 0) eqn:E0; [discriminate|].
  destruct (point_eqb (point_mul P generator_order) INFINITY) eqn:E1; [|discriminate].
  cbn [negb]. destruct P as [|x y]; [discriminate|].
  destruct ((x <? 0) || (generator_order <=? x) || (y <? 0) || (generator_order <=? y))
    eqn:E2; [discriminate|].
  intros H; injection H as <-. exists x, y.
  apply Z.eqb_neq in E0.
  apply orb_false_elim in E2 as [E2 E5]. apply orb_false_elim in E2 as [E2 E4].
  apply orb_false_elim in E2 as [E2 E3].
  apply Z.ltb_ge in E2, E4. apply Z.leb_gt in E3, E5.
  repeat split; try assumption.
  destruct (point_mul (Pt x y) generator_order); [reflexivity | discriminate].
Qed.

Lemma bfh_prefixed (hi lo : ascii) (s : string) (h l : N) (b : byte) (t : bytes) :
  ascii_to_digit hi = Some h -> ascii_to_digit lo = Some l ->
  byte_of_Z (Z.of_N h * 16 + Z.of_N l) = Some b ->
  bfh s = Ok t ->
  bfh (String hi (String lo s)) = Ok (b :: t).
Proof. intros Hh Hl Hb Hs. rewrite (bfh_digits _ _ _ _ _ Hh Hl), Hb, Hs. reflexivity. Qed.

Lemma i2o_compressed (x y : Z) :
  0 <= x < 2 ^ 256 ->
  i2o_ECPublicKey (mkPublic_key (Pt x y)) true = Ok (prefix_of y :: be_of_Z 32 x).
Proof.
  intros R. unfold i2o_ECPublicKey, prefix_of. cbn [point point_x point_y bind].
  assert (Hx : bfh (fmt_0x 64 x) = Ok (be_of_Z 32 x)).
  { change 64%nat with (2 * 32)%nat. apply bfh_fmt_0x; [lia|].
    change (256 ^ Z.of_nat 32) with (2 ^ 256). exact R. }
  destruct (negb (Z.land y 1 =? 0)).
  - apply (bfh_prefixed "0" "3" _ 0%N 3%N); try reflexivity. exact Hx.
  - apply (bfh_prefixed "0" "2" _ 0%N 2%N); try reflexivity. exact Hx.
Qed.

Lemma slice_tail {A : Type} (a : A) (l : list A) : slice (a :: l) (Some 1) None = l.
Proof. apply (slice_app_right_at [a] l 1). reflexivity. Qed.

Lemma ECC_YfromX_recovers (x y : Z) :
  recovers curve_secp256k1 x y ->
  ECC_YfromX x curve_secp256k1 (negb (Z.land y 1 =? 0)) = Ok (y, 0).
Proof.
  intros (_ & Hon & Hsel). unfold ECC_YfromX.
  change (map Z.of_nat (seq 0 128)) with (0 :: map Z.of_nat (seq 1 127)).
  cbn [ECC_YfromX_loop]. rewrite Hon.
  destruct (Bool.eqb _ _); rewrite Hsel; reflexivity.
Qed.

Lemma ser_to_point_compressed (x y : Z) :
  0 <= x < 2 ^ 256 ->
  recovers curve_secp256k1 x y ->
  generator_order <> 0 ->
  point_mul (Pt x y) generator_order = INFINITY ->
  ser_to_point (prefix_of y :: be_of_Z 32 x) = Ok (Pt x y).
Proof.
  intros R Hrec Hord Hmul. unfold ser_to_point. cbn [getitem Z.ltb Z.compare].
  cbn [Z.to_nat nth_error bind].
  assert (Hpre : byte_to_Z (prefix_of y) = if negb (Z.land y 1 =? 0) then 3 else 2).
  { unfold prefix_of. destruct (negb (Z.land y 1 =? 0)); reflexivity. }
  rewrite Hpre, slice_tail.
  rewrite string_to_number_be_of_Z
    by (try lia; change (256 ^ Z.of_nat 32) with (2 ^ 256); exact R).
  pose proof (ECC_YfromX_recovers x y Hrec) as HY.
  assert (HP : Point_init curve_secp256k1 x y (Some generator_order) = Ok (Pt x y)).
  { unfold Point_init. destruct Hrec as (Hon & _). rewrite Hon. cbn [py_assert bind].
    apply Z.eqb_neq in Hord. rewrite Hord, Hmul. reflexivity. }
  destruct (negb (Z.land y 1 =? 0)); cbn [Z.eqb Pos.eqb orb py_assert bind];
    rewrite HY; cbn [bind fst]; exact HP.
Qed.

(** *** Public keys of private scalars *)

Lemma pub_of_unique (k cK cK' : bytes) : pub_of k cK -> pub_of k cK' -> cK = cK'.
Proof. intros (pk & H1 & H2) (pk' & H1' & H2'). congruence. Qed.

Lemma pub_of_EC_KEY (k cK : bytes) (keypair : EC_KEY) :
  EC_KEY_init k = Ok keypair -> GetPubKey (pubkey keypair) true = Ok cK -> pub_of k cK.
Proof.
  unfold EC_KEY_init. intros H HcK. inv_bind H. inv_bind H. injection H as <-.
  apply string_to_number_Ok in E as [-> _].
  exists v0. split; assumption.
Qed.

Lemma pub_of_get_pubkeys (k K cK : bytes) :
  get_pubkeys_from_secret k = Ok (K, cK) -> pub_of k cK.
Proof.
  unfold get_pubkeys_from_secret, SigningKey_from_string,
    SigningKey_from_secret_exponent, VerifyingKey_from_public_point.
  intros H. inv_bind H. inv_bind E. inv_bind E. inv_bind E. inv_bind E. inv_bind E.
  injection E as <-. inv_bind H. inv_bind H. injection H as _ <-.
  cbn [get_verifying_key sk_verifying_key vk_pubkey] in *.
  repeat match goal with
         | H : string_to_number _ = Ok _ |- _ =>
             apply string_to_number_Ok in H as [-> _]
         end.
  match goal with
  | H : Public_key_init _ _ = Ok ?pk, H' : bind (Public_key_init _ _) _ = Ok _ |- _ =>
      rewrite H in H'; cbn [bind] in H'; injection H' as <-; exists pk
  end.
  split; assumption.
Qed.

Lemma pub_of_shape (k cK : bytes) :
  pub_of k cK ->
  exists x y, point_mul generator_secp256k1 (be_to_Z k) = Pt x y
              /\ cK = prefix_of y :: be_of_Z 32 x
              /\ ser_to_point cK = Ok (Pt x y).
Proof.
  intros (pk & Hpk & HcK).
  apply Public_key_init_Ok in Hpk as (x & y & HP & -> & Rx & Ry & Hord & Hmul).
  pose proof order_bound as Hb.
  assert (R : 0 <= x < 2 ^ 256) by lia.
  rewrite HP in HcK, Hmul. unfold GetPubKey in HcK. rewrite i2o_compressed in HcK by exact R.
  assert (E : cK = prefix_of y :: be_of_Z 32 x) by congruence.
  exists x, y. split; [exact HP|]. split; [exact E|]. rewrite E.
  apply ser_to_point_compressed; try assumption.
  apply (sqrt_law (be_to_Z k)). exact HP.
Qed.

(** *** One derivation step *)

Lemma CKD_agree (k c cK : bytes) (i : Z) (k' c' cK' : bytes) :
  0 <= i < 2 ^ 31 ->
  pub_of k cK ->
  CKD_priv k c i = Ok (k', c') ->
  pub_of k' cK' ->
  CKD_pub cK c i = Ok (cK', c').
Proof.
  intros R Hpub Hpriv Hpub'.
  rewrite CKD_pub_below by exact R.
  rewrite CKD_priv_index in Hpriv by lia.
  replace (2 ^ 31 <=? i) with false in Hpriv by (symmetry; apply Z.leb_gt; lia).
  unfold _CKD_priv in Hpriv. cbn [Z.eqb negb] in Hpriv.
  inv_bind Hpriv. inv_bind Hpriv. inv_bind Hpriv. inv_bind Hpriv. inv_bind Hpriv.
  apply Ok_inj in Hpriv.
  assert (HcK : v0 = cK) by (eapply pub_of_unique; [eapply pub_of_EC_KEY|]; eassumption).
  subst v0.
  apply string_to_number_Ok in E2 as [-> _].
  apply number_to_string_inv in E3 as [Hk' Rk'].
  assert (Ek' : k' = v3) by congruence.
  assert (Ec' : c' = slice (hmac_sha512 c (cK ++ be_of_Z 4 i)) (Some 32) None)
    by congruence.
  assert (Hval : be_to_Z k' = (v1 + be_to_Z k) mod generator_order).
  { rewrite Ek', Hk'. apply be_to_of_Z.
    pose proof (orderlen_pos generator_order). rewrite Z2Nat.id by lia. exact Rk'. }
  destruct (pub_of_shape k cK Hpub) as (x & y & HP & _ & Hser).
  destruct Hpub' as (pk' & Hpk' & HcK').
  unfold _CKD_pub. rewrite E1. cbn [bind]. rewrite Hser. cbn [bind].
  rewrite <- HP, <- mul_add, <- Hval.
  unfold VerifyingKey_from_public_point. rewrite Hpk'. cbn [bind vk_pubkey].
  rewrite HcK'. cbn [bind]. rewrite Ec'. reflexivity.
Qed.

(** *** The loops over the path *)

Lemma eqb_empty (n : string) : String.eqb n "" = true <-> n = "".
Proof. apply String.eqb_eq. Qed.

Lemma private_index (n : string) :
  non_hardened n -> n <> "" ->
  exists i, int_of_str n = Some i /\ 0 <= i < 2 ^ 31
            /\ (match last_char n with
                | Some "'"%char => j <- py_int (but_last n) ;; Ok (j + BIP32_PRIME)
                | _ => py_int n
                end) = Ok i.
Proof.
  intros [Hn | (Hlast & i & Hi & R)] Hne; [contradiction|].
  exists i. split; [exact Hi|]. split; [exact R|].
  assert (Hint : py_int n = Ok i) by (unfold py_int; rewrite Hi; reflexivity).
  destruct (last_char n) as [ch|]; [|exact Hint].
  destruct (ascii_dec ch "'"%char) as [->|Hch]; [contradiction|].
  destruct ch as [[] [] [] [] [] [] [] []]; try exact Hint. contradiction.
Qed.

(** A key the private loop goes on from has a public key. *)
Lemma private_loop_valid (ns : list string) (st st' : priv_state) :
  private_loop ns st = Ok st' ->
  (exists cK, pub_of (ps_k st') cK) ->
  exists cK, pub_of (ps_k st) cK.
Proof.
  revert st. induction ns as [|n ns IH]; intros st H Hfinal.
  - apply Ok_inj in H. subst st'. exact Hfinal.
  - cbn [private_loop] in H. destruct (String.eqb n "").
    + apply (IH st H Hfinal).
    + inv_bind H. inv_bind H. destruct v0 as [k c].
      unfold CKD_priv in E0. inv_bind E0. inv_bind E0. inv_bind E0.
      unfold _CKD_priv in E0. inv_bind E0. inv_bind E0.
      eexists. eapply pub_of_EC_KEY; eassumption.
Qed.

Lemma loops_agree (ns : list string) :
  Forall non_hardened ns ->
  forall (st st' : priv_state) (pst : pub_state),
    mirrors st pst ->
    private_loop ns st = Ok st' ->
    (exists cK, pub_of (ps_k st') cK) ->
    exists pst', public_loop ns pst = Ok pst' /\ mirrors st' pst'.
Proof.
  induction 1 as [|n ns Hn _ IH]; intros st st' pst Hm Hpriv Hfinal.
  - apply Ok_inj in Hpriv. subst st'. exists pst. split; [reflexivity | exact Hm].
  - cbn [private_loop public_loop] in *.
    destruct (String.eqb n "") eqn:En.
    + apply (IH st st' pst Hm Hpriv Hfinal).
    + assert (Hne : n <> "") by (intros ->; discriminate).
      destruct (private_index n Hn Hne) as (i & Hi & R & Hidx).
      rewrite Hidx in Hpriv. cbn [bind] in Hpriv.
      inv_bind Hpriv. destruct v as [k c].
      unfold py_int. rewrite Hi. cbn [bind].
      destruct Hm as (Hpub & Hc & Hd & _ & _).
      destruct (private_loop_valid ns _ st' Hpriv Hfinal) as (cK1 & Hpub1).
      cbn [ps_k] in Hpub1.
      rewrite Hc, (CKD_agree (ps_k st) (ps_c st) (pb_cK pst) i k c cK1 R Hpub E Hpub1).
      cbn [bind].
      eapply IH; [|exact Hpriv | exact Hfinal].
      repeat split; cbn [ps_k ps_c ps_depth ps_i ps_parent_k pb_cK pb_c pb_depth pb_i
                           pb_parent_cK parents_agree];
        try assumption; try reflexivity.
      rewrite Hd. reflexivity.
Qed.

(** *** Extended keys and their text *)

Lemma Hash_bytes (x : bytes) :
  Hash (PyBytes x) = Ok (hashlib_sha256 (hashlib_sha256 x)).
Proof. reflexivity. Qed.

Lemma xtype_ok_check (xtype : Z) :
  xtype_ok net xtype <->
  (if TESTNET net then (xtype =? 0) || (xtype =? 1) else (xtype =? 0)) = true.
Proof.
  unfold xtype_ok. destruct (TESTNET net).
  - rewrite orb_true_iff, !Z.eqb_eq. reflexivity.
  - rewrite Z.eqb_eq. reflexivity.
Qed.

Lemma xtype_ok_range (xtype : Z) : xtype_ok net xtype -> 0 <= xtype <= 1.
Proof. unfold xtype_ok. destruct (TESTNET net); lia. Qed.

Lemma deserialize_xkey_fields (xkey : pyobj) (prv : bool) (xtype depth : Z)
  (fp cn c K : bytes) :
  deserialize_xkey net xkey prv = Ok (xtype, depth, fp, cn, c, K) ->
  xtype_ok net xtype /\ 0 <= depth < 256 /\ len fp = 4 /\ len cn = 4 /\ len c = 32.
Proof.
  unfold deserialize_xkey. intros H. inv_bind H.
  destruct v as [key|]; [|discriminate].
  destruct (len key =? 78) eqn:E78; [|discriminate]. apply Z.eqb_eq in E78.
  cbn [negb] in H. inv_bind H.
  match type of H with
  | (if negb ?b then _ else _) = _ => destruct b eqn:Ex; [|discriminate]
  end.
  cbn [negb] in H. injection H as Hxt Hd Hfp Hcn Hc HK.
  assert (Hx : xtype_ok net xtype).
  { apply xtype_ok_check. rewrite <- Hxt. exact Ex. }
  subst depth fp cn c. split; [exact Hx|]. split; [apply byte_to_Z_range|].
  rewrite !len_slice by lia. lia.
Qed.

Lemma bytes1_Ok (n : Z) (d : bytes) :
  bytes1 n = Ok d -> exists b, d = [b] /\ byte_to_Z b = n.
Proof.
  unfold bytes1. destruct (byte_of_Z n) as [b|] eqn:E; [|discriminate].
  intros H. injection H as <-. exists b. split; [reflexivity|].
  apply byte_of_Z_Some. exact E.
Qed.

Lemma xpub_header_Ok (xtype : Z) :
  xtype_ok net xtype ->
  xpub_header net xtype = Ok (be_of_Z 4 (XPUB_HEADER net + xtype)).
Proof.
  intros Hx. apply xtype_ok_range in Hx.
  pose proof xpub_header_pos. pose proof xpub_header_bound.
  unfold xpub_header. change 8%nat with (2 * 4)%nat.
  apply bfh_fmt_0x; [lia|]. change (256 ^ Z.of_nat 4) with (2 ^ 32). lia.
Qed.

Lemma serialize_deserialize_xpub (xtype depth : Z) (fp cn c cK : bytes)
  (xpub : string) :
  xtype_ok net xtype -> len fp = 4 -> len cn = 4 -> len c = 32 -> len cK = 33 ->
  serialize_xpub net xtype c cK depth fp cn = Ok xpub ->
  deserialize_xpub net (PyStr xpub) = Ok (xtype, depth, fp, cn, c, cK).
Proof.
  intros Hx Hfp Hcn Hc HcK Hser.
  pose proof (xtype_ok_range xtype Hx) as Rx.
  pose proof xpub_header_pos as Hpos. pose proof xpub_header_bound as Hbound.
  unfold serialize_xpub in Hser. rewrite (xpub_header_Ok xtype Hx) in Hser.
  cbn [bind] in Hser. inv_bind Hser.
  apply bytes1_Ok in E as (d & -> & Hd).
  set (H := XPUB_HEADER net + xtype) in *.
  set (payload := be_of_Z 4 H ++ [d] ++ fp ++ cn ++ c ++ cK) in *.
  unfold EncodeBase58Check in Hser. rewrite Hash_bytes in Hser. cbn [bind] in Hser.
  set (cs := slice (hashlib_sha256 (hashlib_sha256 payload)) (Some 0) (Some 4)) in *.
  assert (Hcs : len cs = 4).
  { unfold cs. rewrite len_slice by (rewrite ?sha256_length; lia). lia. }
  assert (Hlen : len payload = 78).
  { unfold payload. rewrite !len_app, len_be_of_Z, Hfp, Hcn, Hc, HcK.
    change (len [d]) with 1. lia. }
  assert (Hnz : be_to_Z (payload ++ cs) <> 0).
  { unfold payload. rewrite <- app_assoc, be_to_Z_app.
    rewrite be_to_of_Z by (change (256 ^ Z.of_nat 4) with (2 ^ 32); lia).
    match goal with
    | |- ?h * 256 ^ ?e + be_to_Z ?r <> 0 =>
        pose proof (be_to_Z_range r);
        pose proof (Z.pow_pos_nonneg 256 e ltac:(lia) (len_nonneg _))
    end.
    nia. }
  destruct (base_roundtrip_nonzero (payload ++ cs) 58 None (or_introl eq_refl) Hnz
              (or_introl eq_refl)) as (s & Henc & Hdec).
  assert (s = xpub) by congruence. subst s.
  unfold deserialize_xpub, deserialize_xkey, DecodeBase58Check.
  rewrite Hdec. cbn [bind].
  pose proof (slice_drop_last payload cs 4 Hcs ltac:(lia)) as Hkey.
  pose proof (slice_take_last payload cs 4 Hcs ltac:(lia)) as Hsum.
  cbn [Z.opp] in Hkey, Hsum. rewrite Hkey, Hsum.
  rewrite Hash_bytes. cbn [bind]. fold cs.
  replace (bytes_eqb cs cs) with true by (symmetry; apply bytes_eqb_eq; reflexivity).
  cbn [negb bind]. rewrite Hlen. cbn [Z.eqb Pos.eqb negb].
  assert (Hget : getitem payload 4 = Ok d).
  { unfold payload. cbn [app]. apply getitem_at. apply len_be_of_Z. }
  rewrite Hget. cbn [bind]. rewrite Hd.
  assert (H1 : slice payload (Some 0) (Some 4) = be_of_Z 4 H).
  { unfold payload. apply slice_upto_at. apply len_be_of_Z. }
  assert (H2 : slice payload (Some 5) (Some 9) = fp).
  { unfold payload. rewrite (app_assoc (be_of_Z 4 H) [d]).
    apply slice_mid_at; [rewrite len_app, len_be_of_Z; reflexivity | lia]. }
  assert (H3 : slice payload (Some 9) (Some 13) = cn).
  { unfold payload. rewrite (app_assoc (be_of_Z 4 H) [d]).
    rewrite (app_assoc _ fp).
    apply slice_mid_at; [rewrite !len_app, len_be_of_Z, Hfp; reflexivity | lia]. }
  assert (H4 : slice payload (Some 13) (Some (13 + 32)) = c).
  { unfold payload. rewrite (app_assoc (be_of_Z 4 H) [d]).
    rewrite (app_assoc _ fp). rewrite (app_assoc _ cn).
    apply slice_mid_at; [rewrite !len_app, len_be_of_Z, Hfp, Hcn; reflexivity | lia]. }
  assert (H5 : slice payload (Some (13 + 32)) None = cK).
  { unfold payload. rewrite (app_assoc (be_of_Z 4 H) [d]).
    rewrite (app_assoc _ fp). rewrite (app_assoc _ cn). rewrite (app_assoc _ c).
    apply slice_from_at. rewrite !len_app, len_be_of_Z, Hfp, Hcn, Hc. reflexivity. }
  rewrite H1, H2, H3, H4, H5.
  rewrite be_to_of_Z by (change (256 ^ Z.of_nat 4) with (2 ^ 32); lia).
  replace (H - XPUB_HEADER net) with xtype by (unfold H; lia).
  apply xtype_ok_check in Hx. rewrite Hx. reflexivity.
Qed.

(** *** The two engines *)

(** C9 on every path that is not empty: if the extended private key has an
    extended public key, the path holds non-hardened indices only, and
    private derivation returns, then public derivation from the extended
    public key returns the same text as the public half of the private
    result. *)
Theorem public_derivation_agrees :
  forall (xprv xpub branch sequence xprv' xpub' : string),
    xpub_from_xprv net (PyStr xprv) = Ok xpub ->
    branch <> sequence ->
    Forall non_hardened (split_slash (str_from (String.length branch) sequence)) ->
    bip32_private_derivation net xprv branch sequence = Ok (xprv', xpub') ->
    bip32_public_derivation net xpub branch sequence = Ok xpub'.
Proof.
  intros xprv xpub branch sequence xprv' xpub' Hxpub Hne Hpath Hpriv.
  (* the node itself *)
  unfold xpub_from_xprv in Hxpub. inv_bind Hxpub.
  destruct v as [[[[[xtype depth] fp] cn] c] k].
  inv_bind Hxpub. destruct v as [K cK0].
  pose proof E as E'. unfold deserialize_xprv in E'.
  destruct (deserialize_xkey_fields _ _ _ _ _ _ _ _ E') as (Hx & Hdepth & Hfp & Hcn & Hc).
  pose proof (pub_of_get_pubkeys _ _ _ E0) as Hpub0.
  destruct (pub_of_shape _ _ Hpub0) as (x0 & y0 & _ & HcK0 & _).
  assert (Hlen0 : len cK0 = 33).
  { rewrite HcK0, len_cons, len_be_of_Z. reflexivity. }
  pose proof (serialize_deserialize_xpub _ _ _ _ _ _ _ Hx Hfp Hcn Hc Hlen0 Hxpub) as Hdes.
  (* the private engine *)
  unfold bip32_private_derivation in Hpriv. inv_bind Hpriv.
  apply py_assert_Ok in E1.
  replace (String.eqb branch sequence) with false in Hpriv
    by (symmetry; apply String.eqb_neq; exact Hne).
  rewrite E in Hpriv. cbn [bind] in Hpriv.
  inv_bind Hpriv. rename v0 into st. rename E2 into Hloop.
  inv_bind Hpriv. rename v0 into parent_k. rename E2 into Hparent.
  inv_bind Hpriv. destruct v0 as [pK parent_cK]. rename E2 into Hpk.
  inv_bind Hpriv. rename v0 into h. rename E2 into Hh.
  inv_bind Hpriv. rename v0 into i. rename E2 into Hi.
  inv_bind Hpriv. rename v0 into child_number. rename E2 into Hchild.
  inv_bind Hpriv. destruct v0 as [K' cK']. rename E2 into Hfinal.
  inv_bind Hpriv. rename v0 into xpubv. rename E2 into Hser.
  inv_bind Hpriv. injection Hpriv as _ <-.
  (* the public engine mirrors it *)
  destruct (loops_agree _ Hpath
              (mkPrivState k c depth None None) st (mkPubState cK0 c depth None None))
    as (pst & Hploop & Hpub & Hpc & Hpd & Hpi & Hpp).
  { repeat split; cbn; try reflexivity. exact Hpub0. }
  { exact Hloop. }
  { exists cK'. eapply pub_of_get_pubkeys. exact Hfinal. }
  unfold bip32_public_derivation. rewrite Hdes. cbn [bind].
  rewrite E1. cbn [py_assert bind]. rewrite Hploop. cbn [bind].
  unfold unbound in Hparent, Hi.
  destruct (ps_parent_k st) as [pk|] eqn:Epk; [|discriminate].
  injection Hparent as ->.
  unfold parents_agree in Hpp.
  destruct (pb_parent_cK pst) as [pcK|]; [|contradiction].
  assert (pcK = parent_cK)
    by (eapply pub_of_unique; [exact Hpp | eapply pub_of_get_pubkeys; exact Hpk]).
  subst pcK. cbn [unbound bind]. rewrite Hh. cbn [bind].
  rewrite Hpi. destruct (ps_i st) as [i'|]; [|discriminate].
  injection Hi as ->. cbn [unbound bind]. rewrite Hchild. cbn [bind].
  assert (pb_cK pst = cK')
    by (eapply pub_of_unique; [exact Hpub | eapply pub_of_get_pubkeys; exact Hfinal]).
  rewrite H, Hpc, Hpd. exact Hser.
Qed.

End Agreement.

(** *** The model satisfies the laws *)

Lemma Model_scalar_point (z : Z) : 0 <= z -> Model.scalar_of (Model.point_of z) = z.
Proof.
  intros Hz. unfold Model.point_of. destruct (z =? 0) eqn:E.
  - apply Z.eqb_eq in E. subst z. reflexivity.
  - cbn [Model.scalar_of]. zdiv.
Qed.

Lemma Model_order_pos : 0 < Model.order.
Proof. reflexivity. Qed.

Lemma Model_mul_generator (e : Z) :
  Model.mul (Pt 0 1) e = Model.point_of (e mod Model.order).
Proof.
  unfold Model.mul. cbn [Model.scalar_of]. f_equal. f_equal. lia.
Qed.

Lemma Model_laws : LibraryLaws Model.lib mainnet.
Proof.
  constructor.
  - intros x. cbn [hashlib_sha256 Model.lib]. unfold Model.digest.
    apply len_be_of_Z.
  - cbn [generator_order Model.lib]. vm_compute. discriminate.
  - intros a b. cbn [point_mul point_add generator_secp256k1 generator_order Model.lib].
    pose proof Model_order_pos as Hn.
    rewrite !Model_mul_generator. unfold Model.add.
    rewrite !Model_scalar_point by (apply Z.mod_pos_bound; exact Hn).
    rewrite Z.mod_mod by lia. rewrite <- Zplus_mod. reflexivity.
  - intros k x y. cbn [point_mul generator_secp256k1 curve_secp256k1 Model.lib].
    rewrite Model_mul_generator. unfold Model.point_of.
    destruct (k mod Model.order =? 0); [discriminate|].
    intros H. injection H as <- <-.
    set (z := k mod Model.order).
    unfold recovers, contains_point. cbn [curve_p curve_a curve_b].
    rewrite !Z.mod_1_r. change ((1 + 1) / 4) with 0. cbn [pow_mod].
    rewrite !Z.mod_1_r. cbn [Z.eqb Z.land negb].
    repeat split.
    assert (Hy : z mod 2 = 0 \/ z mod 2 = 1) by zdiv.
    destruct Hy as [-> | ->]; reflexivity.
  - reflexivity.
  - reflexivity.
Qed.

Lemma public_derivation_agrees_witness :
  bip32_public_derivation (L := Model.lib) mainnet
    "xpub661MyMwAqRbcEYS8w7XLSVeEsBXy79zSzH1J8vCdxAZningWLdN3zgtV8VS3qLiufu2UdgzfB4ae6dNEjNyaYFbtE57R6kiCGZYDSYC5E6T"
    "m/" "m/0/1"
  = Ok "xpub69mdgvyDG2wbzdX3Y4Cx5JEtQNvPFW454cWzPAkU5PkyAgo2kvPqEVkC48niK4qPkWMqq4SrLGeCTG62199MRQUV8QYMrjJC24Bm3dgHQfy".
Proof.
  apply (public_derivation_agrees (laws := Model_laws)
           "xprv9s21ZrQH143K24Mfq5zL5MhWK9hUhhGbd45hLXo2Pq2oqzMMo63oSta1HCTYDUEDhtYoKn8cnZyBdE286NdsqHV6M9aiWyqTMjdpCxFBLnK"
           _ "m/" "m/0/1"
           "xprv9vnHHRSKRfPJn9SaS2fwiAJ9rM5tr3LDhPbPanLrX4DzHtTtDP5aghRiCskwsRnjdvZPeyAWrMejwBLgHFRNN9Ca385mX77ND7a3eysMxfh").
  - vm_compute. reflexivity.
  - discriminate.
  - change (Forall (non_hardened (L := Model.lib)) ["0"; "1"]).
    constructor; [|constructor; [|constructor]]; right; (split; [discriminate|]).
    + exists 0. split; [reflexivity | lia].
    + exists 1. split; [reflexivity | lia].
  - vm_compute. reflexivity.
Defined.

(** * Further properties of the module *)

(** ** Lists in chunks *)

Lemma slice_window {A : Type} (l : list A) (a b : Z) :
  0 <= a <= b ->
  slice l (Some a) (Some b) = firstn (Z.to_nat (b - a)) (skipn (Z.to_nat a) l).
Proof.
  intros R. unfold slice, slice_index.
  destruct (a <? 0) eqn:Ea; [apply Z.ltb_lt in Ea; lia|].
  destruct (b <? 0) eqn:Eb; [apply Z.ltb_lt in Eb; lia|].
  unfold len.
  destruct (Z.le_gt_cases (Z.of_nat (List.length l)) a) as [Hge|Hlt].
  - rewrite !skipn_all2 by lia. rewrite !firstn_nil. reflexivity.
  - replace (Z.to_nat (Z.min (Z.of_nat (List.length l)) a)) with (Z.to_nat a) by lia.
    destruct (Z.le_gt_cases b (Z.of_nat (List.length l))) as [Hb|Hb].
    + f_equal. lia.
    + rewrite !firstn_all2; [reflexivity | |]; rewrite length_skipn; lia.
Qed.

Lemma concat_windows {A : Type} (l : list A) (n m : nat) :
  List.concat (map (fun k => firstn n (skipn (n * k) l)) (seq 0 m)) = firstn (m * n) l.
Proof.
  induction m as [|m IH]; [reflexivity|].
  rewrite seq_S, map_app, concat_app, IH. cbn [map List.concat Nat.add].
  rewrite app_nil_r.
  replace (S m * n)%nat with (m * n + n)%nat by lia.
  rewrite (Nat.mul_comm n m). clear IH.
  generalize (m * n)%nat as a. intros a. revert l.
  induction a as [|a IHa]; intros l; [reflexivity|].
  destruct l as [|x l]; [rewrite !firstn_nil; reflexivity|].
  cbn [firstn skipn Nat.add app]. rewrite IHa. reflexivity.
Qed.

(** X1: for a positive chunk size, [chunks] cuts the list into consecutive
    non-empty pieces of at most [n] elements whose concatenation is the
    list. *)
Theorem chunks_concat :
  forall (A : Type) (l : list A) (n : Z),
    0 < n ->
    exists cs, chunks l n = Ok cs
               /\ List.concat cs = l
               /\ Forall (fun c => 0 < len c <= n) cs.
Proof.
  intros A l n Hn. unfold chunks, py_range.
  destruct (n =? 0) eqn:E0; [apply Z.eqb_eq in E0; lia|].
  replace (0 <? n) with true by (symmetry; apply Z.ltb_lt; exact Hn).
  cbn [bind]. rewrite map_map.
  set (m := Z.to_nat ((len l - 0 + n - 1) / n)).
  pose proof (len_nonneg l) as Hl.
  assert (Hq : Z.of_nat m = (len l - 0 + n - 1) / n).
  { unfold m. apply Z2Nat.id. apply Z.div_pos; lia. }
  assert (Hm : (List.length l <= m * Z.to_nat n)%nat).
  { apply Nat2Z.inj_le. rewrite Nat2Z.inj_mul, Hq, Z2Nat.id by lia.
    fold (len l). zdiv. }
  assert (Hm' : forall k, (k < m)%nat -> n * Z.of_nat k < len l).
  { intros k Hk. apply Nat2Z.inj_lt in Hk. rewrite Hq in Hk.
    assert (n * (Z.of_nat k + 1) <= n * ((len l - 0 + n - 1) / n)) by nia.
    assert (n * ((len l - 0 + n - 1) / n) <= len l - 0 + n - 1) by (apply Z.mul_div_le; lia).
    lia. }
  assert (E : map (fun k => slice l (Some (0 + n * Z.of_nat k)) (Some (0 + n * Z.of_nat k + n)))
                  (seq 0 m)
              = map (fun k => firstn (Z.to_nat n) (skipn (Z.to_nat n * k) l)) (seq 0 m)).
  { apply map_ext. intros k. rewrite slice_window by lia. f_equal; [lia|]. f_equal. lia. }
  eexists. split; [reflexivity|]. rewrite E. split.
  - rewrite concat_windows. apply firstn_all2. exact Hm.
  - apply Forall_forall. intros c Hc. apply in_map_iff in Hc as (k & <- & Hk).
    apply in_seq in Hk. specialize (Hm' k ltac:(lia)).
    unfold len in *. rewrite length_firstn, length_skipn. lia.
Qed.

Lemma chunks_concat_witness :
  exists cs, chunks [1; 2; 3; 4; 5] 2 = Ok cs
             /\ List.concat cs = [1; 2; 3; 4; 5]
             /\ Forall (fun c => 0 < len c <= 2) cs.
Proof. apply chunks_concat. lia. Defined.

(** ** Integers as little-endian hexadecimal text *)

Lemma int_to_hex_le (i length : Z) :
  0 < length -> 0 <= i < 256 ^ length ->
  int_to_hex i length = Ok (bh2u (rev (be_of_Z (Z.to_nat length) i))).
Proof.
  intros Hl R. unfold int_to_hex.
  rewrite hex_from_2, rstrip_L_id by (try apply hex_digits_no_L; lia).
  replace (Z.to_nat (2 * length - Z.of_nat (String.length (hex_digits i))))
    with (2 * Z.to_nat length - String.length (hex_digits i))%nat by lia.
  assert (F : (zeros (2 * Z.to_nat length - String.length (hex_digits i))
               ++ hex_digits i)%string
              = fmt_0x (2 * Z.to_nat length) i).
  { unfold fmt_0x. destruct (i <? 0) eqn:E; [apply Z.ltb_lt in E; lia | reflexivity]. }
  rewrite F. unfold rev_hex.
  rewrite bfh_fmt_0x by (try lia; rewrite Z2Nat.id by lia; exact R).
  reflexivity.
Qed.

Lemma of_pos_nonempty (p : positive) : exists c t, Raw.of_pos p "" = String c t.
Proof.
  destruct (Raw.of_pos p "") as [|c t] eqn:E; [|eauto].
  pose proof (Raw.to_N_of_pos p "" 0) as H. rewrite E in H. discriminate.
Qed.

Lemma no_L_cons (c : ascii) (s : string) :
  Ascii.eqb c "L" = false -> no_L s -> no_L (String c s).
Proof. intros Hc Hs x [<-|Hx]; [exact Hc | apply Hs; exact Hx]. Qed.

Lemma int_to_hex_negative (i : Z) : i < 0 -> int_to_hex i 1 = Err ValueError.
Proof.
  intros Hi. destruct i as [|p|p]; try lia.
  unfold int_to_hex, hex, of_Z, of_pos. rewrite str_from_2.
  rewrite rstrip_L_id
    by (apply no_L_cons; [reflexivity | apply (hex_digits_no_L (Z.pos p)); lia]).
  destruct (of_pos_nonempty p) as (c & t & ->).
  cbn [String.length].
  replace (Z.to_nat (2 * 1 - Z.of_nat (S (S (String.length t))))) with O by lia.
  reflexivity.
Qed.

Lemma bfh_cons_bh2u (hi lo : ascii) (b : byte) (x : bytes) :
  bfh (String hi (String lo "")) = Ok [b] ->
  bfh (String hi (String lo (bh2u x))) = Ok (b :: x).
Proof.
  intros H. change (String hi (String lo (bh2u x)))
    with (String hi (String lo "") ++ bh2u x)%string.
  rewrite (bfh_app _ _ _ H), bfh_bh2u. reflexivity.
Qed.

(** X2: [var_int] writes a non-negative integer below [2^64] as the
    hexadecimal text of one byte, or of a marker byte [fd], [fe], [ff]
    followed by the integer in 2, 4, 8 bytes, least significant first; on a
    negative integer it raises [ValueError]. *)
Theorem var_int_layout :
  forall i : Z,
    (0 <= i < 2 ^ 64 ->
     exists s, var_int i = Ok s
               /\ bfh s = Ok (if i <? 253 then rev (be_of_Z 1 i)
                              else if i <=? 65535 then xfd :: rev (be_of_Z 2 i)
                              else if i <=? 4294967295 then xfe :: rev (be_of_Z 4 i)
                              else xff :: rev (be_of_Z 8 i)))
    /\ (i < 0 -> var_int i = Err ValueError).
Proof.
  intros i. split.
  - intros R. unfold var_int.
    destruct (i <? 253) eqn:E1.
    { apply Z.ltb_lt in E1.
      rewrite (int_to_hex_le i 1) by (try lia; change (256 ^ 1) with (2 ^ (8 * 1)); lia).
      eexists. split; [reflexivity | apply bfh_bh2u]. }
    apply Z.ltb_ge in E1.
    destruct (i <=? 65535) eqn:E2.
    { apply Z.leb_le in E2.
      rewrite (int_to_hex_le i 2) by (try lia; change (256 ^ 2) with (2 ^ (8 * 2)); lia).
      eexists. split; [reflexivity | apply bfh_cons_bh2u; reflexivity]. }
    apply Z.leb_gt in E2.
    destruct (i <=? 4294967295) eqn:E3.
    { apply Z.leb_le in E3.
      rewrite (int_to_hex_le i 4)
        by (try lia; change (256 ^ 4) with (2 ^ (8 * 4)); lia).
      eexists. split; [reflexivity | apply bfh_cons_bh2u; reflexivity]. }
    apply Z.leb_gt in E3.
    rewrite (int_to_hex_le i 8)
      by (try lia; change (256 ^ 8) with (2 ^ (8 * 8)); lia).
    eexists. split; [reflexivity | apply bfh_cons_bh2u; reflexivity].
  - intros Hi. unfold var_int.
    replace (i <? 253) with true by (symmetry; apply Z.ltb_lt; lia).
    apply int_to_hex_negative. exact Hi.
Qed.

Lemma var_int_layout_witness :
  (exists s, var_int 70000 = Ok s /\ bfh s = Ok (xfe :: rev (be_of_Z 4 70000)))
  /\ var_int (-1) = Err ValueError.
Proof.
  destruct (var_int_layout 70000) as [H _].
  destruct (var_int_layout (-1)) as [_ H'].
  split; [apply H; lia | apply H'; lia].
Defined.

(** X3: [op_push] writes a non-negative length below [2^32] as the
    hexadecimal text of a script push: the length itself below [0x4c],
    else the opcode [4c], [4d] or [4e] followed by the length in 1, 2 or 4
    bytes, least significant first; the one-byte form ends at [0xfe] and
    the two-byte form at [0xfffe]. *)
Theorem op_push_layout :
  forall i : Z,
    0 <= i < 2 ^ 32 ->
    exists s, op_push i = Ok s
              /\ bfh s = Ok (if i <? 76 then rev (be_of_Z 1 i)
                             else if i <? 255 then x4c :: rev (be_of_Z 1 i)
                             else if i <? 65535 then x4d :: rev (be_of_Z 2 i)
                             else x4e :: rev (be_of_Z 4 i)).
Proof.
  intros i R. unfold op_push.
  destruct (i <? 76) eqn:E1.
  { apply Z.ltb_lt in E1.
    rewrite (int_to_hex_le i 1) by (try lia; change (256 ^ 1) with (2 ^ (8 * 1)); lia).
    eexists. split; [reflexivity | apply bfh_bh2u]. }
  apply Z.ltb_ge in E1.
  destruct (i <? 255) eqn:E2.
  { apply Z.ltb_lt in E2.
    rewrite (int_to_hex_le i 1) by (try lia; change (256 ^ 1) with (2 ^ (8 * 1)); lia).
    eexists. split; [reflexivity | apply bfh_cons_bh2u; reflexivity]. }
  apply Z.ltb_ge in E2.
  destruct (i <? 65535) eqn:E3.
  { apply Z.ltb_lt in E3.
    rewrite (int_to_hex_le i 2) by (try lia; change (256 ^ 2) with (2 ^ (8 * 2)); lia).
    eexists. split; [reflexivity | apply bfh_cons_bh2u; reflexivity]. }
  apply Z.ltb_ge in E3.
  rewrite (int_to_hex_le i 4)
    by (try lia; change (256 ^ 4) with (2 ^ (8 * 4)); lia).
  eexists. split; [reflexivity | apply bfh_cons_bh2u; reflexivity].
Qed.

Lemma op_push_layout_witness :
  exists s, op_push 255 = Ok s /\ bfh s = Ok (x4d :: rev (be_of_Z 2 255)).
Proof. apply (op_push_layout 255). lia. Defined.

(** X4: [hash_decode] inverts [hash_encode] on every buffer, and the text
    of [hash_encode] is the byte-reversed text of [bh2u]. *)
Theorem hash_decode_encode :
  forall x : bytes,
    hash_decode (hash_encode x) = Ok x
    /\ rev_hex (hash_encode x) = Ok (bh2u x).
Proof.
  intros x. unfold hash_decode, hash_encode, rev_hex.
  rewrite bfh_bh2u. cbn [bind]. rewrite rev_involutive. split; reflexivity.
Qed.

(** ** Base58Check, wallet import format and addresses *)

Lemma nonzero_value (v : bytes) : (exists b, In b v /\ b <> x00) -> be_to_Z v <> 0.
Proof.
  intros (b & Hin & Hb) H0. apply zero_value_all_zero in H0.
  rewrite H0 in Hin. apply repeat_spec in Hin. congruence.
Qed.

Lemma nonzero_app (v w : bytes) : be_to_Z v <> 0 -> be_to_Z (v ++ w) <> 0.
Proof.
  intros Hv. rewrite be_to_Z_app.
  pose proof (be_to_Z_range v). pose proof (be_to_Z_range w).
  pose proof (Z.pow_pos_nonneg 256 (len w) ltac:(lia) (len_nonneg w)). nia.
Qed.

Lemma nonzero_cons (b : byte) (v : bytes) : byte_to_Z b <> 0 -> be_to_Z (b :: v) <> 0.
Proof.
  intros Hb. apply nonzero_value. exists b. split; [left; reflexivity|].
  intros ->. apply Hb. reflexivity.
Qed.

Lemma chr_in (base d : Z) :
  base = 58 \/ base = 43 -> 0 <= d < base ->
  In (chr (chars_of_base base) d) (chars_of_base base).
Proof.
  intros Hb Hd. destruct (alphabet_facts base d Hb Hd) as (H & _).
  unfold getitem in H. destruct (d <? 0); [discriminate|].
  destruct (nth_error (chars_of_base base) (Z.to_nat d)) as [a|] eqn:E; [|discriminate].
  injection H as <-. eapply nth_error_In. exact E.
Qed.

Lemma encoded_alphabet (v : bytes) (base : Z) :
  base = 58 \/ base = 43 ->
  Forall (fun b => In b (chars_of_base base)) (encoded v base).
Proof.
  intros Hb. unfold encoded. apply Forall_rev. apply Forall_app. split.
  - apply Forall_forall. intros b Hin. apply in_map_iff in Hin as (d & <- & Hd).
    pose proof (encoded_digits_range v base Hb) as R.
    rewrite Forall_forall in R. apply chr_in; [exact Hb | apply R; exact Hd].
  - apply Forall_forall. intros b Hin. apply repeat_spec in Hin. subst b.
    apply chr_in; [exact Hb | destruct Hb as [-> | ->]; lia].
Qed.

Lemma encoded_nonempty (v : bytes) (base : Z) : encoded v base <> [].
Proof.
  unfold encoded. intros H. apply (f_equal (@rev byte)) in H.
  rewrite rev_involutive in H. cbn [rev] in H.
  apply app_eq_nil in H as [H _]. apply map_eq_nil in H.
  exact (le_digits_nonempty _ _ _ H).
Qed.

(** X5: in base 58 and in base 43, [base_encode] of a buffer returns a
    non-empty text made of characters of the alphabet of the base. *)
Theorem base_encode_alphabet :
  forall (v : bytes) (base : Z),
    base = 58 \/ base = 43 ->
    exists s, base_encode (PyBytes v) base = Ok s
              /\ s <> ""
              /\ Forall (fun b => In b (chars_of_base base)) (list_byte_of_string s).
Proof.
  intros v base Hb. exists (string_of_list_byte (encoded v base)).
  split; [apply base_encode_Ok; exact Hb|]. split.
  - intros H. apply (f_equal list_byte_of_string) in H.
    rewrite list_byte_of_string_of_list_byte in H. exact (encoded_nonempty _ _ H).
  - rewrite list_byte_of_string_of_list_byte. apply encoded_alphabet. exact Hb.
Qed.

Lemma base_encode_alphabet_witness :
  exists s, base_encode (PyBytes [x00; x2a]) 43 = Ok s
            /\ s <> ""
            /\ Forall (fun b => In b (chars_of_base 43)) (list_byte_of_string s).
Proof. apply base_encode_alphabet. right. reflexivity. Defined.

(** X6: decoding inverts encoding on every buffer that holds a non-zero
    byte, in both bases, with no expected length or with the length of the
    buffer. *)
Theorem base_decode_encode :
  forall (v : bytes) (base : Z) (length : option Z),
    base = 58 \/ base = 43 ->
    (exists b, In b v /\ b <> x00) ->
    length = None \/ length = Some (len v) ->
    exists s, base_encode (PyBytes v) base = Ok s
              /\ base_decode (PyStr s) length base = Ok (Some v).
Proof.
  intros v base length Hb Hnz Hl.
  apply base_roundtrip_nonzero; [exact Hb | apply nonzero_value; exact Hnz | exact Hl].
Qed.

Lemma base_decode_encode_witness :
  exists s, base_encode (PyBytes [x00; x00; x07; x00]) 58 = Ok s
            /\ base_decode (PyStr s) (Some 4) 58 = Ok (Some [x00; x00; x07; x00]).
Proof.
  apply base_decode_encode.
  - left. reflexivity.
  - exists x07. split; [simpl; tauto | discriminate].
  - right. reflexivity.
Defined.

Lemma base_decode_bytes (s : string) (w : bytes) (length : option Z) (base : Z) :
  encode_ascii s = Ok w ->
  base_decode (PyBytes w) length base = base_decode (PyStr s) length base.
Proof. intros H. unfold base_decode. cbn [to_bytes]. rewrite H. reflexivity. Qed.

Lemma base_decode_length (v : pyobj) (n base : Z) (b : bytes) :
  base_decode v (Some n) base = Ok (Some b) -> len b = n.
Proof.
  unfold base_decode. intros H. inv_bind H. inv_bind H. inv_bind H.
  destruct v2 as [buf lv]. inv_bind H. inv_bind H.
  match type of H with
  | (if negb (?c) then _ else _) = _ => destruct c eqn:Ec; cbn [negb] in H; [|discriminate]
  end.
  injection H as <-. apply Z.eqb_eq in Ec. unfold len in *.
  rewrite length_rev. exact Ec.
Qed.

Section Codec.

Context {L : Library}.
Variable net : Network.
Hypothesis sha256_len : forall x, len (hashlib_sha256 x) = 32.

Lemma len_checksum (x : bytes) :
  len (slice (hashlib_sha256 (hashlib_sha256 x)) (Some 0) (Some 4)) = 4.
Proof. rewrite len_slice by (rewrite ?sha256_len; lia). lia. Qed.

Lemma Base58Check_inverse (v : bytes) :
  be_to_Z (v ++ slice (hashlib_sha256 (hashlib_sha256 v)) (Some 0) (Some 4)) <> 0 ->
  exists s,
    EncodeBase58Check v = Ok s
    /\ base_encode (PyBytes (v ++ slice (hashlib_sha256 (hashlib_sha256 v)) (Some 0) (Some 4)))
                   58 = Ok s
    /\ DecodeBase58Check (PyStr s) = Ok (Some v).
Proof.
  intros Hnz.
  set (cs := slice (hashlib_sha256 (hashlib_sha256 v)) (Some 0) (Some 4)) in *.
  pose proof (len_checksum v) as Hcs. fold cs in Hcs.
  destruct (base_roundtrip_nonzero (v ++ cs) 58 None (or_introl eq_refl) Hnz
              (or_introl eq_refl)) as (s & Henc & Hdec).
  exists s. unfold EncodeBase58Check, DecodeBase58Check.
  rewrite Hash_bytes. cbn [bind]. fold cs. rewrite Henc, Hdec. cbn [bind].
  pose proof (slice_drop_last v cs 4 Hcs ltac:(lia)) as Hkey.
  pose proof (slice_take_last v cs 4 Hcs ltac:(lia)) as Hsum.
  cbn [Z.opp] in Hkey, Hsum. rewrite Hkey, Hsum, Hash_bytes. cbn [bind]. fold cs.
  replace (bytes_eqb cs cs) with true by (symmetry; apply bytes_eqb_eq; reflexivity).
  repeat split.
Qed.

(** X7: if SHA-256 digests have 32 bytes, [DecodeBase58Check] returns the
    payload that [EncodeBase58Check] encoded, for every payload that holds
    a non-zero byte. *)
Theorem Base58Check_roundtrip :
  forall v : bytes,
    (exists b, In b v /\ b <> x00) ->
    exists s, EncodeBase58Check v = Ok s
              /\ DecodeBase58Check (PyStr s) = Ok (Some v).
Proof.
  intros v Hnz.
  destruct (Base58Check_inverse v) as (s & H1 & _ & H2).
  - apply nonzero_app. apply nonzero_value. exact Hnz.
  - exists s. split; assumption.
Qed.

Lemma version_byte (addrtype : Z) :
  exists b, bytes1 (Z.land (addrtype + 128) 255) = Ok [b]
            /\ byte_to_Z b = Z.land (addrtype + 128) 255.
Proof.
  assert (R : 0 <= Z.land (addrtype + 128) 255 < 256).
  { change 255 with (Z.ones 8). rewrite Z.land_ones by lia.
    change (2 ^ 8) with 256. apply Z.mod_pos_bound. lia. }
  destruct (byte_of_Z_in_range _ R) as (b & Hb).
  exists b. unfold bytes1. rewrite Hb. split; [reflexivity|].
  apply byte_of_Z_Some. exact Hb.
Qed.

Lemma wif_decode (secret : bytes) (compressed : bool) :
  Z.land (ADDRTYPE_P2PKH net + 128) 255 <> 0 ->
  exists s,
    SecretToASecret net secret compressed = Ok s
    /\ ASecretToSecret net (PyStr s)
       = Ok (Some (secret ++ if compressed then [x01] else [])).
Proof.
  intros Hv. destruct (version_byte (ADDRTYPE_P2PKH net)) as (b & Hb1 & Hb2).
  set (payload := b :: secret ++ if compressed then [x01] else []).
  destruct (Base58Check_inverse payload) as (s & Henc & _ & Hdec).
  { apply nonzero_app. apply nonzero_cons. lia. }
  exists s. unfold SecretToASecret, ASecretToSecret. rewrite Hb1. cbn [bind].
  assert (E : (if compressed then ([b] ++ secret) ++ [x01] else [b] ++ secret) = payload).
  { unfold payload. destruct compressed; cbn [app]; [|rewrite app_nil_r]; reflexivity. }
  rewrite E. split; [exact Henc|]. rewrite Hdec. cbn [bind]. unfold payload.
  rewrite Hb2, Z.eqb_refl. rewrite slice_tail. reflexivity.
Qed.

(** X8: if SHA-256 digests have 32 bytes and the version byte of the
    network is not zero, [ASecretToSecret] returns the secret that
    [SecretToASecret] encoded, followed by the byte 1 when the key was
    marked compressed; the text is a private key for [is_private_key], and
    [is_compressed] tells whether the decoded buffer has 33 bytes. *)
Theorem wif_roundtrip :
  forall (secret : bytes) (compressed : bool),
    Z.land (ADDRTYPE_P2PKH net + 128) 255 <> 0 ->
    exists s,
      SecretToASecret net secret compressed = Ok s
      /\ ASecretToSecret net (PyStr s)
         = Ok (Some (secret ++ if compressed then [x01] else []))
      /\ is_private_key net (PyStr s) = true
      /\ is_compressed net (PyStr s)
         = Ok (len secret + (if compressed then 1 else 0) =? 33).
Proof.
  intros secret compressed Hv.
  destruct (wif_decode secret compressed Hv) as (s & H1 & H2).
  exists s. split; [exact H1|]. split; [exact H2|].
  unfold is_private_key, is_compressed. rewrite H2. cbn [bind].
  split; [reflexivity|]. rewrite len_app. destruct compressed; reflexivity.
Qed.

(** X9: for a secret of 32 bytes that makes a key, the address of its
    wallet-import text is the P2PKH address of its public key, compressed
    exactly when the text was marked so. *)
Theorem address_from_private_key_spec :
  forall (k : bytes) (compressed : bool) (key : EC_KEY),
    Z.land (ADDRTYPE_P2PKH net + 128) 255 <> 0 ->
    len k = 32 ->
    EC_KEY_init k = Ok key ->
    exists s,
      SecretToASecret net k compressed = Ok s
      /\ address_from_private_key net (PyStr s)
         = (pk <- GetPubKey (pubkey key) compressed ;;
            public_key_to_p2pkh net (PyBytes pk)).
Proof.
  intros k compressed key Hv Hk Hkey.
  destruct (wif_decode k compressed Hv) as (s & H1 & H2).
  exists s. split; [exact H1|].
  unfold address_from_private_key, public_key_from_private_key, regenerate_key,
    is_compressed.
  rewrite H2. cbn [bind].
  destruct (k ++ if compressed then [x01] else []) as [|b0 rest] eqn:E.
  { apply (f_equal (@len byte)) in E. rewrite len_app, Hk in E.
    destruct compressed; discriminate. }
  rewrite <- E. rewrite (slice_upto_at k _ 32 Hk), Hkey. cbn [bind].
  rewrite len_app, Hk.
  replace (32 + len (if compressed then [x01] else []) =? 33) with compressed
    by (destruct compressed; reflexivity).
  destruct (GetPubKey (pubkey key) compressed) as [pk|e]; [|reflexivity].
  cbn [bind]. rewrite bfh_bh2u. reflexivity.
Qed.

End Codec.

(** ** Addresses *)

Lemma ordinary_is_Exception (e : exn) : ordinary e -> is_Exception e = true.
Proof. destruct e; simpl; intros H; [reflexivity | contradiction | reflexivity ..]. Qed.

Section Addresses.

Context {L : Library}.
Variable net : Network.

Ltac errs :=
  auto with errs;
  repeat (errs_step; auto with errs);
  try (simpl; first [exact I | discriminate]).

Hint Resolve getitem_errs py_assert_errs to_bytes_errs bytearray_append_errs
  bytes1_errs Hash_errs base_encode_errs : errs.

Lemma base_decode_errs (v : pyobj) (length : option Z) (base : Z) :
  errs_in ordinary (base_decode v length base).
Proof.
  unfold base_decode. errs.
  apply divmod_loop_errs. intros d. errs.
Qed.

Hint Resolve base_decode_errs : errs.

Lemma bc_address_to_hash_160_errs (addr : pyobj) :
  errs_in ordinary (bc_address_to_hash_160 addr).
Proof. unfold bc_address_to_hash_160. errs. Qed.

Lemma hash_160_to_bc_address_Ok (h160 : bytes) (b : byte) :
  exists s, hash_160_to_bc_address net h160 (byte_to_Z b) 1 = Ok s.
Proof.
  unfold hash_160_to_bc_address, bytes1. rewrite byte_of_to_Z. cbn [bind].
  destruct (byte_to_Z b =? ADDRTYPE_P2WPKH net);
    [replace (byte_of_Z 1) with (Some x01) by reflexivity |];
    cbn [bind]; rewrite Hash_bytes; cbn [bind];
    rewrite base_encode_Ok by (left; reflexivity); eexists; reflexivity.
Qed.

Lemma bc_address_to_hash_160_Ok (addr : pyobj) (addrtype : Z) (h : bytes) :
  bc_address_to_hash_160 addr = Ok (addrtype, h) ->
  len h = 20 /\ exists b : byte, addrtype = byte_to_Z b.
Proof.
  unfold bc_address_to_hash_160. intros H. inv_bind H. inv_bind H.
  destruct v0 as [bs|]; [|discriminate]. inv_bind H. injection H as <- <-.
  apply base_decode_length in E0. split.
  - rewrite len_slice by lia. reflexivity.
  - eexists. reflexivity.
Qed.

(** X10: [is_address] returns a boolean on every object: whatever the
    decoding raises is turned into [False], and re-encoding cannot fail. *)
Theorem is_address_total :
  forall addr : pyobj, exists b, is_address net addr = Ok b.
Proof.
  intros addr. unfold is_address.
  destruct (bc_address_to_hash_160 addr) as [[addrtype h]|e] eqn:E.
  - destruct (bc_address_to_hash_160_Ok _ _ _ E) as (_ & b & ->).
    destruct (negb _); [eexists; reflexivity|].
    destruct (hash_160_to_bc_address_Ok h b) as (s & ->). eexists. reflexivity.
  - apply bc_address_to_hash_160_errs in E. rewrite (ordinary_is_Exception e E).
    eexists. reflexivity.
Qed.

(** X11: a text that [is_address] accepts is the canonical address of a
    hash of 20 bytes under the P2PKH or P2SH version of the network: it is
    the very text [hash_160_to_bc_address] writes, so its checksum is right
    and each of its characters belongs to the base-58 alphabet. *)
Theorem is_address_sound :
  forall addr : pyobj,
    is_address net addr = Ok true ->
    exists (s : string) (h : bytes) (addrtype : Z),
      addr = PyStr s
      /\ (addrtype = ADDRTYPE_P2PKH net \/ addrtype = ADDRTYPE_P2SH net)
      /\ len h = 20
      /\ bc_address_to_hash_160 addr = Ok (addrtype, h)
      /\ hash_160_to_bc_address net h addrtype 1 = Ok s
      /\ Forall (fun b => In b __b58chars) (list_byte_of_string s).
Proof.
  intros addr H. unfold is_address in H.
  destruct (bc_address_to_hash_160 addr) as [[addrtype h]|e] eqn:E;
    [|destruct (is_Exception e); discriminate].
  destruct ((addrtype =? ADDRTYPE_P2PKH net) || (addrtype =? ADDRTYPE_P2SH net)) eqn:Et;
    cbn [negb] in H; [|discriminate].
  inv_bind H. rename v into s. injection H as Heq.
  exists s, h, addrtype.
  assert (Haddr : addr = PyStr s).
  { destruct addr; cbn [py_eqb] in Heq; try discriminate.
    apply String.eqb_eq in Heq. congruence. }
  split; [exact Haddr|]. split.
  { apply orb_true_iff in Et as [Et|Et]; apply Z.eqb_eq in Et; auto. }
  split; [apply (bc_address_to_hash_160_Ok _ _ _ E)|].
  split; [reflexivity|]. split; [exact E0|].
  unfold hash_160_to_bc_address in E0. inv_bind E0. inv_bind E0. inv_bind E0.
  rewrite base_encode_Ok in E0 by (left; reflexivity). injection E0 as <-.
  rewrite list_byte_of_string_of_list_byte.
  apply (encoded_alphabet _ 58). left. reflexivity.
Qed.

Hypothesis sha256_len : forall x, len (hashlib_sha256 x) = 32.

Lemma address_decode (h160 : bytes) (addrtype : Z) (s : string) :
  len h160 = 20 ->
  addrtype <> ADDRTYPE_P2WPKH net ->
  addrtype <> 0 \/ be_to_Z h160 <> 0 ->
  hash_160_to_bc_address net h160 addrtype 1 = Ok s ->
  bc_address_to_hash_160 (PyStr s) = Ok (addrtype, h160).
Proof.
  intros Hh Hw Hnz Hs. unfold hash_160_to_bc_address in Hs. inv_bind Hs.
  apply bytes1_Ok in E as (b & -> & Hb).
  replace (addrtype =? ADDRTYPE_P2WPKH net) with false in Hs
    by (symmetry; apply Z.eqb_neq; exact Hw).
  cbn [bind] in Hs. rewrite Hash_bytes in Hs. cbn [bind] in Hs.
  set (payload := [b] ++ h160) in *.
  set (cs := slice (hashlib_sha256 (hashlib_sha256 payload)) (Some 0) (Some 4)) in *.
  assert (Hcs : len cs = 4) by (apply len_checksum; exact sha256_len).
  assert (Hlen : len (payload ++ cs) = 25).
  { unfold payload. rewrite !len_app, Hh, Hcs. reflexivity. }
  assert (Hval : be_to_Z (payload ++ cs) <> 0).
  { apply nonzero_app. unfold payload. cbn [app]. destruct Hnz as [Hnz|Hnz].
    - apply nonzero_cons. lia.
    - rewrite be_to_Z_cons. pose proof (byte_to_Z_range b).
      pose proof (be_to_Z_range h160).
      pose proof (Z.pow_pos_nonneg 256 (len h160) ltac:(lia) (len_nonneg h160)). nia. }
  destruct (base_roundtrip_nonzero (payload ++ cs) 58 (Some 25) (or_introl eq_refl) Hval)
    as (s' & Henc & Hdec).
  { right. rewrite Hlen. reflexivity. }
  assert (s' = s) by congruence. subst s'.
  rewrite base_encode_Ok in Henc by (left; reflexivity). injection Henc as Henc.
  unfold bc_address_to_hash_160. cbn [to_bytes].
  assert (Hasc : encode_ascii s = Ok (encoded (payload ++ cs) 58)).
  { rewrite <- Henc. apply encode_ascii_Ok. apply encoded_ascii. left. reflexivity. }
  rewrite Hasc. cbn [bind]. rewrite (base_decode_bytes s _ _ _ Hasc), Hdec. cbn [bind].
  unfold payload. rewrite <- app_assoc. cbn [app getitem Z.ltb Z.compare Z.to_nat nth_error bind].
  rewrite Hb. f_equal. f_equal.
  change (b :: h160 ++ cs) with ([b] ++ h160 ++ cs).
  apply slice_mid_at; [reflexivity | rewrite Hh; reflexivity].
Qed.

(** X12: if SHA-256 digests have 32 bytes, the address that
    [hash_160_to_bc_address] writes for a hash of 20 bytes under the P2PKH
    or P2SH version is accepted by [is_address], and
    [bc_address_to_hash_160] gives back the version and the hash, provided
    the version or the hash is not zero and the version is not the
    witness one. *)
Theorem is_address_complete :
  forall (h160 : bytes) (addrtype : Z) (s : string),
    len h160 = 20 ->
    addrtype = ADDRTYPE_P2PKH net \/ addrtype = ADDRTYPE_P2SH net ->
    addrtype <> ADDRTYPE_P2WPKH net ->
    addrtype <> 0 \/ be_to_Z h160 <> 0 ->
    hash_160_to_bc_address net h160 addrtype 1 = Ok s ->
    bc_address_to_hash_160 (PyStr s) = Ok (addrtype, h160)
    /\ is_address net (PyStr s) = Ok true.
Proof.
  intros h160 addrtype s Hh Ht Hw Hnz Hs.
  pose proof (address_decode h160 addrtype s Hh Hw Hnz Hs) as Hdec.
  split; [exact Hdec|]. unfold is_address. rewrite Hdec.
  replace ((addrtype =? ADDRTYPE_P2PKH net) || (addrtype =? ADDRTYPE_P2SH net)) with true
    by (symmetry; apply orb_true_iff; destruct Ht as [-> | ->];
        rewrite Z.eqb_refl; auto).
  cbn [negb]. rewrite Hs. cbn [bind py_eqb]. rewrite String.eqb_refl. reflexivity.
Qed.

End Addresses.

(** ** Serialized points and secrets *)

Lemma land_1 (y : Z) : Z.land y 1 = 0 \/ Z.land y 1 = 1.
Proof.
  assert (E : Z.land y 1 = y mod 2 ^ 1) by (apply (Z.land_ones y 1); lia).
  rewrite E. change (2 ^ 1) with 2. zdiv.
Qed.

Lemma point_to_ser_i2o (Q : Point) (comp : bool) :
  point_to_ser Q comp = GetPubKey (mkPublic_key Q) comp.
Proof.
  unfold point_to_ser, GetPubKey, i2o_ECPublicKey. cbn [point].
  destruct Q as [|x y]; [destruct comp; reflexivity|].
  destruct comp; cbn [point_x point_y bind]; [|reflexivity].
  destruct (land_1 y) as [-> | ->]; reflexivity.
Qed.

(** X13: the two serializers of the module agree: [point_to_ser] and
    [GetPubKey] return the same bytes, or raise the same exception, for
    every point and either form; [get_public_key] is the hexadecimal text
    of these bytes. *)
Theorem point_to_ser_GetPubKey :
  forall (self : EC_KEY) (P : Point) (comp : bool),
    point_to_ser P comp = GetPubKey (mkPublic_key P) comp
    /\ get_public_key self comp
       = (b <- GetPubKey (pubkey self) comp ;; Ok (bh2u b)).
Proof.
  intros self P comp. split; [apply point_to_ser_i2o|].
  unfold get_public_key. rewrite point_to_ser_i2o. destruct (pubkey self). reflexivity.
Qed.

Section Points.

Context {L : Library}.

Lemma point_to_ser_uncompressed (x y : Z) :
  0 <= x < 2 ^ 256 -> 0 <= y < 2 ^ 256 ->
  point_to_ser (Pt x y) false = Ok (x04 :: be_of_Z 32 x ++ be_of_Z 32 y).
Proof.
  intros Rx Ry. unfold point_to_ser. cbn [point_x point_y bind].
  change ("04" ++ fmt_0x 64 x ++ fmt_0x 64 y)%string
    with (String "0" (String "4" (fmt_0x 64 x ++ fmt_0x 64 y)))%string.
  apply bfh_prefixed with (h := 0%N) (l := 4%N); try reflexivity.
  rewrite (bfh_app _ _ (be_of_Z 32 x)) by (apply (bfh_fmt_0x 32); [lia | exact Rx]).
  rewrite (bfh_fmt_0x 32) by (try lia; exact Ry). reflexivity.
Qed.

Lemma ser_to_point_uncompressed (x y : Z) :
  0 <= x < 2 ^ 256 -> 0 <= y < 2 ^ 256 ->
  contains_point curve_secp256k1 x y = true ->
  point_mul (Pt x y) generator_order = INFINITY ->
  ser_to_point (x04 :: be_of_Z 32 x ++ be_of_Z 32 y) = Ok (Pt x y).
Proof.
  intros Rx Ry Hc Ho. unfold ser_to_point.
  cbn [getitem Z.ltb Z.compare Z.to_nat nth_error bind].
  change (byte_to_Z x04) with 4. cbn [Z.eqb Pos.eqb orb py_assert bind].
  change (x04 :: be_of_Z 32 x ++ be_of_Z 32 y)
    with ([x04] ++ be_of_Z 32 x ++ be_of_Z 32 y).
  rewrite (slice_mid_at [x04] (be_of_Z 32 x) (be_of_Z 32 y) 1 33)
    by (try reflexivity; rewrite len_be_of_Z; reflexivity).
  rewrite app_assoc.
  rewrite (slice_from_at ([x04] ++ be_of_Z 32 x) (be_of_Z 32 y) 33)
    by (rewrite len_app, len_be_of_Z; reflexivity).
  rewrite !string_to_number_be_of_Z by (try lia; assumption). cbn [bind].
  unfold Point_init. rewrite Hc. cbn [py_assert bind].
  destruct (generator_order =? 0); [reflexivity|].
  rewrite Ho. reflexivity.
Qed.

(** X14: [ser_to_point] inverts [point_to_ser] on every point of the curve
    that the order annihilates and whose coordinates fit 32 bytes: in the
    uncompressed form of 65 bytes always, and in the compressed form of 33
    bytes when the square root of [ECC_YfromX] recovers the ordinate. *)
Theorem ser_to_point_inverse :
  forall (x y : Z) (comp : bool),
    0 <= x < 2 ^ 256 -> 0 <= y < 2 ^ 256 ->
    contains_point curve_secp256k1 x y = true ->
    generator_order <> 0 ->
    point_mul (Pt x y) generator_order = INFINITY ->
    (comp = true -> recovers curve_secp256k1 x y) ->
    exists ser,
      point_to_ser (Pt x y) comp = Ok ser
      /\ len ser = (if comp then 33 else 65)
      /\ ser_to_point ser = Ok (Pt x y).
Proof.
  intros x y comp Rx Ry Hc Hn Ho Hrec. destruct comp.
  - exists (prefix_of y :: be_of_Z 32 x).
    rewrite point_to_ser_i2o.
    unfold GetPubKey. rewrite i2o_compressed by exact Rx.
    split; [reflexivity|]. split; [rewrite len_cons, len_be_of_Z; reflexivity|].
    apply ser_to_point_compressed; auto.
  - exists (x04 :: be_of_Z 32 x ++ be_of_Z 32 y).
    split; [apply point_to_ser_uncompressed; assumption|].
    split; [rewrite len_cons, len_app, !len_be_of_Z; reflexivity|].
    apply ser_to_point_uncompressed; assumption.
Qed.

(** X15: [GetSecret] returns the 32 bytes an [EC_KEY] was made from. *)
Theorem GetSecret_EC_KEY :
  forall (k : bytes) (key : EC_KEY),
    len k = 32 ->
    EC_KEY_init k = Ok key ->
    GetSecret key = Ok k.
Proof.
  intros k key Hk H. unfold EC_KEY_init in H. inv_bind H. inv_bind H.
  injection H as <-. apply string_to_number_Ok in E as [-> _].
  unfold GetSecret. cbn [secret].
  pose proof (be_to_Z_range k) as R. rewrite Hk in R.
  rewrite (bfh_fmt_0x 32) by (try lia; exact R).
  replace 32%nat with (List.length k) by (unfold len in Hk; lia).
  rewrite be_of_to_Z. reflexivity.
Qed.

End Points.

(** ** Extended keys as text *)

Section ExtendedKeys.

Context {L : Library}.
Variable net : Network.
Hypothesis sha256_len : forall x, len (hashlib_sha256 x) = 32.

Lemma header_bytes (H : Z) :
  0 <= H < 2 ^ 32 -> bfh (fmt_0x 8 H) = Ok (be_of_Z 4 H).
Proof. intros R. apply (bfh_fmt_0x 4); [lia | exact R]. Qed.

(** What [deserialize_xkey] reads in the text of a payload of 78 bytes. *)
Lemma deserialize_payload (H : Z) (d r0 : byte) (fp cn c k : bytes) (s : string)
  (prv : bool) :
  0 < H < 2 ^ 32 -> len fp = 4 -> len cn = 4 -> len c = 32 -> len k = 32 ->
  EncodeBase58Check (be_of_Z 4 H ++ [d] ++ fp ++ cn ++ c ++ r0 :: k) = Ok s ->
  deserialize_xkey net (PyStr s) prv
  = let xtype := H - (if prv then XPRV_HEADER net else XPUB_HEADER net) in
    if (if TESTNET net then (xtype =? 0) || (xtype =? 1) else (xtype =? 0))
    then Ok (xtype, byte_to_Z d, fp, cn, c, if prv then k else r0 :: k)
    else Err (BaseException "Invalid header").
Proof.
  intros RH Hfp Hcn Hc Hk Hser.
  set (payload := be_of_Z 4 H ++ [d] ++ fp ++ cn ++ c ++ r0 :: k) in *.
  assert (Hlen : len payload = 78).
  { unfold payload. rewrite !len_app, !len_cons, len_be_of_Z, Hfp, Hcn, Hc, Hk.
    change (len (@nil byte)) with 0. lia. }
  destruct (Base58Check_inverse sha256_len payload) as (s' & Henc & _ & Hdec).
  { apply nonzero_app. unfold payload. apply nonzero_app.
    rewrite be_to_of_Z by (change (256 ^ Z.of_nat 4) with (2 ^ 32); lia). lia. }
  assert (s' = s) by congruence. subst s'.
  unfold deserialize_xkey. rewrite Hdec. cbn [bind]. rewrite Hlen.
  cbn [Z.eqb Pos.eqb negb].
  assert (Hget : getitem payload 4 = Ok d).
  { unfold payload. cbn [app]. apply getitem_at. apply len_be_of_Z. }
  rewrite Hget. cbn [bind].
  assert (H1 : slice payload (Some 0) (Some 4) = be_of_Z 4 H).
  { unfold payload. apply slice_upto_at. apply len_be_of_Z. }
  assert (H2 : slice payload (Some 5) (Some 9) = fp).
  { unfold payload. rewrite (app_assoc (be_of_Z 4 H) [d]).
    apply slice_mid_at; [rewrite len_app, len_be_of_Z; reflexivity | lia]. }
  assert (H3 : slice payload (Some 9) (Some 13) = cn).
  { unfold payload. rewrite (app_assoc (be_of_Z 4 H) [d]).
    rewrite (app_assoc _ fp).
    apply slice_mid_at; [rewrite !len_app, len_be_of_Z, Hfp; reflexivity | lia]. }
  assert (H4 : slice payload (Some 13) (Some (13 + 32)) = c).
  { unfold payload. rewrite (app_assoc (be_of_Z 4 H) [d]).
    rewrite (app_assoc _ fp). rewrite (app_assoc _ cn).
    apply slice_mid_at; [rewrite !len_app, len_be_of_Z, Hfp, Hcn; reflexivity | lia]. }
  assert (H5 : slice payload (Some (13 + 32)) None = r0 :: k).
  { unfold payload. rewrite (app_assoc (be_of_Z 4 H) [d]).
    rewrite (app_assoc _ fp). rewrite (app_assoc _ cn). rewrite (app_assoc _ c).
    apply slice_from_at. rewrite !len_app, len_be_of_Z, Hfp, Hcn, Hc. reflexivity. }
  assert (H6 : slice payload (Some (13 + 33)) None = k).
  { unfold payload. change (r0 :: k) with ([r0] ++ k).
    rewrite (app_assoc (be_of_Z 4 H) [d]).
    rewrite (app_assoc _ fp). rewrite (app_assoc _ cn). rewrite (app_assoc _ c).
    rewrite (app_assoc _ [r0]).
    apply slice_from_at. rewrite !len_app, len_be_of_Z, Hfp, Hcn, Hc. reflexivity. }
  rewrite H1, H2, H3, H4.
  rewrite be_to_of_Z by (change (256 ^ Z.of_nat 4) with (2 ^ 32); lia).
  cbv zeta.
  destruct (if TESTNET net
            then (H - (if prv then XPRV_HEADER net else XPUB_HEADER net) =? 0)
                 || (H - (if prv then XPRV_HEADER net else XPUB_HEADER net) =? 1)
            else H - (if prv then XPRV_HEADER net else XPUB_HEADER net) =? 0);
    cbn [negb]; [|reflexivity].
  destruct prv; [rewrite H6 | rewrite H5]; reflexivity.
Qed.

Lemma xtype_check (xtype : Z) :
  xtype_ok net xtype ->
  (if TESTNET net then (xtype =? 0) || (xtype =? 1) else (xtype =? 0)) = true.
Proof.
  unfold xtype_ok. destruct (TESTNET net).
  - intros [-> | ->]; reflexivity.
  - intros ->. reflexivity.
Qed.

Lemma xtype_check_far (delta xtype : Z) :
  xtype_ok net xtype -> 1 < delta \/ delta < -1 ->
  (if TESTNET net then (xtype + delta =? 0) || (xtype + delta =? 1)
   else (xtype + delta =? 0)) = false.
Proof.
  unfold xtype_ok. intros Hx Hd.
  assert (R : 0 <= xtype <= 1) by (destruct (TESTNET net); lia).
  destruct (TESTNET net); [apply orb_false_iff; split|]; apply Z.eqb_neq; lia.
Qed.

Lemma serialize_xpub_payload (xtype depth : Z) (c cK fp cn : bytes) (s : string) :
  0 <= XPUB_HEADER net + xtype < 2 ^ 32 ->
  serialize_xpub net xtype c cK depth fp cn = Ok s ->
  exists d, byte_to_Z d = depth
            /\ EncodeBase58Check
                 (be_of_Z 4 (XPUB_HEADER net + xtype) ++ [d] ++ fp ++ cn ++ c ++ cK) = Ok s.
Proof.
  intros RH H. unfold serialize_xpub, xpub_header in H.
  rewrite header_bytes in H by exact RH. cbn [bind] in H. inv_bind H.
  apply bytes1_Ok in E as (d & -> & Hd). exists d. split; [exact Hd | exact H].
Qed.

Lemma serialize_xprv_payload (xtype depth : Z) (c k fp cn : bytes) (s : string) :
  0 <= XPRV_HEADER net + xtype < 2 ^ 32 ->
  serialize_xprv net xtype c k depth fp cn = Ok s ->
  exists d, byte_to_Z d = depth
            /\ EncodeBase58Check
                 (be_of_Z 4 (XPRV_HEADER net + xtype) ++ [d] ++ fp ++ cn ++ c ++ x00 :: k)
               = Ok s.
Proof.
  intros RH H. unfold serialize_xprv, xprv_header in H.
  rewrite header_bytes in H by exact RH. cbn [bind] in H. inv_bind H.
  apply bytes1_Ok in E as (d & -> & Hd). exists d. split; [exact Hd | exact H].
Qed.

(** X16: if SHA-256 digests have 32 bytes and the private header of the
    network fits four bytes, [deserialize_xprv] reads back the fields that
    [serialize_xprv] wrote: script type, depth, fingerprint, child number,
    chain code and the 32-byte key. *)
Theorem serialize_deserialize_xprv :
  forall (xtype depth : Z) (fp cn c k : bytes) (xprv : string),
    0 < XPRV_HEADER net -> XPRV_HEADER net + 1 < 2 ^ 32 ->
    xtype_ok net xtype ->
    len fp = 4 -> len cn = 4 -> len c = 32 -> len k = 32 ->
    serialize_xprv net xtype c k depth fp cn = Ok xprv ->
    deserialize_xprv net (PyStr xprv) = Ok (xtype, depth, fp, cn, c, k).
Proof.
  intros xtype depth fp cn c k xprv Hpos Hb Hx Hfp Hcn Hc Hk Hser.
  pose proof Hx as Hr. unfold xtype_ok in Hr.
  assert (R : 0 <= xtype <= 1) by (destruct (TESTNET net); lia).
  assert (RH : 0 <= XPRV_HEADER net + xtype < 2 ^ 32) by lia.
  destruct (serialize_xprv_payload _ _ _ _ _ _ _ RH Hser) as (d & Hd & Henc).
  unfold deserialize_xprv.
  rewrite (deserialize_payload (XPRV_HEADER net + xtype) d x00 fp cn c k xprv true
             ltac:(lia) Hfp Hcn Hc Hk Henc).
  cbv zeta. replace (XPRV_HEADER net + xtype - XPRV_HEADER net) with xtype by lia.
  rewrite (xtype_check xtype Hx), Hd. reflexivity.
Qed.

(** X17: likewise [deserialize_xpub] reads back the fields that
    [serialize_xpub] wrote, with the compressed public key of 33 bytes. *)
Theorem serialize_deserialize_xpub_fields :
  forall (xtype depth : Z) (fp cn c cK : bytes) (xpub : string),
    0 < XPUB_HEADER net -> XPUB_HEADER net + 1 < 2 ^ 32 ->
    xtype_ok net xtype ->
    len fp = 4 -> len cn = 4 -> len c = 32 -> len cK = 33 ->
    serialize_xpub net xtype c cK depth fp cn = Ok xpub ->
    deserialize_xpub net (PyStr xpub) = Ok (xtype, depth, fp, cn, c, cK).
Proof.
  intros xtype depth fp cn c cK xpub Hpos Hb Hx Hfp Hcn Hc HcK Hser.
  pose proof Hx as Hr. unfold xtype_ok in Hr.
  assert (R : 0 <= xtype <= 1) by (destruct (TESTNET net); lia).
  assert (RH' : 0 <= XPUB_HEADER net + xtype < 2 ^ 32) by lia.
  destruct (serialize_xpub_payload _ _ _ _ _ _ _ RH' Hser) as (d & Hd & Henc).
  destruct cK as [|r0 K]; [discriminate|].
  rewrite len_cons in HcK.
  unfold deserialize_xpub.
  rewrite (deserialize_payload (XPUB_HEADER net + xtype) d r0 fp cn c K xpub false
             ltac:(lia) Hfp Hcn Hc ltac:(lia) Henc).
  cbv zeta. replace (XPUB_HEADER net + xtype - XPUB_HEADER net) with xtype by lia.
  rewrite (xtype_check xtype Hx), Hd. reflexivity.
Qed.

(** X18: when the two headers of the network fit four bytes and lie more
    than one apart, the text of an extended public key is an xpub and no
    xprv, and the text of an extended private key is an xprv and no
    xpub. *)
Theorem is_xpub_is_xprv :
  forall (xtype depth : Z) (fp cn c k cK : bytes) (s : string),
    0 < XPRV_HEADER net -> XPRV_HEADER net + 1 < XPUB_HEADER net ->
    XPUB_HEADER net + 1 < 2 ^ 32 ->
    xtype_ok net xtype ->
    len fp = 4 -> len cn = 4 -> len c = 32 -> len k = 32 -> len cK = 33 ->
    (serialize_xpub net xtype c cK depth fp cn = Ok s ->
     is_xpub net (PyStr s) = true /\ is_xprv net (PyStr s) = false)
    /\ (serialize_xprv net xtype c k depth fp cn = Ok s ->
        is_xprv net (PyStr s) = true /\ is_xpub net (PyStr s) = false).
Proof.
  intros xtype depth fp cn c k cK s Hpos Hsep Hb Hx Hfp Hcn Hc Hk HcK.
  pose proof Hx as Hr. unfold xtype_ok in Hr.
  assert (R : 0 <= xtype <= 1) by (destruct (TESTNET net); lia).
  unfold is_xpub, is_xprv, deserialize_xpub, deserialize_xprv. split; intros Hser.
  - assert (RH' : 0 <= XPUB_HEADER net + xtype < 2 ^ 32) by lia.
  destruct (serialize_xpub_payload _ _ _ _ _ _ _ RH' Hser) as (d & Hd & Henc).
    destruct cK as [|r0 K]; [discriminate|]. rewrite len_cons in HcK.
    rewrite !(deserialize_payload (XPUB_HEADER net + xtype) d r0 fp cn c K s _
                ltac:(lia) Hfp Hcn Hc ltac:(lia) Henc).
    cbv zeta. replace (XPUB_HEADER net + xtype - XPUB_HEADER net) with xtype by lia.
    replace (XPUB_HEADER net + xtype - XPRV_HEADER net)
      with (xtype + (XPUB_HEADER net - XPRV_HEADER net)) by lia.
    rewrite (xtype_check xtype Hx), (xtype_check_far _ xtype Hx) by lia.
    split; reflexivity.
  - assert (RH : 0 <= XPRV_HEADER net + xtype < 2 ^ 32) by lia.
  destruct (serialize_xprv_payload _ _ _ _ _ _ _ RH Hser) as (d & Hd & Henc).
    rewrite !(deserialize_payload (XPRV_HEADER net + xtype) d x00 fp cn c k s _
                ltac:(lia) Hfp Hcn Hc Hk Henc).
    cbv zeta. replace (XPRV_HEADER net + xtype - XPRV_HEADER net) with xtype by lia.
    replace (XPRV_HEADER net + xtype - XPUB_HEADER net)
      with (xtype + (XPRV_HEADER net - XPUB_HEADER net)) by lia.
    rewrite (xtype_check xtype Hx), (xtype_check_far _ xtype Hx) by lia.
    split; reflexivity.
Qed.

End ExtendedKeys.

Section Root.

Context {L : Library}.
Variable net : Network.
Hypothesis sha256_len : forall x, len (hashlib_sha256 x) = 32.
Hypothesis hmac_sha512_len : forall key msg, len (hmac_sha512 key msg) = 64.

(** X19: if SHA-256 digests have 32 bytes and HMAC-SHA512 digests 64, the
    pair that [bip32_root] returns is consistent: the private text
    deserializes to depth 0, a zero fingerprint and child number and the
    two halves of the keyed digest of the seed, and [xpub_from_xprv] of
    the private text is the public text. *)
Theorem bip32_root_consistent :
  forall (seed : bytes) (xtype : Z) (xprv xpub : string),
    0 < XPRV_HEADER net -> XPRV_HEADER net + 1 < 2 ^ 32 ->
    xtype_ok net xtype ->
    bip32_root net seed xtype = Ok (xprv, xpub) ->
    let I := hmac_sha512 (bytes_of_string "Bitcoin seed") seed in
    deserialize_xprv net (PyStr xprv)
    = Ok (xtype, 0, repeat x00 4, repeat x00 4,
          slice I (Some 32) None, slice I (Some 0) (Some 32))
    /\ xpub_from_xprv net (PyStr xprv) = Ok xpub.
Proof.
  intros seed xtype xprv xpub Hpos Hb Hx H I. unfold bip32_root in H. fold I in H.
  inv_bind H. destruct v as [K cK]. inv_bind H. inv_bind H. injection H as <- <-.
  assert (Hk : len (slice I (Some 0) (Some 32)) = 32).
  { rewrite len_slice by (unfold I; rewrite ?hmac_sha512_len; lia). lia. }
  assert (Hc : len (slice I (Some 32) None) = 32).
  { rewrite len_slice_from by (unfold I; rewrite ?hmac_sha512_len; lia).
    unfold I. rewrite hmac_sha512_len. lia. }
  pose proof Hx as Hr. unfold xtype_ok in Hr.
  assert (R : 0 <= xtype <= 1) by (destruct (TESTNET net); lia).
  assert (RH : 0 <= XPRV_HEADER net + xtype < 2 ^ 32) by lia.
  destruct (serialize_xprv_payload net _ _ _ _ _ _ _ RH E0) as (d & Hd & Henc).
  assert (Hdes : deserialize_xprv net (PyStr v)
                 = Ok (xtype, 0, repeat x00 4, repeat x00 4,
                       slice I (Some 32) None, slice I (Some 0) (Some 32))).
  { unfold deserialize_xprv.
    rewrite (deserialize_payload net sha256_len (XPRV_HEADER net + xtype) d x00
               (repeat x00 4) (repeat x00 4) _ _ v true
               ltac:(lia) eq_refl eq_refl Hc Hk Henc).
    cbv zeta. replace (XPRV_HEADER net + xtype - XPRV_HEADER net) with xtype by lia.
    rewrite (xtype_check net xtype Hx), Hd. reflexivity. }
  split; [exact Hdes|].
  unfold xpub_from_xprv. rewrite Hdes. cbn [bind]. rewrite E. cbn [bind]. exact E1.
Qed.

End Root.

Section Children.

Context {L : Library} {net : Network} {laws : LibraryLaws L net}.

(** X20: under the laws of the curve library, one step of public
    derivation at an index below [2^31] gives the public key and the chain
    code of the child that private derivation gives: if [cK] is the public
    key of [k] and [cK'] that of the child [k'], then [CKD_pub cK c i] is
    [(cK', c')]. *)
Theorem CKD_pub_follows_CKD_priv :
  forall (k c K cK k' c' K' cK' : bytes) (i : Z),
    0 <= i < 2 ^ 31 ->
    get_pubkeys_from_secret k = Ok (K, cK) ->
    CKD_priv k c i = Ok (k', c') ->
    get_pubkeys_from_secret k' = Ok (K', cK') ->
    CKD_pub cK c i = Ok (cK', c').
Proof.
  intros k c K cK k' c' K' cK' i R Hk Hpriv Hk'.
  eapply CKD_agree; [exact R | | exact Hpriv |].
  - eapply pub_of_get_pubkeys. exact Hk.
  - eapply pub_of_get_pubkeys. exact Hk'.
Qed.

End Children.

Lemma CKD_pub_follows_CKD_priv_witness :
  exists kc K cK K' cK',
    get_pubkeys_from_secret (L := Model.lib) (be_of_Z 32 5) = Ok (K, cK)
    /\ CKD_priv (L := Model.lib) (be_of_Z 32 5) (be_of_Z 32 7) 3 = Ok kc
    /\ get_pubkeys_from_secret (L := Model.lib) (fst kc) = Ok (K', cK')
    /\ CKD_pub (L := Model.lib) cK (be_of_Z 32 7) 3 = Ok (cK', snd kc).
Proof.
  destruct (CKD_priv (L := Model.lib) (be_of_Z 32 5) (be_of_Z 32 7) 3)
    as [[k' c']|e] eqn:E; [|vm_compute in E; discriminate].
  destruct (get_pubkeys_from_secret (L := Model.lib) (be_of_Z 32 5))
    as [[K cK]|e] eqn:E1; [|vm_compute in E1; discriminate].
  destruct (get_pubkeys_from_secret (L := Model.lib) k')
    as [[K' cK']|e] eqn:E2.
  - exists (k', c'), K, cK, K', cK'. repeat split; try assumption.
    apply (CKD_pub_follows_CKD_priv (laws := Model_laws)
             (be_of_Z 32 5) (be_of_Z 32 7) K cK k' c' K' cK' 3);
      [lia | exact E1 | exact E | exact E2].
  - vm_compute in E. injection E as <- <-. vm_compute in E2. discriminate.
Defined.

(** ** Signed messages *)

Section Messages.

Context {L : Library}.
Variable net : Network.

Lemma sign_message_loop_Ok (self : EC_KEY) (signature message : bytes)
  (is_compressed : bool) (range : list Z) (sig : bytes) :
  sign_message_loop self signature message is_compressed range = Ok sig ->
  exists i hd,
    In i range
    /\ byte_to_Z hd = 27 + i + (if is_compressed then 4 else 0)
    /\ sig = hd :: signature
    /\ EC_KEY_verify_message self sig (PyBytes message) = Ok tt.
Proof.
  induction range as [|i rest IH]; [discriminate|].
  cbn [sign_message_loop]. intros H. inv_bind H.
  apply bytes1_Ok in E as (hd & -> & Hhd). cbn [app] in H.
  destruct (EC_KEY_verify_message self (hd :: signature) (PyBytes message))
    as [[]|e] eqn:Ev.
  - injection H as <-. exists i, hd. repeat split; auto. left. reflexivity.
  - destruct (is_Exception e); [|discriminate].
    destruct (IH H) as (j & hd' & Hin & H1 & H2 & H3).
    exists j, hd'. repeat split; auto. right. exact Hin.
Qed.

Lemma pubkey_from_signature_flag (hd : byte) (signature message : bytes)
  (vk : VerifyingKey) (compressed : bool) :
  pubkey_from_signature (hd :: signature) message = Ok (vk, compressed) ->
  compressed = (byte_to_Z hd >=? 31).
Proof.
  unfold pubkey_from_signature. intros H.
  destruct (negb (len (hd :: signature) =? 65)); [discriminate|].
  cbn [getitem Z.ltb Z.compare Z.to_nat nth_error bind] in H.
  destruct ((byte_to_Z hd <? 27) || (byte_to_Z hd >=? 35)); [discriminate|].
  inv_bind H. inv_bind H. inv_bind H. injection H as _ <-. reflexivity.
Qed.

(** X21: a signature that [sign_message] returns is accepted by
    [verify_message] for the signer's address: it has a header byte
    between 27 and 34 that tells the form of the public key, and with the
    P2PKH address of the signer's public key in that form the
    module-level check returns [True] on the encoded message. *)
Theorem sign_message_verifies :
  forall (self : EC_KEY) (message : pyobj) (is_compressed : bool) (sig : bytes),
    sign_message self message is_compressed = Ok sig ->
    exists (mb ser : bytes) (hd : byte) (signature : bytes),
      to_bytes message utf8_enc = Ok mb
      /\ sig = hd :: signature
      /\ 27 + (if is_compressed then 4 else 0) <= byte_to_Z hd
         < 31 + (if is_compressed then 4 else 0)
      /\ point_to_ser (point (pubkey self)) is_compressed = Ok ser
      /\ forall addr,
           public_key_to_p2pkh net (PyBytes ser) = Ok addr ->
           verify_message net (PyStr addr) (PyBytes sig) (PyBytes mb) = Ok true.
Proof.
  intros self message c sig H. unfold sign_message in H.
  inv_bind H. rename v into mb. inv_bind H. inv_bind H. inv_bind H.
  apply sign_message_loop_Ok in H as (i & hd & Hin & Hhd & -> & Hv).
  assert (Ri : 0 <= i < 4).
  { cbn [seq map] in Hin. destruct Hin as [<-|[<-|[<-|[<-|[]]]]]; lia. }
  unfold EC_KEY_verify_message in Hv.
  cbn [assert_bytes forallb is_bytes andb py_assert bind bytes_value] in Hv.
  inv_bind Hv. destruct v2 as [vk comp].
  pose proof (pubkey_from_signature_flag _ _ _ _ _ E3) as Hcomp.
  assert (comp = c).
  { rewrite Hcomp, Hhd. destruct c.
    - apply Z.geb_le. lia.
    - destruct (27 + i + 0 >=? 31) eqn:G; [apply Z.geb_le in G; lia | reflexivity]. }
  clear Hcomp. subst comp. inv_bind Hv. rename v2 into a. inv_bind Hv. rename v2 into b.
  destruct (bytes_eqb a b) eqn:Eab; cbn [negb] in Hv; [|discriminate].
  apply bytes_eqb_eq in Eab. subst b.
  inv_bind Hv. inv_bind Hv. inv_bind Hv.
  exists mb, a, hd, v1. split; [exact E|]. split; [reflexivity|].
  split; [destruct c; lia|]. split; [exact E5|].
  intros addr Haddr. unfold verify_message.
  cbn [assert_bytes forallb is_bytes andb py_assert bind bytes_value].
  unfold verify_message_try. rewrite E3. cbn [bind]. rewrite E4. cbn [bind].
  rewrite Haddr. cbn [bind py_eqb]. rewrite String.eqb_refl. cbn [negb].
  rewrite E6. cbn [bind]. rewrite E7. cbn [bind]. rewrite E8. reflexivity.
Qed.

(** X22: [verify_message] returns [False] for every signature that is not
    65 bytes long or whose first byte is outside 27..34, whatever the
    address and the message. *)
Theorem verify_message_malformed :
  forall (address : pyobj) (sig message : bytes),
    len sig <> 65
    \/ (exists hd rest, sig = hd :: rest /\ (byte_to_Z hd < 27 \/ 35 <= byte_to_Z hd)) ->
    verify_message net address (PyBytes sig) (PyBytes message) = Ok false.
Proof.
  intros address sig message H. unfold verify_message.
  cbn [assert_bytes forallb is_bytes andb py_assert bind bytes_value].
  unfold verify_message_try, pubkey_from_signature.
  destruct (len sig =? 65) eqn:E65; cbn [negb bind]; [|reflexivity].
  apply Z.eqb_eq in E65. destruct H as [H|(hd & rest & -> & H)]; [contradiction|].
  cbn [getitem Z.ltb Z.compare Z.to_nat nth_error bind].
  replace ((byte_to_Z hd <? 27) || (byte_to_Z hd >=? 35)) with true; [reflexivity|].
  symmetry. apply orb_true_iff. destruct H; [left; apply Z.ltb_lt | right; apply Z.geb_le]; lia.
Qed.

End Messages.

(** ** Range of the master key, minikeys, and the cipher of ECIES *)

(** X23: [bip32_root] raises [AssertionError] when the left half of the
    keyed digest of the seed is zero or not below the order of the
    generator: the master scalar passes through [SigningKey.from_string],
    which asserts [1 <= secexp < order]. *)
Theorem bip32_root_range_check :
  forall (L : Library) (net : Network) (seed : bytes) (xtype : Z),
    let I := hmac_sha512 (bytes_of_string "Bitcoin seed") seed in
    be_to_Z (slice I (Some 0) (Some 32)) = 0
    \/ generator_order <= be_to_Z (slice I (Some 0) (Some 32)) ->
    bip32_root net seed xtype = Err AssertionError.
Proof.
  intros L net seed xtype I H. unfold bip32_root. fold I.
  unfold get_pubkeys_from_secret, SigningKey_from_string.
  destruct (len (slice I (Some 0) (Some 32)) =? baselen) eqn:El; [|reflexivity].
  cbn [py_assert bind]. apply Z.eqb_eq in El.
  destruct (slice I (Some 0) (Some 32)) as [|b0 s] eqn:Es.
  { pose proof (orderlen_pos generator_order). unfold baselen in El.
    change (len (@nil byte)) with 0 in El. lia. }
  cbn [string_to_number bind]. unfold SigningKey_from_secret_exponent.
  replace ((1 <=? be_to_Z (b0 :: s)) && (be_to_Z (b0 :: s) <? generator_order))
    with false; [reflexivity|].
  symmetry. apply andb_false_iff. destruct H as [H|H].
  - left. apply Z.leb_gt. lia.
  - right. apply Z.ltb_ge. exact H.
Qed.

Lemma bip32_root_range_check_witness :
  bip32_root (L := Model.zero_digest_lib) mainnet [x01] 0 = Err AssertionError.
Proof.
  apply (bip32_root_range_check Model.zero_digest_lib mainnet [x01] 0).
  left. vm_compute. reflexivity.
Defined.

(** X24: [is_minikey] returns [True] on no object: on a [bytes] object the
    comparison of its first element with ['S'] is false, and on a [str]
    that passes the first two tests the membership test in the [bytes]
    alphabet raises [TypeError]. *)
Theorem is_minikey_never_true :
  forall (L : Library) (text : pyobj), is_minikey text <> Ok true.
Proof.
  intros L text. unfold is_minikey. destruct text as [n|s|b]; cbn [py_len bind].
  - discriminate.
  - destruct (20 <=? Z.of_nat (String.length s)); cbn [negb]; [|discriminate].
    destruct s as [|c r]; cbn [py_getitem0 bind]; [discriminate|].
    destruct (py_eqb (PyStr (String c "")) (PyStr "S")); cbn [negb]; [|discriminate].
    cbn [py_iter list_ascii_of_string map bind py_all bytes_contains]. discriminate.
  - destruct (20 <=? len b); cbn [negb]; [|discriminate].
    destruct b as [|b0 r]; cbn [py_getitem0 bind py_eqb negb]; discriminate.
Qed.



(** ** The properties on the model *)

Lemma Model_sha256_len (x : bytes) : len (hashlib_sha256 (Library := Model.lib) x) = 32.
Proof. apply len_be_of_Z. Qed.

Lemma Model_hmac_sha512_len (key msg : bytes) :
  len (hmac_sha512 (Library := Model.lib) key msg) = 64.
Proof.
  cbn [hmac_sha512 Model.lib]. unfold Model.keyed, len.
  rewrite length_firstn, length_app. unfold Model.digest. rewrite length_be_of_Z. lia.
Qed.

Lemma Base58Check_roundtrip_witness :
  exists s, EncodeBase58Check (L := Model.lib) [x00; x07] = Ok s
            /\ DecodeBase58Check (L := Model.lib) (PyStr s) = Ok (Some [x00; x07]).
Proof.
  apply (Base58Check_roundtrip (L := Model.lib) Model_sha256_len).
  exists x07. split; [simpl; tauto | discriminate].
Defined.

Lemma wif_roundtrip_witness :
  exists s,
    SecretToASecret (L := Model.lib) mainnet (be_of_Z 32 5) true = Ok s
    /\ ASecretToSecret (L := Model.lib) mainnet (PyStr s) = Ok (Some (be_of_Z 32 5 ++ [x01]))
    /\ is_private_key (L := Model.lib) mainnet (PyStr s) = true
    /\ is_compressed (L := Model.lib) mainnet (PyStr s) = Ok (len (be_of_Z 32 5) + 1 =? 33).
Proof.
  apply (wif_roundtrip (L := Model.lib) mainnet Model_sha256_len (be_of_Z 32 5) true).
  vm_compute. discriminate.
Defined.

Lemma address_from_private_key_spec_witness :
  exists s,
    SecretToASecret (L := Model.lib) mainnet (be_of_Z 32 5) false = Ok s
    /\ address_from_private_key (L := Model.lib) mainnet (PyStr s)
       = (pk <- GetPubKey (mkPublic_key (Pt 2 1)) false ;;
          public_key_to_p2pkh (L := Model.lib) mainnet (PyBytes pk)).
Proof.
  apply (address_from_private_key_spec (L := Model.lib) mainnet Model_sha256_len
           (be_of_Z 32 5) false
           (mkEC_KEY (mkPublic_key (Pt 2 1)) (mkPrivate_key (mkPublic_key (Pt 2 1)) 5) 5)).
  - vm_compute. discriminate.
  - reflexivity.
  - vm_compute. reflexivity.
Defined.

Lemma is_address_sound_witness :
  exists (s : string) (h : bytes) (addrtype : Z),
    PyStr "11111111111111111111Zif9iP" = PyStr s
    /\ (addrtype = ADDRTYPE_P2PKH mainnet \/ addrtype = ADDRTYPE_P2SH mainnet)
    /\ len h = 20
    /\ bc_address_to_hash_160 (PyStr "11111111111111111111Zif9iP") = Ok (addrtype, h)
    /\ hash_160_to_bc_address (L := Model.lib) mainnet h addrtype 1 = Ok s
    /\ Forall (fun b => In b __b58chars) (list_byte_of_string s).
Proof.
  apply (is_address_sound (L := Model.lib) mainnet). vm_compute. reflexivity.
Defined.

Lemma is_address_complete_witness :
  bc_address_to_hash_160 (PyStr "11111111111111111111Zif9iP") = Ok (0, be_of_Z 20 5)
  /\ is_address (L := Model.lib) mainnet (PyStr "11111111111111111111Zif9iP") = Ok true.
Proof.
  apply (is_address_complete (L := Model.lib) mainnet Model_sha256_len (be_of_Z 20 5) 0).
  - reflexivity.
  - left. reflexivity.
  - discriminate.
  - right. vm_compute. discriminate.
  - vm_compute. reflexivity.
Defined.

Lemma ser_to_point_inverse_witness :
  exists ser,
    point_to_ser (Pt 2 1) true = Ok ser
    /\ len ser = 33
    /\ ser_to_point (L := Model.lib) ser = Ok (Pt 2 1).
Proof.
  apply (ser_to_point_inverse (L := Model.lib) 2 1 true).
  - lia.
  - lia.
  - reflexivity.
  - vm_compute. discriminate.
  - vm_compute. reflexivity.
  - intros _. vm_compute. repeat split.
Defined.

Lemma GetSecret_EC_KEY_witness :
  GetSecret (mkEC_KEY (mkPublic_key (Pt 2 1)) (mkPrivate_key (mkPublic_key (Pt 2 1)) 5) 5)
  = Ok (be_of_Z 32 5).
Proof.
  apply (GetSecret_EC_KEY (L := Model.lib) (be_of_Z 32 5)).
  - reflexivity.
  - vm_compute. reflexivity.
Defined.

Lemma serialize_deserialize_xprv_witness :
  deserialize_xprv (L := Model.lib) mainnet
    (PyStr "xprv9s21ZrQH143K24Mfq5zL5MhWK9hUhhGbd45hLXo2Pq2oqzMMo63oSta1HCTYDUEDhtYoKn8cnZyBdE286NdsqHV6M9aiWyqTMjdpCxFBLnK")
  = Ok (0, 0, repeat x00 4, repeat x00 4, be_of_Z 32 7, be_of_Z 32 5).
Proof.
  apply (serialize_deserialize_xprv (L := Model.lib) mainnet Model_sha256_len).
  - reflexivity.
  - reflexivity.
  - reflexivity.
  - reflexivity.
  - reflexivity.
  - reflexivity.
  - reflexivity.
  - vm_compute. reflexivity.
Defined.

Lemma serialize_deserialize_xpub_fields_witness :
  deserialize_xpub (L := Model.lib) mainnet
    (PyStr "xpub661MyMwAqRbcEYS8w7XLSVeEsBXy79zSzH1J8vCdxAZningWLdN3zgtV8VS3qLiufu2UdgzfB4ae6dNEjNyaYFbtE57R6kiCGZYDSYC5E6T")
  = Ok (0, 0, repeat x00 4, repeat x00 4, be_of_Z 32 7, x03 :: be_of_Z 32 2).
Proof.
  apply (serialize_deserialize_xpub_fields (L := Model.lib) mainnet Model_sha256_len).
  - reflexivity.
  - reflexivity.
  - reflexivity.
  - reflexivity.
  - reflexivity.
  - reflexivity.
  - reflexivity.
  - vm_compute. reflexivity.
Defined.

Lemma is_xpub_is_xprv_witness :
  is_xpub (L := Model.lib) mainnet
    (PyStr "xpub661MyMwAqRbcEYS8w7XLSVeEsBXy79zSzH1J8vCdxAZningWLdN3zgtV8VS3qLiufu2UdgzfB4ae6dNEjNyaYFbtE57R6kiCGZYDSYC5E6T")
  = true
  /\ is_xprv (L := Model.lib) mainnet
       (PyStr "xpub661MyMwAqRbcEYS8w7XLSVeEsBXy79zSzH1J8vCdxAZningWLdN3zgtV8VS3qLiufu2UdgzfB4ae6dNEjNyaYFbtE57R6kiCGZYDSYC5E6T")
     = false.
Proof.
  destruct (is_xpub_is_xprv (L := Model.lib) mainnet Model_sha256_len
              0 0 (repeat x00 4) (repeat x00 4) (be_of_Z 32 7) (be_of_Z 32 5)
              (x03 :: be_of_Z 32 2)
              "xpub661MyMwAqRbcEYS8w7XLSVeEsBXy79zSzH1J8vCdxAZningWLdN3zgtV8VS3qLiufu2UdgzfB4ae6dNEjNyaYFbtE57R6kiCGZYDSYC5E6T"
              eq_refl eq_refl eq_refl eq_refl eq_refl eq_refl eq_refl eq_refl eq_refl)
    as [H _].
  apply H. vm_compute. reflexivity.
Defined.

Lemma bip32_root_consistent_witness :
  deserialize_xprv (L := Model.lib) mainnet
    (PyStr "xprv9s21ZrQH143K24Mfq5zL5MhWK9hUhhGbd45hLXo2Pq2oqzMMo63oStZzF9YnVMtacRLnMkgf3zrQXSsohT42toSahj6kChoygCERq651mDU")
  = Ok (0, 0, repeat x00 4, repeat x00 4,
        slice (hmac_sha512 (Library := Model.lib) (bytes_of_string "Bitcoin seed") (be_of_Z 4 5))
              (Some 32) None,
        slice (hmac_sha512 (Library := Model.lib) (bytes_of_string "Bitcoin seed") (be_of_Z 4 5))
              (Some 0) (Some 32))
  /\ xpub_from_xprv (L := Model.lib) mainnet
       (PyStr "xprv9s21ZrQH143K24Mfq5zL5MhWK9hUhhGbd45hLXo2Pq2oqzMMo63oStZzF9YnVMtacRLnMkgf3zrQXSsohT42toSahj6kChoygCERq651mDU")
     = Ok "xpub661MyMwAqRbcEYS8w7XLSVeEsBXy79zSzH1J8vCdxAZningWLdN3zgtU6QKvjHxSjXmLCp138pGxz5zS6bnWxMhBa3Ls7FgLkzqebqviWFz".
Proof.
  apply (bip32_root_consistent (L := Model.lib) mainnet Model_sha256_len
           Model_hmac_sha512_len (be_of_Z 4 5) 0).
  - reflexivity.
  - reflexivity.
  - reflexivity.
  - vm_compute. reflexivity.
Defined.

Lemma sign_message_verifies_witness :
  exists (mb ser : bytes) (hd : byte) (signature : bytes),
    to_bytes (PyStr "hi") utf8_enc = Ok mb
    /\ x1f :: be_of_Z 32 654032712785347827184525985807229358235361685124355401792891414276264
              ++ be_of_Z 32 1
       = hd :: signature
    /\ 27 + 4 <= byte_to_Z hd < 31 + 4
    /\ point_to_ser
         (Model.point_of
            97972920816663007305104403893167785599384303713228494111878821764437101273531)
         true = Ok ser
    /\ forall addr,
         public_key_to_p2pkh (L := Model.lib) mainnet (PyBytes ser) = Ok addr ->
         verify_message (L := Model.lib) mainnet (PyStr addr)
           (PyBytes (x1f :: be_of_Z 32 654032712785347827184525985807229358235361685124355401792891414276264
                         ++ be_of_Z 32 1))
           (PyBytes mb) = Ok true.
Proof.
  apply (sign_message_verifies (L := Model.lib) mainnet
           (mkEC_KEY
              (mkPublic_key (Model.point_of 97972920816663007305104403893167785599384303713228494111878821764437101273531))
              (mkPrivate_key
                 (mkPublic_key (Model.point_of 97972920816663007305104403893167785599384303713228494111878821764437101273531))
                 97972920816663007305104403893167785599384303713228494111878821764437101273531)
              97972920816663007305104403893167785599384303713228494111878821764437101273531)
           (PyStr "hi") true).
  vm_compute. reflexivity.
Defined.

Lemma verify_message_malformed_witness :
  verify_message (L := Model.lib) mainnet (PyStr "1") (PyBytes [x1b]) (PyBytes []) = Ok false.
Proof.
  apply (verify_message_malformed (L := Model.lib) mainnet). left. discriminate.
Defined.

(** ** Symmetric encryption *)

Lemma slice_from_start {A : Type} (l : list A) (stop : option Z) :
  slice l None stop = slice l (Some 0) stop.
Proof.
  unfold slice, slice_index. cbn [Z.ltb Z.compare].
  pose proof (len_nonneg l). replace (Z.min (len l) 0) with 0 by lia. reflexivity.
Qed.

Lemma slice_inner {A : Type} (a b c : list A) (lo k : Z) :
  len a = lo -> len c = k -> 0 < k ->
  slice (a ++ b ++ c) (Some lo) (Some (- k)) = b.
Proof.
  intros Ha Hc Hk. unfold slice, slice_index.
  pose proof (len_nonneg a). pose proof (len_nonneg b).
  destruct (lo <? 0) eqn:E1; [apply Z.ltb_lt in E1; lia|].
  destruct (- k <? 0) eqn:E2; [|apply Z.ltb_ge in E2; lia].
  rewrite !len_app, Ha, Hc.
  replace (Z.to_nat (Z.min (lo + (len b + k)) lo)) with (List.length a)
    by (unfold len in *; lia).
  replace (Z.to_nat (Z.max 0 (lo + (len b + k) + - k)) - List.length a)%nat
    with (List.length b) by (unfold len in *; lia).
  rewrite skipn_app, skipn_all, Nat.sub_diag. cbn [skipn app].
  rewrite firstn_app, firstn_all, Nat.sub_diag. cbn [firstn]. apply app_nil_r.
Qed.

Section Cryptodome.

Context {L : Library} {E : Encoders}.

Ltac errs :=
  auto with errs;
  repeat (errs_step; auto with errs);
  try (simpl; first [exact I | discriminate]).

Hint Resolve library_call_errs : errs.

Lemma DecodeAES_errs (secret e : pyobj) : errsM ordinary (DecodeAES secret e).
Proof. unfold DecodeAES. errs. apply aes_decrypt_with_iv_errs. Qed.

Lemma aes_decrypt_with_iv_AES (key iv data : pyobj) (log : cipher_log) :
  AES = true -> exists e, fst (aes_decrypt_with_iv key iv data log) = Err e.
Proof.
  intros HA. unfold aes_decrypt_with_iv, bindM, lift, run_cipher. rewrite HA.
  destruct (assert_bytes [key; iv; data]) as [[]|e]; [|eexists; reflexivity].
  destruct (AES_cbc_decrypt _ _ _) as [d|]; cbn [library_call];
    [|eexists; reflexivity].
  destruct (getitem (rev d) 0) as [b|e]; cbn [bind fst py_ord]; eexists; reflexivity.
Qed.

(** X26: when the Cryptodome cipher is installed ([AES] is not [None]), the
    symmetric functions never return: [aes_encrypt_with_iv] adds a [str]
    padding to [bytes], [aes_decrypt_with_iv] takes [ord] of an [int], so
    each call ends in an exception, as does each call of
    [decrypt_message]. *)
Theorem cryptodome_never_returns :
  AES = true ->
  (forall key iv data, exists e, aes_encrypt_with_iv key iv data = Err e)
  /\ (forall key iv data log,
        exists e, fst (aes_decrypt_with_iv key iv data log) = Err e)
  /\ (forall self encrypted log,
        exists e, fst (decrypt_message self encrypted log) = Err e).
Proof.
  intros HA. split; [|split].
  - intros key iv data. unfold aes_encrypt_with_iv. rewrite HA.
    destruct (assert_bytes [key; iv; data]) as [[]|e] eqn:Ea; [|eexists; reflexivity].
    cbn [bind]. unfold assert_bytes in Ea. apply py_assert_Ok in Ea.
    cbn [forallb] in Ea. apply andb_true_iff in Ea as [_ Ea].
    apply andb_true_iff in Ea as [_ Ea]. apply andb_true_iff in Ea as [Ea _].
    destruct data; try discriminate. eexists. reflexivity.
  - intros key iv data log. apply aes_decrypt_with_iv_AES. exact HA.
  - intros self encrypted log. unfold decrypt_message, bindM, lift, raise.
    destruct (library_call _ _) as [env|e]; [|eexists; reflexivity].
    destruct (len env <? 85); [eexists; reflexivity|].
    destruct (negb (bytes_eqb _ _)); [eexists; reflexivity|].
    destruct (except_AssertionError _ _) as [P|e]; [|eexists; reflexivity].
    destruct (point_x P) as [x|e]; [|eexists; reflexivity].
    destruct (point_y P) as [y|e]; [|eexists; reflexivity].
    destruct (negb (point_is_valid _ x y)); [eexists; reflexivity|].
    destruct (point_to_ser _ true) as [ecdh_key|e]; [|eexists; reflexivity].
    destruct (negb (bytes_eqb _ _)); [eexists; reflexivity|].
    apply aes_decrypt_with_iv_AES. exact HA.
Qed.

(** X27: with a password, [pw_decode] raises nothing but [InvalidPassword],
    save the [TypeError] of hashing a password that is an [int]; in
    particular it raises [InvalidPassword] on every text when the
    Cryptodome cipher is installed. *)
Theorem pw_decode_errors :
  forall (s password : pyobj) (log : cipher_log),
    (forall e, fst (pw_decode s (Some password) log) = Err e ->
               e = InvalidPassword \/ (e = TypeError /\ exists n, password = PyInt n))
    /\ (AES = true -> forall secret, Hash password = Ok secret ->
        fst (pw_decode s (Some password) log) = Err InvalidPassword).
Proof.
  intros s password log.
  assert (Hin : forall secret log0 r log',
            (b <~ DecodeAES (PyBytes secret) s ;;
             lift (library_call "bytes.decode" (decode_utf8 b))) log0 = (r, log') ->
            errs_in ordinary r).
  { intros secret log0 r log' H.
    assert (Hm : errsM ordinary
                   (b <~ DecodeAES (PyBytes secret) s ;;
                    lift (library_call "bytes.decode" (decode_utf8 b)))).
    { errs. apply DecodeAES_errs. }
    specialize (Hm log0). rewrite H in Hm. exact Hm. }
  split.
  - intros e H. unfold pw_decode in H. unfold bindM at 1 in H.
    unfold lift at 1 in H. cbv beta in H.
    destruct (Hash password) as [secret|e0] eqn:Eh.
    + left.
      destruct ((b <~ DecodeAES (PyBytes secret) s ;;
                 lift (library_call "bytes.decode" (decode_utf8 b))) log)
        as [[d|e'] log'] eqn:Em; cbn [fst] in H; [discriminate|].
      injection H as <-. pose proof (Hin _ _ _ _ Em e' eq_refl) as Ho.
      destruct e'; try reflexivity. contradiction.
    + cbn [fst] in H. injection H as <-. right.
      destruct password as [n|p|p];
        cbn [Hash to_bytes bind sha256] in Eh; try discriminate.
      injection Eh as <-. split; [reflexivity | eexists; reflexivity].
  - intros HA secret Eh. unfold pw_decode. unfold bindM at 1. unfold lift at 1.
    cbv beta. rewrite Eh.
    destruct ((b <~ DecodeAES (PyBytes secret) s ;;
               lift (library_call "bytes.decode" (decode_utf8 b))) log)
      as [[d|e'] log'] eqn:Em; cbn [fst].
    + exfalso. unfold bindM, DecodeAES, lift in Em.
      destruct (library_call "base64.b64decode" (base64_b64decode s)) as [env|e0];
        [|discriminate].
      unfold bindM in Em.
      match type of Em with
      | context [aes_decrypt_with_iv ?k ?i ?dd ?l] =>
          destruct (aes_decrypt_with_iv_AES k i dd l HA) as (e1 & He1);
          destruct (aes_decrypt_with_iv k i dd l) as [[a|e2] l2]
      end; cbn [fst] in He1; discriminate.
    + pose proof (Hin _ _ _ _ Em e' eq_refl) as Ho.
      destruct e'; try reflexivity. contradiction.
Qed.

End Cryptodome.

(** ** Decryption inverts encryption *)

Lemma decrypt_message_mac_ok (L : Library) (self : EC_KEY) (encrypted : pyobj)
  (env : bytes) (x y : Z) (ecdh_key : bytes) (log : cipher_log) :
  base64_b64decode encrypted = Some env ->
  85 <= len env ->
  slice env None (Some 4) = bytes_of_string "BIE1" ->
  ser_to_point (slice env (Some 4) (Some 37)) = Ok (Pt x y) ->
  point_is_valid generator_secp256k1 x y = true ->
  point_to_ser (point_mul (Pt x y) (secret_multiplier (privkey self))) true
    = Ok ecdh_key ->
  hmac_sha256 (slice (hashlib_sha512 ecdh_key) (Some 32) None)
              (slice env None (Some (-32)))
    = slice env (Some (-32)) None ->
  decrypt_message self encrypted log
  = aes_decrypt_with_iv (PyBytes (slice (hashlib_sha512 ecdh_key) (Some 16) (Some 32)))
                        (PyBytes (slice (hashlib_sha512 ecdh_key) (Some 0) (Some 16)))
                        (PyBytes (slice env (Some 37) (Some (-32)))) log.
Proof.
  intros Hdec Hlen Hmagic Hpt Hvalid Hecdh Hmac.
  unfold decrypt_message, bindM, lift, raise.
  rewrite Hdec; simpl library_call; cbv beta iota.
  destruct (len env <? 85) eqn:E; [apply Z.ltb_lt in E; lia|].
  rewrite Hmagic.
  replace (bytes_eqb (bytes_of_string "BIE1") (bytes_of_string "BIE1")) with true
    by (symmetry; apply bytes_eqb_eq; reflexivity).
  rewrite Hpt; cbv beta iota delta [negb point_x point_y except_AssertionError].
  rewrite Hvalid, Hecdh; cbv beta iota. rewrite Hmac.
  match goal with
  | |- context [bytes_eqb ?a ?a] =>
      replace (bytes_eqb a a) with true by (symmetry; apply bytes_eqb_eq; reflexivity)
  end.
  reflexivity.
Qed.

Section Passwords.

Context {L : Library} {E : Encoders}.
Hypothesis pyaes_only : AES = false.
Hypothesis b64_inverse :
  forall x, base64_b64decode (PyBytes (base64_b64encode x)) = Some x.
Hypothesis cbc_inverse :
  forall key iv m ct,
    pyaes_cbc_encrypt key iv m = Some ct -> pyaes_cbc_decrypt key iv ct = Some m.

Lemma aes_encrypt_pyaes (key iv data ct : bytes) :
  aes_encrypt_with_iv (PyBytes key) (PyBytes iv) (PyBytes data) = Ok ct ->
  pyaes_cbc_encrypt key iv data = Some ct.
Proof.
  unfold aes_encrypt_with_iv. rewrite pyaes_only.
  cbn [assert_bytes forallb is_bytes andb py_assert bind bytes_value].
  destruct (pyaes_cbc_encrypt key iv data); cbn [library_call]; congruence.
Qed.

Lemma aes_decrypt_pyaes (key iv ct m : bytes) (log : cipher_log) :
  pyaes_cbc_decrypt key iv ct = Some m ->
  aes_decrypt_with_iv (PyBytes key) (PyBytes iv) (PyBytes ct) log
  = (Ok m, log ++ [CipherDecrypt key iv ct]).
Proof.
  intros H. unfold aes_decrypt_with_iv, bindM, lift, run_cipher. rewrite pyaes_only.
  cbn [assert_bytes forallb is_bytes andb py_assert bytes_value]. rewrite H. reflexivity.
Qed.

(** X28: on the pyaes path, with a base-64 decoder and a block cipher that
    invert their encoders, [pw_decode] returns the text that [pw_encode]
    encrypted under the same non-empty password, for every initial vector
    of 16 bytes and every text that the UTF-8 decoder reads back from its
    encoding. *)
Theorem pw_decode_encode :
  forall (s : string) (password : pyobj) (iv : bytes) (enc : pyobj) (log : cipher_log),
    len iv = 16 ->
    decode_utf8 (encode_utf8 s) = Some s ->
    truthy (Some password) = true ->
    pw_encode s (Some password) iv = Ok enc ->
    fst (pw_decode enc (Some password) log) = Ok (PyStr s).
Proof.
  intros s password iv enc log Hiv utf8_inverse Ht H. unfold pw_encode in H. rewrite Ht in H.
  inv_bind H. rename v into secret. inv_bind H. injection H as <-.
  unfold EncodeAES in E1.
  cbn [assert_bytes forallb is_bytes andb py_assert bind] in E1.
  inv_bind E1. injection E1 as <-. apply aes_encrypt_pyaes in E2.
  apply cbc_inverse in E2.
  unfold pw_decode. unfold bindM at 1. unfold lift at 1. cbv beta. rewrite E0.
  unfold DecodeAES. unfold bindM at 1. unfold bindM at 1. unfold lift at 1.
  rewrite b64_inverse. cbn [library_call].
  rewrite (slice_app_left_at iv _ 16 Hiv), (slice_app_right_at iv _ 16 Hiv).
  rewrite (aes_decrypt_pyaes _ _ _ _ _ E2). unfold lift.
  rewrite utf8_inverse. reflexivity.
Qed.

End Passwords.

Section Ecies.

Context {L : Library} {E : Encoders} {net : Network} {laws : LibraryLaws L net}.
Hypothesis pyaes_only : AES = false.
Hypothesis b64_inverse :
  forall x, base64_b64decode (PyBytes (base64_b64encode x)) = Some x.
Hypothesis cbc_inverse :
  forall key iv m ct,
    pyaes_cbc_encrypt key iv m = Some ct ->
    pyaes_cbc_decrypt key iv ct = Some m /\ 16 <= len ct.
Hypothesis hmac_sha256_len : forall key msg, len (hmac_sha256 key msg) = 32.
Hypothesis mul_comm :
  forall a b,
    point_mul (point_mul generator_secp256k1 a) b
    = point_mul (point_mul generator_secp256k1 b) a.

Lemma EC_KEY_secret (k : bytes) (self : EC_KEY) :
  EC_KEY_init k = Ok self ->
  secret_multiplier (privkey self) = be_to_Z k
  /\ pubkey self = mkPublic_key (point (pubkey self)).
Proof.
  unfold EC_KEY_init. intros H. inv_bind H. inv_bind H. injection H as <-.
  apply string_to_number_Ok in E0 as [-> _]. cbn. split; [reflexivity|].
  destruct v0. reflexivity.
Qed.

Lemma pub_of_valid (k cK : bytes) (x y : Z) :
  pub_of k cK ->
  point_mul generator_secp256k1 (be_to_Z k) = Pt x y ->
  point_is_valid generator_secp256k1 x y = true.
Proof.
  intros (pk & Hpk & _) HP. rewrite HP in Hpk.
  apply Public_key_init_Ok in Hpk as (x' & y' & Heq & _ & Rx & Ry & Hn & Ho).
  injection Heq as <- <-.
  destruct (sqrt_law _ _ _ HP) as (Hc & _).
  unfold point_is_valid. rewrite Hc, Ho.
  replace ((x <? 0) || (generator_order <=? x) || (y <? 0) || (generator_order <=? y))
    with false; [reflexivity|].
  symmetry. repeat (apply orb_false_iff; split);
    first [apply Z.ltb_ge; lia | apply Z.leb_gt; lia].
Qed.

(** X29: on the pyaes path, with a base-64 decoder and a block cipher that
    invert their encoders, MACs of 32 bytes and a curve library that obeys
    its laws, [decrypt_message] of the key pair returns the message that
    [encrypt_message] encrypted for its compressed public key, whatever the
    ephemeral scalar: the two sides derive the same shared point, the
    envelope has at least 85 bytes and its parts are cut where they were
    joined. *)
Theorem decrypt_message_encrypt_message :
  forall (k : bytes) (self : EC_KEY) (cK message : bytes) (r : Z) (enc : bytes)
         (log : cipher_log),
    EC_KEY_init k = Ok self ->
    GetPubKey (pubkey self) true = Ok cK ->
    EC_KEY_encrypt_message (PyBytes message) cK r = Ok enc ->
    fst (decrypt_message self (PyBytes enc) log) = Ok message.
Proof.
  intros k self cK message r enc log Hkey HcK Henc.
  pose proof (pub_of_EC_KEY _ _ _ Hkey HcK) as Hpub.
  destruct (pub_of_shape _ _ Hpub) as (x & y & HP & _ & Hser).
  destruct (EC_KEY_secret _ _ Hkey) as (Hsec & _).
  unfold EC_KEY_encrypt_message in Henc.
  cbn [assert_bytes forallb is_bytes andb py_assert bind] in Henc.
  rewrite Hser in Henc. cbn [bind point_x point_y] in Henc.
  destruct (negb (point_is_valid generator_secp256k1 x y)); [discriminate|].
  inv_bind Henc. rename v into e_exp.
  inv_bind Henc. rename v into eph. rename E1 into Heph.
  inv_bind Henc. rename v into ecdh_key. rename E1 into Hecdh.
  inv_bind Henc. rename v into ct. rename E1 into Hct.
  inv_bind Henc. rename v into h. rename E1 into Hh.
  inv_bind Henc. rename v into epk. rename E1 into Hepk.
  injection Henc as <-.
  destruct (EC_KEY_secret _ _ Heph) as (Hsece & Hpke).
  unfold get_public_key in Hh. inv_bind Hh. injection Hh as <-.
  rewrite bfh_bh2u in Hepk. injection Hepk as ->.
  rewrite point_to_ser_i2o, <- Hpke in E1.
  pose proof (pub_of_EC_KEY _ _ _ Heph E1) as Hpube.
  destruct (pub_of_shape _ _ Hpube) as (xe & ye & HPe & Hshape & Hsere).
  pose proof (pub_of_valid _ _ _ _ Hpube HPe) as Hvalid.
  apply aes_encrypt_pyaes in Hct; [|exact pyaes_only].
  apply cbc_inverse in Hct as (Hdec & Hlen).
  rewrite Hsece, <- HP, mul_comm, HPe, <- Hsec in Hecdh.
  set (key := hashlib_sha512 ecdh_key) in *.
  set (body := bytes_of_string "BIE1" ++ epk ++ ct).
  set (mac := hmac_sha256 (slice key (Some 32) None) body).
  assert (Hepklen : len epk = 33).
  { rewrite Hshape, len_cons, len_be_of_Z. reflexivity. }
  assert (Hmaclen : len mac = 32) by apply hmac_sha256_len.
  assert (Hbody : slice (body ++ mac) None (Some (-32)) = body).
  { rewrite slice_from_start. exact (slice_drop_last body mac 32 Hmaclen eq_refl). }
  assert (Htail : slice (body ++ mac) (Some (-32)) None = mac).
  { exact (slice_take_last body mac 32 Hmaclen eq_refl). }
  assert (Hmid : slice (body ++ mac) (Some 37) (Some (-32)) = ct).
  { unfold body. rewrite <- !app_assoc.
    rewrite (app_assoc (bytes_of_string "BIE1") epk).
    refine (slice_inner _ ct mac 37 32 _ Hmaclen eq_refl).
    rewrite len_app, Hepklen. reflexivity. }
  rewrite (decrypt_message_mac_ok L self (PyBytes _) (body ++ mac) xe ye ecdh_key log).
  - rewrite Hmid. fold key.
    rewrite (aes_decrypt_pyaes pyaes_only _ _ _ _ _ Hdec). reflexivity.
  - apply b64_inverse.
  - unfold body. rewrite !len_app, Hepklen, Hmaclen.
    change (len (bytes_of_string "BIE1")) with 4. lia.
  - unfold body. rewrite <- app_assoc. apply slice_app_left_at. reflexivity.
  - unfold body. rewrite <- !app_assoc.
    rewrite (slice_mid_at (bytes_of_string "BIE1") epk (ct ++ mac) 4 37)
      by (try reflexivity; rewrite Hepklen; reflexivity).
    exact Hsere.
  - exact Hvalid.
  - exact Hecdh.
  - rewrite Hbody, Htail. reflexivity.
Qed.

End Ecies.

(** *** The model encoders satisfy the hypotheses *)

Lemma Model_b64_inverse (x : bytes) :
  base64_b64decode (Library := Model.lib)
    (PyBytes (base64_b64encode (Encoders := Model.enc) x)) = Some x.
Proof. reflexivity. Qed.

Lemma Model_cbc_inverse (key iv m ct : bytes) :
  pyaes_cbc_encrypt (Encoders := Model.enc) key iv m = Some ct ->
  pyaes_cbc_decrypt (Library := Model.lib) key iv ct = Some m /\ 16 <= len ct.
Proof.
  cbn [pyaes_cbc_encrypt pyaes_cbc_decrypt Model.enc Model.lib].
  unfold Model.cbc_encrypt, Model.cbc_decrypt.
  destruct (len m <? 16) eqn:E; [discriminate|].
  intros H. injection H as <-. apply Z.ltb_ge in E. split; [reflexivity | exact E].
Qed.

Lemma Model_hmac_sha256_len (key msg : bytes) :
  len (hmac_sha256 (Library := Model.lib) key msg) = 32.
Proof.
  cbn [hmac_sha256 Model.lib]. unfold Model.keyed, len.
  rewrite length_firstn, length_app. unfold Model.digest. rewrite length_be_of_Z. lia.
Qed.

Lemma Model_mul_comm (a b : Z) :
  point_mul (Library := Model.lib)
    (point_mul (Library := Model.lib) (generator_secp256k1 (Library := Model.lib)) a) b
  = point_mul (Library := Model.lib)
      (point_mul (Library := Model.lib) (generator_secp256k1 (Library := Model.lib)) b) a.
Proof.
  cbn [point_mul generator_secp256k1 Model.lib]. unfold Model.mul.
  pose proof Model_order_pos as Ho.
  rewrite !Model_scalar_point by (apply Z.mod_pos_bound; exact Ho).
  change (Model.scalar_of (Pt 0 1)) with 1. rewrite !Z.mul_1_l.
  rewrite !Z.mul_mod_idemp_l by lia. f_equal. f_equal. apply Z.mul_comm.
Qed.

Lemma cryptodome_never_returns_witness :
  AES (Library := Model.cryptodome_lib) = true
  /\ exists e,
       aes_encrypt_with_iv (L := Model.cryptodome_lib) (E := Model.enc)
         (PyBytes (repeat x00 16)) (PyBytes (repeat x00 16)) (PyBytes [x01]) = Err e.
Proof.
  split; [reflexivity|].
  destruct (cryptodome_never_returns (L := Model.cryptodome_lib) (E := Model.enc) eq_refl)
    as [H _].
  apply H.
Defined.

Lemma pw_decode_encode_witness :
  fst (pw_decode (L := Model.lib) (E := Model.enc)
         (PyBytes (repeat x00 16 ++ bytes_of_string "sixteen byte text"))
         (Some (PyStr "pw")) [])
  = Ok (PyStr "sixteen byte text").
Proof.
  apply (pw_decode_encode (L := Model.lib) (E := Model.enc) eq_refl Model_b64_inverse
           (fun key iv m ct H => proj1 (Model_cbc_inverse key iv m ct H))
           "sixteen byte text" (PyStr "pw") (repeat x00 16)).
  - reflexivity.
  - reflexivity.
  - reflexivity.
  - vm_compute. reflexivity.
Defined.

Lemma decrypt_message_encrypt_message_witness :
  exists (self : EC_KEY) (cK enc : bytes),
    EC_KEY_init (L := Model.lib) (be_of_Z 32 5) = Ok self
    /\ GetPubKey (pubkey self) true = Ok cK
    /\ EC_KEY_encrypt_message (L := Model.lib) (E := Model.enc)
         (PyBytes (bytes_of_string "sixteen byte text")) cK 7 = Ok enc
    /\ fst (decrypt_message (L := Model.lib) self (PyBytes enc) [])
       = Ok (bytes_of_string "sixteen byte text").
Proof.
  destruct (EC_KEY_init (L := Model.lib) (be_of_Z 32 5)) as [self|e] eqn:H1;
    [|vm_compute in H1; discriminate].
  destruct (GetPubKey (pubkey self) true) as [cK|e] eqn:H2;
    [|vm_compute in H1; injection H1 as <-; vm_compute in H2; discriminate].
  destruct (EC_KEY_encrypt_message (L := Model.lib) (E := Model.enc)
              (PyBytes (bytes_of_string "sixteen byte text")) cK 7) as [enc|e] eqn:H3;
    [|vm_compute in H1; injection H1 as <-; vm_compute in H2; injection H2 as <-;
      vm_compute in H3; discriminate].
  exists self, cK, enc.
  split; [reflexivity | split; [exact H2 | split; [exact H3 |]]].
  exact (decrypt_message_encrypt_message (L := Model.lib) (E := Model.enc)
           (net := mainnet) (laws := Model_laws) eq_refl Model_b64_inverse
           Model_cbc_inverse Model_hmac_sha256_len Model_mul_comm
           (be_of_Z 32 5) self cK (bytes_of_string "sixteen byte text") 7 enc []
           H1 H2 H3).
Defined.
